(** * The attendance / leave / access consistency engine of [App.tsx]

    A shallow embedding of the state handlers of [src/App.tsx] over the data
    model of [src/types.ts], and the properties of the engine proved on it.

    Every handler of the React component reads the collections of the render
    it was created in and replaces whole collections through the setters, so
    a handler is a function from the state of that render to the next
    state. *)

From Stdlib Require Import ZArith QArith Floats Ascii String List Bool Lia.
From stdpp Require Import gmap strings list pretty.

Local Open Scope string_scope.
Local Open Scope Z_scope.
Local Open Scope list_scope.

(** ** JavaScript numbers

    The two percentages of the engine are computed on IEEE-754 binary64
    numbers: a quotient of two array lengths, multiplied by 100.  A finite
    non-negative binary64 value [v] is represented by the integer
    [v * 2^1074]: every such value is a whole number of units of [2^-1074],
    the spacing of the subnormal numbers.  The quotient and the product round
    their exact result to the nearest representable value, ties to the even
    significand.  Overflow to infinity is not represented: the values of the
    engine are at most 100; neither is a division by zero, which both
    percentages guard against. *)

Module Double.

Definition unit_exp : Z := 1074.
Definition one : Z := 2 ^ unit_exp.

(** The number of the integer [n] (exact for [0 <= n < 2^53]). *)
Definition of_Z (n : Z) : Z := n * one.

(** The integer nearest to [a / b], ties to even. *)
Definition rne (a b : Z) : Z :=
  let q := a / b in
  let r := a mod b in
  if 2 * r <? b then q
  else if b <? 2 * r then q + 1
  else if Z.even q then q else q + 1.

(** The exponent [e] of the spacing [2^e] of the representable values
    around [a / b] units: below [2^53] units the representable values are the
    integers, from there on they have 53 significant bits. *)
Definition expo (a b : Z) : Z := Z.max 0 (Z.log2 (a / b) - 52).

(** The representable value nearest to [a / b] units, ties to even. *)
Definition round (a b : Z) : Z :=
  let e := expo a b in
  2 ^ e * rne a (b * 2 ^ e).

Definition div (x y : Z) : Z := round (x * one) y.
Definition mul (x y : Z) : Z := round (x * y) one.
Definition ltb (x y : Z) : bool := x <? y.

(** [Math.round]: the nearest integer, ties towards plus infinity. *)
Definition Math_round (x : Z) : Z := (2 * x + one) / (2 * one).

(** Reading a hardware binary64 value in units of [2^-u], to compare the
    model with the primitive floating-point operations. *)
Definition of_spec_at (u : Z) (f : spec_float) : option Z :=
  match f with
  | S754_zero _ => Some 0
  | S754_finite false m e => if 0 <=? e + u then Some (Z.pos m * 2 ^ (e + u)) else None
  | _ => None
  end.

Definition of_spec (f : spec_float) : option Z := of_spec_at unit_exp f.

Definition prim_of_Z (n : Z) : float := PrimFloat.of_uint63 (Uint63.of_Z n).

(** The percentage expression [(c / n) * 100] on the hardware numbers and
    on the model. *)
Definition prim_percent_spec (c n : Z) : spec_float :=
  Prim2SF (PrimFloat.mul (PrimFloat.div (prim_of_Z c) (prim_of_Z n)) (prim_of_Z 100)).
Definition prim_percent (c n : Z) : option Z := of_spec (prim_percent_spec c n).
Definition percent (c n : Z) : Z := mul (div (of_Z c) (of_Z n)) (of_Z 100).

(** The percentage of [c] out of [n] in units of [2^-u]. *)
Definition percentAt (u c n : Z) : Z := round (round (c * 2 ^ u) n * 100) 1.

Definition small_exp : Z := 128.

(** The model agrees with the hardware on [c / n], in units of [2^-u]. *)
Definition agreesAt (u c n : Z) : bool :=
  match of_spec_at u (prim_percent_spec c n) with
  | Some v => v =? percentAt u c n
  | None => false
  end.

(** The model agrees with the hardware on the quotients [c / n] for [c]
    from 1 to [n] and the [fuel] values of [n] that end at [n]. *)
Fixpoint agreeUpTo (fuel : nat) (u n : Z) : bool :=
  match fuel with
  | O => true
  | S fuel' =>
      forallb (fun c => agreesAt u (Z.of_nat c) n) (seq 1 (Z.to_nat n))
      && agreeUpTo fuel' u (n - 1)
  end.

(** For a score [j]: the percentage of a quotient that is below
    [(j + 1/2) / 100] by [2^-32 / 200] is below [j + 1/2], and the percentage
    of a quotient that is above [(j - 1/2) / 100] by as much is at least
    [j - 1/2]. *)
Definition scoreTable (u j : Z) : bool :=
  (2 * percentAt u ((2 * j + 1) * 2 ^ 32 - 1) (200 * 2 ^ 32) <? (2 * j + 1) * 2 ^ u)
  && ((j =? 0) ||
      ((2 * j - 1) * 2 ^ u <=? 2 * percentAt u ((2 * j - 1) * 2 ^ 32 + 1) (200 * 2 ^ 32))).

End Double.

(** ** JavaScript dates

    A [Date] holds a time value: a number of milliseconds since the epoch,
    or [NaN] for an invalid date ([None] here).  Only the parts that the
    leave synthesizer uses are modelled: the constructor from a string,
    the comparison, [setUTCDate(getUTCDate() + 1)] and the date part of
    [toISOString()]. *)

Module JSDate.

Definition msPerDay : Z := 86400000.
Definition maxTime : Z := 8640000000000000.

Definition TimeClip (t : Z) : option Z :=
  if Z.abs t <=? maxTime then Some t else None.

(** [new Date(s)]: how a host reads a string that is not in the date-time
    format of the language is left to the host, so the reader of strings is
    an argument of the model. *)
Definition construct (parse : string -> option Z) (s : string) : option Z :=
  match parse s with
  | Some t => TimeClip t
  | None => None
  end.

(** [a <= b] on two dates: false as soon as one of them is invalid. *)
Definition le (a b : option Z) : bool :=
  match a, b with
  | Some x, Some y => x <=? y
  | _, _ => false
  end.

(** [d.setUTCDate(d.getUTCDate() + 1)]: the same time of day, one day on. *)
Definition nextUTCDate (t : Z) : option Z := TimeClip (t + msPerDay).

Definition Day (t : Z) : Z := t / msPerDay.

(** Year, month (1 to 12) and day of the month of a day number, in the
    proleptic Gregorian calendar: the day is located in its cycle of 400
    years, counted from the first of March. *)
Definition civil (z : Z) : Z * Z * Z :=
  let z := z + 719468 in
  let era := z / 146097 in
  let doe := z - era * 146097 in
  let yoe := (doe - doe / 1460 + doe / 36524 - doe / 146096) / 365 in
  let doy := doe - (365 * yoe + yoe / 4 - yoe / 100) in
  let mp := (5 * doy + 2) / 153 in
  let d := doy - (153 * mp + 2) / 5 + 1 in
  let m := if mp <? 10 then mp + 3 else mp - 9 in
  let y := yoe + era * 400 + (if m <=? 2 then 1 else 0) in
  (y, m, d).

(** The day number of a calendar date. *)
Definition days (y m d : Z) : Z :=
  let y := if m <=? 2 then y - 1 else y in
  let era := y / 400 in
  let yoe := y - era * 400 in
  let mp := if 2 <? m then m - 3 else m + 9 in
  let doy := (153 * mp + 2) / 5 + d - 1 in
  let doe := yoe * 365 + yoe / 4 - yoe / 100 + doy in
  era * 146097 + doe - 719468.

Definition digit (n : Z) : ascii := ascii_of_N (48 + Z.to_N n).

(** [n] written with [w] decimal digits. *)
Fixpoint pad (w : nat) (n : Z) : string :=
  match w with
  | O => EmptyString
  | S w' => pad w' (n / 10) +:+ String (digit (n mod 10)) EmptyString
  end.

(** Years from 0 to 9999 have four digits, the others a sign and six. *)
Definition yearString (y : Z) : string :=
  if (0 <=? y) && (y <=? 9999) then pad 4 y
  else String (if 0 <=? y then "+"%char else "-"%char) (pad 6 (Z.abs y)).

Definition dateString (y m d : Z) : string :=
  yearString y +:+ "-" +:+ pad 2 m +:+ "-" +:+ pad 2 d.

(** [d.toISOString().split('T')[0]] *)
Definition toISODate (t : Z) : string :=
  let '(y, m, d) := civil (Day t) in dateString y m d.

(** A reader for the examples, the one of V8 (node, Chrome) on the strings
    [YYYY-MM-DDT00:00:00Z]: a month from 01 to 12 and a day from 01 to 31 are
    read, and the day counts on from the first of the month, so that
    2024-02-30 is the first of March; with another month or day the date is
    invalid.  The examples give the reader no string of another form; it
    answers them with an invalid date. *)
Definition digitValue (c : ascii) : option Z :=
  let n := Z.of_N (N_of_ascii c) in
  if (48 <=? n) && (n <=? 57) then Some (n - 48) else None.

Fixpoint number (acc : Z) (cs : list ascii) : option Z :=
  match cs with
  | [] => Some acc
  | c :: cs' =>
      match digitValue c with
      | Some v => number (acc * 10 + v) cs'
      | None => None
      end
  end.

Definition isoParse (s : string) : option Z :=
  match list_ascii_of_string s with
  | [y1; y2; y3; y4; d1; m1; m2; d2; a1; a2; t; h1; h2; c1; n1; n2; c2; s1; s2; z] =>
      if String.eqb (string_of_list_ascii [d1; d2; t; h1; h2; c1; n1; n2; c2; s1; s2; z])
                    "--T00:00:00Z"
      then
        match number 0 [y1; y2; y3; y4], number 0 [m1; m2], number 0 [a1; a2] with
        | Some y, Some m, Some d =>
            if (1 <=? m) && (m <=? 12) && (1 <=? d) && (d <=? 31)
            then Some (days y m d * msPerDay) else None
        | _, _, _ => None
        end
      else None
  | _ => None
  end.

End JSDate.

(** ** The data model of [types.ts] *)

Module UserRole.
Inductive t := Student | Teacher | Parent.
Definition eqb (a b : t) : bool :=
  match a, b with
  | Student, Student | Teacher, Teacher | Parent, Parent => true
  | _, _ => false
  end.
End UserRole.

Record User := {
  user_id : string;
  user_name : string;
  user_email : string;
  user_role : UserRole.t;
  user_password : option string;
  user_mobile : option string;
  user_registeredPhotoUrl : string;
  user_childId : option string;
  user_enableScanOnLogin : option bool
}.

Inductive AttendanceStatus := Present | Absent | Late.

Record AttendanceRecord := {
  rec_date : string;
  rec_subject : string;
  rec_teacherName : string;
  rec_timestamp : string;
  rec_status : AttendanceStatus
}.

Record DailyPlanItem := {
  plan_day : string;
  plan_focus_topic : string;
  plan_learning_activity : string;
  plan_practice_task : string;
  plan_estimated_time : string
}.

Record LearningPath := {
  path_overall_summary : string;
  path_daily_plan : list DailyPlanItem
}.

Module AssignmentStatus.
Inductive t := Graded | Submitted | Pending | Late.
End AssignmentStatus.

(** The numbers that the engine only carries along (scores of assignments,
    durations, time stamps) are integers here. *)
Record Assignment := {
  assignment_id : string;
  assignment_title : string;
  assignment_dueDate : string;
  assignment_submittedDate : option string;
  assignment_status : AssignmentStatus.t;
  assignment_score : option Z;
  assignment_maxScore : Z
}.

Record SubjectProgress := {
  progress_subjectName : string;
  progress_overallGrade : string;
  progress_teacherFeedback : string;
  progress_assignments : list Assignment
}.

Inductive EngagementStatus := Engaged | Neutral | Disengaged | Unknown.

Inductive BehaviourStatus := Good | NeedsImprovement.

(** ['Low Attendance' | 'Behaviour Issue' | 'Attendance & Behaviour'];
    [null] is [None]. *)
Inductive BlockReason := LowAttendance | BehaviourIssue | AttendanceAndBehaviour.

Record Student := {
  student_id : string;
  student_name : string;
  student_rollNumber : string;
  student_department : string;
  student_attendance : list AttendanceRecord;
  student_learningPath : option LearningPath;
  student_isAccessBlocked : bool;
  student_behaviourStatus : BehaviourStatus;
  student_blockReason : option BlockReason;
  student_progress : list SubjectProgress;
  student_temporaryAccessExpires : option Z;
  student_engagementStatus : option EngagementStatus
}.

Module LeaveStatus.
Inductive t := Pending | Approved | Rejected.
End LeaveStatus.

(** The decision of a teacher: ['Approved' | 'Rejected']. *)
Inductive LeaveDecision := Approved | Rejected.

Definition decided (d : LeaveDecision) : LeaveStatus.t :=
  match d with
  | Approved => LeaveStatus.Approved
  | Rejected => LeaveStatus.Rejected
  end.

Record LeaveApplication := {
  leave_id : string;
  leave_studentId : string;
  leave_studentName : string;
  leave_studentRollNumber : string;
  leave_startDate : string;
  leave_endDate : string;
  leave_reason : string;
  leave_documentUrl : option string;
  leave_status : LeaveStatus.t;
  leave_teacherComment : option string;
  leave_applicationDate : string
}.

Record Question := {
  question_id : string;
  question_text : string;
  question_options : list string;
  question_correctAnswer : string
}.

(** [exam_questions] is [None] when the stored value is not an array, which
    [handleSubmitExam] tests for. *)
Record Exam := {
  exam_id : string;
  exam_title : string;
  exam_subject : string;
  exam_durationMinutes : Z;
  exam_createdBy : string;
  exam_questions : option (list Question)
}.

Inductive SubmissionStatus := Completed | Blocked.

Record ExamSubmission := {
  submission_id : string;
  submission_examId : string;
  submission_studentId : string;
  submission_studentName : string;
  submission_answers : gmap string string;
  submission_submittedAt : Z;
  submission_score : Z;
  submission_status : SubmissionStatus
}.

(** [Omit<ExamSubmission, 'id' | 'score' | 'studentName'>] *)
Record SubmissionData := {
  data_examId : string;
  data_studentId : string;
  data_answers : gmap string string;
  data_submittedAt : Z;
  data_status : SubmissionStatus
}.

(** [Omit<LeaveApplication, 'id' | 'status' | 'applicationDate'>] *)
Record ApplicationData := {
  adata_studentId : string;
  adata_studentName : string;
  adata_studentRollNumber : string;
  adata_startDate : string;
  adata_endDate : string;
  adata_reason : string;
  adata_documentUrl : option string;
  adata_teacherComment : option string
}.

(** The argument of [handleSignup]. *)
Record SignupDetails := {
  details_name : string;
  details_email : string;
  details_role : UserRole.t;
  details_password : string;
  details_childEmail : option string;
  details_registeredPhotoUrl : string
}.

(** ** The state of the component *)

Record State := {
  currentUser : option User;
  users : list User;
  students : list Student;
  leaveApplications : list LeaveApplication;
  exams : list Exam;
  examSubmissions : list ExamSubmission;
  isLoginView : bool;
  authError : option string;
  isIdlePromptVisible : bool
}.

Definition setCurrentUser (v : option User) (st : State) : State :=
  {| currentUser := v; users := users st; students := students st;
     leaveApplications := leaveApplications st; exams := exams st;
     examSubmissions := examSubmissions st; isLoginView := isLoginView st;
     authError := authError st; isIdlePromptVisible := isIdlePromptVisible st |}.

Definition setUsers (v : list User) (st : State) : State :=
  {| currentUser := currentUser st; users := v; students := students st;
     leaveApplications := leaveApplications st; exams := exams st;
     examSubmissions := examSubmissions st; isLoginView := isLoginView st;
     authError := authError st; isIdlePromptVisible := isIdlePromptVisible st |}.

Definition setStudents (v : list Student) (st : State) : State :=
  {| currentUser := currentUser st; users := users st; students := v;
     leaveApplications := leaveApplications st; exams := exams st;
     examSubmissions := examSubmissions st; isLoginView := isLoginView st;
     authError := authError st; isIdlePromptVisible := isIdlePromptVisible st |}.

Definition setLeaveApplications (v : list LeaveApplication) (st : State) : State :=
  {| currentUser := currentUser st; users := users st; students := students st;
     leaveApplications := v; exams := exams st;
     examSubmissions := examSubmissions st; isLoginView := isLoginView st;
     authError := authError st; isIdlePromptVisible := isIdlePromptVisible st |}.

Definition setExams (v : list Exam) (st : State) : State :=
  {| currentUser := currentUser st; users := users st; students := students st;
     leaveApplications := leaveApplications st; exams := v;
     examSubmissions := examSubmissions st; isLoginView := isLoginView st;
     authError := authError st; isIdlePromptVisible := isIdlePromptVisible st |}.

Definition setExamSubmissions (v : list ExamSubmission) (st : State) : State :=
  {| currentUser := currentUser st; users := users st; students := students st;
     leaveApplications := leaveApplications st; exams := exams st;
     examSubmissions := v; isLoginView := isLoginView st;
     authError := authError st; isIdlePromptVisible := isIdlePromptVisible st |}.

Definition setIsLoginView (v : bool) (st : State) : State :=
  {| currentUser := currentUser st; users := users st; students := students st;
     leaveApplications := leaveApplications st; exams := exams st;
     examSubmissions := examSubmissions st; isLoginView := v;
     authError := authError st; isIdlePromptVisible := isIdlePromptVisible st |}.

Definition setAuthError (v : option string) (st : State) : State :=
  {| currentUser := currentUser st; users := users st; students := students st;
     leaveApplications := leaveApplications st; exams := exams st;
     examSubmissions := examSubmissions st; isLoginView := isLoginView st;
     authError := v; isIdlePromptVisible := isIdlePromptVisible st |}.

Definition setIsIdlePromptVisible (v : bool) (st : State) : State :=
  {| currentUser := currentUser st; users := users st; students := students st;
     leaveApplications := leaveApplications st; exams := exams st;
     examSubmissions := examSubmissions st; isLoginView := isLoginView st;
     authError := authError st; isIdlePromptVisible := v |}.

(** ** Array methods *)

(** [l.findIndex(p)]: [None] stands for [-1]. *)
Fixpoint findIndex {A} (p : A -> bool) (l : list A) : option nat :=
  match l with
  | [] => None
  | x :: l' => if p x then Some O else option_map S (findIndex p l')
  end.

(** [l.find(p)]: the first element that satisfies [p]. *)
Definition find {A} (p : A -> bool) (l : list A) : option A := List.find p l.

(** [l.some(p)] *)
Definition some {A} (p : A -> bool) (l : list A) : bool := existsb p l.

(** ** The access-block effect (the login [useEffect]) *)

Definition isPresent (a : AttendanceRecord) : bool :=
  match rec_status a with Present => true | _ => false end.

(** [totalClasses > 0 ? (presentClasses / totalClasses) * 100 : 100] *)
Definition attendancePercentage (attendance : list AttendanceRecord) : Z :=
  let totalClasses := Z.of_nat (length attendance) in
  let presentClasses := Z.of_nat (length (List.filter isPresent attendance)) in
  if 0 <? totalClasses
  then Double.mul (Double.div (Double.of_Z presentClasses) (Double.of_Z totalClasses))
                  (Double.of_Z 100)
  else Double.of_Z 100.

Definition isLowAttendance (attendance : list AttendanceRecord) : bool :=
  Double.ltb (attendancePercentage attendance) (Double.of_Z 75).

Definition withBlock (s : Student) (blocked : bool) (reason : option BlockReason) : Student :=
  {| student_id := student_id s; student_name := student_name s;
     student_rollNumber := student_rollNumber s;
     student_department := student_department s;
     student_attendance := student_attendance s;
     student_learningPath := student_learningPath s;
     student_isAccessBlocked := blocked;
     student_behaviourStatus := student_behaviourStatus s;
     student_blockReason := reason;
     student_progress := student_progress s;
     student_temporaryAccessExpires := student_temporaryAccessExpires s;
     student_engagementStatus := student_engagementStatus s |}.

Definition isBehaviourIssue (r : option BlockReason) : bool :=
  match r with Some BehaviourIssue => true | _ => false end.

(** The body of the effect on the record of the student: the updated copy
    when [needsUpdate] is set, [None] when nothing is written. *)
Definition evaluateBlock (studentData : Student) : option Student :=
  if isLowAttendance (student_attendance studentData) then
    if negb (student_isAccessBlocked studentData)
    then Some (withBlock studentData true (Some LowAttendance))
    else if isBehaviourIssue (student_blockReason studentData)
    then Some (withBlock studentData (student_isAccessBlocked studentData)
                         (Some AttendanceAndBehaviour))
    else None
  else None.

(** What the evaluation leaves as the record of the student. *)
Definition evaluated (studentData : Student) : Student :=
  match evaluateBlock studentData with
  | Some updatedStudent => updatedStudent
  | None => studentData
  end.

Definition accessBlockEffect (st : State) : State :=
  match currentUser st with
  | Some user =>
      if UserRole.eqb (user_role user) UserRole.Student then
        match findIndex (fun s => String.eqb (student_id s) (user_id user)) (students st) with
        | None => st
        | Some studentIndex =>
            match students st !! studentIndex with
            | Some studentData =>
                match evaluateBlock studentData with
                | Some updatedStudent =>
                    setStudents (<[studentIndex := updatedStudent]> (students st)) st
                | None => st
                end
            | None => st
            end
        end
      else st
  | None => st
  end.

(** ** Login and signup *)

Definition passwordIs (u : User) (pass : string) : bool :=
  match user_password u with
  | Some p => String.eqb p pass
  | None => false
  end.

Definition handleLogin (email pass : string) (st : State) : State :=
  match find (fun u => String.eqb (user_email u) email && passwordIs u pass) (users st) with
  | Some user => setAuthError None (setCurrentUser (Some user) st)
  | None => setAuthError (Some "Invalid email or password.") st
  end.

Definition handleLogout (st : State) : State :=
  setCurrentUser None (setIsIdlePromptVisible false st).

(** A login followed by the effect that the change of [currentUser] runs. *)
Definition login (email pass : string) (st : State) : State :=
  accessBlockEffect (handleLogin email pass st).

(** [!details.childEmail]: the field is absent or the empty string. *)
Definition falsy (s : option string) : bool :=
  match s with
  | None => true
  | Some v => String.eqb v ""
  end.

(** [handleSignup].  [department] is [MOCK_STUDENTS[0].department], [now] the
    value of [Date.now()] and [roll] the value of
    [Math.floor(Math.random() * 900)] of the call. *)
Definition handleSignup (department : string) (now roll : Z)
    (details : SignupDetails) (st : State) : State :=
  match find (fun u => String.eqb (user_email u) (details_email details)) (users st) with
  | Some _ =>
      setIsLoginView true
        (setAuthError (Some "An account with this email already exists.") st)
  | None =>
      let newUserId := "user-" +:+ pretty now in
      let newUser (childId : option string) : User :=
        {| user_id := newUserId; user_name := details_name details;
           user_email := details_email details; user_role := details_role details;
           user_password := Some (details_password details); user_mobile := None;
           user_registeredPhotoUrl := details_registeredPhotoUrl details;
           user_childId := childId; user_enableScanOnLogin := Some true |} in
      let finish (u : User) (st' : State) : State :=
        setAuthError None (setCurrentUser (Some u) (setUsers (users st ++ [u]) st')) in
      match details_role details with
      | UserRole.Student =>
          let newStudent : Student :=
            {| student_id := newUserId; student_name := details_name details;
               student_rollNumber := "S" +:+ pretty (roll + 100);
               student_department := department;
               student_attendance := [];
               student_learningPath := None;
               student_isAccessBlocked := false;
               student_behaviourStatus := Good;
               student_blockReason := None;
               student_progress := [];
               student_temporaryAccessExpires := None;
               student_engagementStatus := None |} in
          finish (newUser None) (setStudents (students st ++ [newStudent]) st)
      | UserRole.Parent =>
          if falsy (details_childEmail details) then
            setAuthError
              (Some "Please provide your child's email to create a parent account.") st
          else
            match find (fun u => bool_decide (Some (user_email u) = details_childEmail details)
                                 && UserRole.eqb (user_role u) UserRole.Student)
                       (users st) with
            | None =>
                setAuthError
                  (Some ("No student account found with the email: "
                         +:+ default "" (details_childEmail details)
                         +:+ ". Please verify the email.")) st
            | Some childUser => finish (newUser (Some (user_id childUser))) st
            end
      | UserRole.Teacher => finish (newUser None) st
      end
  end.

(** ** Leave applications *)

(** [handleApplyForLeave]; [now] is [Date.now()] and [applicationDate] is
    [new Date().toISOString()]. *)
Definition handleApplyForLeave (now : Z) (applicationDate : string)
    (applicationData : ApplicationData) (st : State) : State :=
  let newApplication :=
    {| leave_id := "leave-" +:+ pretty now;
       leave_studentId := adata_studentId applicationData;
       leave_studentName := adata_studentName applicationData;
       leave_studentRollNumber := adata_studentRollNumber applicationData;
       leave_startDate := adata_startDate applicationData;
       leave_endDate := adata_endDate applicationData;
       leave_reason := adata_reason applicationData;
       leave_documentUrl := adata_documentUrl applicationData;
       leave_status := LeaveStatus.Pending;
       leave_teacherComment := adata_teacherComment applicationData;
       leave_applicationDate := applicationDate |} in
  setLeaveApplications (leaveApplications st ++ [newApplication]) st.

Definition onApprovedLeave : string := "On Approved Leave".

(** [rec.date === dateString && rec.subject === 'On Approved Leave'] *)
Definition isLeaveRecordFor (dateString : string) (rec : AttendanceRecord) : bool :=
  String.eqb (rec_date rec) dateString && String.eqb (rec_subject rec) onApprovedLeave.

Definition leaveRecord (teacherName dateString : string) : AttendanceRecord :=
  {| rec_date := dateString; rec_subject := onApprovedLeave;
     rec_teacherName := teacherName; rec_timestamp := "All Day";
     rec_status := Present |}.

(** The body of the loop for one day. *)
Definition markLeaveDay (teacherName : string)
    (newAttendanceRecords : list AttendanceRecord) (dateString : string)
    : list AttendanceRecord :=
  let hasLeaveRecordForDay := some (isLeaveRecordFor dateString) newAttendanceRecords in
  if negb hasLeaveRecordForDay
  then newAttendanceRecords ++ [leaveRecord teacherName dateString]
  else newAttendanceRecords.

(** [for (let d = startDate; d <= endDate; d.setUTCDate(d.getUTCDate() + 1))]:
    [fuel] bounds the number of rounds. *)
Fixpoint leaveLoop (fuel : nat) (teacherName : string) (d endDate : option Z)
    (newAttendanceRecords : list AttendanceRecord) : list AttendanceRecord :=
  match fuel with
  | O => newAttendanceRecords
  | S fuel' =>
      match d with
      | Some t =>
          if JSDate.le d endDate
          then leaveLoop fuel' teacherName (JSDate.nextUTCDate t) endDate
                 (markLeaveDay teacherName newAttendanceRecords (JSDate.toISODate t))
          else newAttendanceRecords
      | None => newAttendanceRecords
      end
  end.

(** The number of rounds of the loop: the days from [d] to [endDate]. *)
Definition leaveDays (d endDate : option Z) : nat :=
  match d, endDate with
  | Some s, Some e => Z.to_nat ((e - s) / JSDate.msPerDay + 1)
  | _, _ => O
  end.

(** The time values that [d] takes in the rounds of the loop. *)
Definition loopTimes (s e : Z) : list Z :=
  map (fun k => s + Z.of_nat k * JSDate.msPerDay)
      (seq 0 (Z.to_nat ((e - s) / JSDate.msPerDay + 1))).

(** The dates of the rounds of the loop. *)
Definition leaveDates (s e : Z) : list string := map JSDate.toISODate (loopTimes s e).

Definition hasLeaveRecord (attendance : list AttendanceRecord) (dateString : string) : bool :=
  some (isLeaveRecordFor dateString) attendance.

(** The dates among [dates] without a leave record in [attendance]. *)
Definition missingDates (attendance : list AttendanceRecord) (dates : list string)
    : list string :=
  List.filter (fun dateString => negb (hasLeaveRecord attendance dateString)) dates.

(** The number of leave records of a date. *)
Definition countLeave (dateString : string) (attendance : list AttendanceRecord) : nat :=
  length (List.filter (isLeaveRecordFor dateString) attendance).

(** The dates of a leave: those of the rounds of the loop, none when one
    of the two dates is invalid. *)
Definition leaveRange (parse : string -> option Z) (application : LeaveApplication)
    : list string :=
  match JSDate.construct parse (leave_startDate application +:+ "T00:00:00Z"),
        JSDate.construct parse (leave_endDate application +:+ "T00:00:00Z") with
  | Some s, Some e => leaveDates s e
  | _, _ => []
  end.

(** [teacher?.name || 'System'] *)
Definition teacherNameOr (teacher : option User) (fallback : string) : string :=
  match teacher with
  | Some u => if String.eqb (user_name u) "" then fallback else user_name u
  | None => fallback
  end.

Definition isTeacher (u : User) : bool := UserRole.eqb (user_role u) UserRole.Teacher.

Definition withDecision (application : LeaveApplication) (status : LeaveStatus.t)
    (teacherComment : option string) : LeaveApplication :=
  {| leave_id := leave_id application;
     leave_studentId := leave_studentId application;
     leave_studentName := leave_studentName application;
     leave_studentRollNumber := leave_studentRollNumber application;
     leave_startDate := leave_startDate application;
     leave_endDate := leave_endDate application;
     leave_reason := leave_reason application;
     leave_documentUrl := leave_documentUrl application;
     leave_status := status;
     leave_teacherComment := teacherComment;
     leave_applicationDate := leave_applicationDate application |}.

Definition withAttendance (s : Student) (attendance : list AttendanceRecord) : Student :=
  {| student_id := student_id s; student_name := student_name s;
     student_rollNumber := student_rollNumber s;
     student_department := student_department s;
     student_attendance := attendance;
     student_learningPath := student_learningPath s;
     student_isAccessBlocked := student_isAccessBlocked s;
     student_behaviourStatus := student_behaviourStatus s;
     student_blockReason := student_blockReason s;
     student_progress := student_progress s;
     student_temporaryAccessExpires := student_temporaryAccessExpires s;
     student_engagementStatus := student_engagementStatus s |}.

(** The attendance of a student after the leave of [application] is marked. *)
Definition synthesizeLeave (parse : string -> option Z) (allUsers : list User)
    (application : LeaveApplication) (attendance : list AttendanceRecord)
    : list AttendanceRecord :=
  let teacher := find isTeacher allUsers in
  let startDate := JSDate.construct parse (leave_startDate application +:+ "T00:00:00Z") in
  let endDate := JSDate.construct parse (leave_endDate application +:+ "T00:00:00Z") in
  leaveLoop (leaveDays startDate endDate) (teacherNameOr teacher "System")
            startDate endDate attendance.

Definition handleUpdateLeaveStatus (parse : string -> option Z)
    (applicationId : string) (status : LeaveDecision) (teacherComment : option string)
    (st : State) : State :=
  match findIndex (fun app => String.eqb (leave_id app) applicationId)
                  (leaveApplications st) with
  | None => st
  | Some applicationIndex =>
      match leaveApplications st !! applicationIndex with
      | None => st
      | Some application =>
          let updatedApplication := withDecision application (decided status) teacherComment in
          let st1 :=
            setLeaveApplications
              (<[applicationIndex := updatedApplication]> (leaveApplications st)) st in
          match status with
          | Approved =>
              match findIndex (fun s => String.eqb (student_id s) (leave_studentId application))
                              (students st) with
              | None => st1
              | Some studentIndex =>
                  match students st !! studentIndex with
                  | None => st1
                  | Some studentToUpdate =>
                      let newAttendanceRecords :=
                        synthesizeLeave parse (users st) application
                                        (student_attendance studentToUpdate) in
                      setStudents
                        (<[studentIndex := withAttendance studentToUpdate newAttendanceRecords]>
                           (students st)) st1
                  end
              end
          | Rejected => st1
          end
      end
  end.

(** The shapes of the state after [handleUpdateLeaveStatus]: the state
    itself when no application has the identifier, the state with the decided
    application when the leave is rejected or its student is not found, and
    that state with the marked attendance of the student otherwise. *)
Inductive Outcome (parse : string -> option Z) (applicationId : string)
    (teacherComment : option string) (st : State) (status : LeaveDecision)
    : State -> Prop :=
  | Unknown_application :
      findIndex (fun app => String.eqb (leave_id app) applicationId)
                (leaveApplications st) = None ->
      Outcome parse applicationId teacherComment st status st
  | Decided i application :
      findIndex (fun app => String.eqb (leave_id app) applicationId)
                (leaveApplications st) = Some i ->
      leaveApplications st !! i = Some application ->
      (status = Rejected \/
       findIndex (fun s => String.eqb (student_id s) (leave_studentId application))
                 (students st) = None) ->
      Outcome parse applicationId teacherComment st status
        (setLeaveApplications
           (<[i := withDecision application (decided status) teacherComment]>
              (leaveApplications st)) st)
  | Synthesized i application j studentToUpdate :
      status = Approved ->
      findIndex (fun app => String.eqb (leave_id app) applicationId)
                (leaveApplications st) = Some i ->
      leaveApplications st !! i = Some application ->
      findIndex (fun s => String.eqb (student_id s) (leave_studentId application))
                (students st) = Some j ->
      students st !! j = Some studentToUpdate ->
      Outcome parse applicationId teacherComment st status
        (setStudents
           (<[j := withAttendance studentToUpdate
                     (synthesizeLeave parse (users st) application
                        (student_attendance studentToUpdate))]> (students st))
           (setLeaveApplications
              (<[i := withDecision application LeaveStatus.Approved teacherComment]>
                 (leaveApplications st)) st)).

(** ** Exams *)

Definition handleDeleteExam (examId : string) (st : State) : State :=
  setExamSubmissions
    (List.filter (fun s => negb (String.eqb (submission_examId s) examId)) (examSubmissions st))
    (setExams (List.filter (fun e => negb (String.eqb (exam_id e) examId)) (exams st)) st).

(** [q.correctAnswer === submission.answers[q.id]] *)
Definition isCorrect (answers : gmap string string) (q : Question) : bool :=
  match answers !! question_id q with
  | Some a => String.eqb (question_correctAnswer q) a
  | None => false
  end.

(** The counter that the [forEach] over the questions leaves. *)
Definition countCorrect (answers : gmap string string) (questions : list Question) : Z :=
  fold_left (fun correctAnswers q => if isCorrect answers q then correctAnswers + 1
                                     else correctAnswers)
            questions 0.

(** [Math.round(score)] for the score of [correctAnswers] out of [total]. *)
Definition examScore (correctAnswers total : Z) : Z :=
  let score :=
    if 0 <? total
    then Double.mul (Double.div (Double.of_Z correctAnswers) (Double.of_Z total))
                    (Double.of_Z 100)
    else Double.of_Z 0 in
  Double.Math_round score.

(** [handleSubmitExam]; [now] is the value of [Date.now()]. *)
Definition handleSubmitExam (now : Z) (submission : SubmissionData) (st : State) : State :=
  match find (fun e => String.eqb (exam_id e) (data_examId submission)) (exams st),
        currentUser st with
  | Some exam, Some user =>
      match exam_questions exam with
      | Some questions =>
          let correctAnswers := countCorrect (data_answers submission) questions in
          let newSubmission :=
            {| submission_id := "sub-" +:+ pretty now;
               submission_examId := data_examId submission;
               submission_studentId := data_studentId submission;
               submission_studentName := user_name user;
               submission_answers := data_answers submission;
               submission_submittedAt := data_submittedAt submission;
               submission_score := examScore correctAnswers (Z.of_nat (length questions));
               submission_status := data_status submission |} in
          setExamSubmissions (examSubmissions st ++ [newSubmission]) st
      | None => st
      end
  | _, _ => st
  end.

(** ** Exact arithmetic, to compare the numbers of the engine with *)

(** [100 * Present-count / total] as a rational number, 100 without
    records. *)
Definition exactPercentage (attendance : list AttendanceRecord) : Q :=
  let totalClasses := Z.of_nat (length attendance) in
  let presentClasses := Z.of_nat (length (List.filter isPresent attendance)) in
  if totalClasses =? 0 then 100 # 1
  else (100 * presentClasses) # (Z.to_pos totalClasses).

(** [100 * correct / total] rounded to the nearest integer, the half
    upwards; 0 without questions. *)
Definition roundedPercentage (correct total : Z) : Z :=
  if total =? 0 then 0 else (200 * correct + total) / (2 * total).


(** ** A school to run the handlers on *)

Module Demo.

Definition teacher : User :=
  {| user_id := "user-1"; user_name := "T. Marlow"; user_email := "teacher@school.com";
     user_role := UserRole.Teacher; user_password := Some "chalk"; user_mobile := None;
     user_registeredPhotoUrl := "teacher.png"; user_childId := None;
     user_enableScanOnLogin := Some true |}.

Definition pupil : User :=
  {| user_id := "user-2"; user_name := "P. Quill"; user_email := "student@school.com";
     user_role := UserRole.Student; user_password := Some "slate"; user_mobile := None;
     user_registeredPhotoUrl := "pupil.png"; user_childId := None;
     user_enableScanOnLogin := Some true |}.

Definition class (date subject : string) (status : AttendanceStatus) : AttendanceRecord :=
  {| rec_date := date; rec_subject := subject; rec_teacherName := "T. Marlow";
     rec_timestamp := "09:05 AM"; rec_status := status |}.

Definition quill (attendance : list AttendanceRecord) (blocked : bool)
    (reason : option BlockReason) : Student :=
  {| student_id := "user-2"; student_name := "P. Quill"; student_rollNumber := "S101";
     student_department := "Science"; student_attendance := attendance;
     student_learningPath := None; student_isAccessBlocked := blocked;
     student_behaviourStatus := Good; student_blockReason := reason;
     student_progress := []; student_temporaryAccessExpires := None;
     student_engagementStatus := None |}.

Definition other : Student :=
  {| student_id := "user-3"; student_name := "R. Finch"; student_rollNumber := "S102";
     student_department := "Arts";
     student_attendance := [class "2024-01-10" onApprovedLeave Present];
     student_learningPath := None; student_isAccessBlocked := false;
     student_behaviourStatus := Good; student_blockReason := None;
     student_progress := []; student_temporaryAccessExpires := None;
     student_engagementStatus := None |}.

Definition week : list AttendanceRecord :=
  [class "2024-01-08" "Physics" Present; class "2024-01-09" "Physics" Absent].

Definition leave (id studentId startDate endDate : string) : LeaveApplication :=
  {| leave_id := id; leave_studentId := studentId; leave_studentName := "P. Quill";
     leave_studentRollNumber := "S101"; leave_startDate := startDate;
     leave_endDate := endDate; leave_reason := "family"; leave_documentUrl := None;
     leave_status := LeaveStatus.Pending; leave_teacherComment := None;
     leave_applicationDate := "2024-01-05T08:00:00.000Z" |}.

Definition question (id correctAnswer : string) : Question :=
  {| question_id := id; question_text := "?"; question_options := ["A"; "B"; "C"; "D"];
     question_correctAnswer := correctAnswer |}.

Definition exam (id : string) (questions : list Question) : Exam :=
  {| exam_id := id; exam_title := "Quiz"; exam_subject := "Physics";
     exam_durationMinutes := 30; exam_createdBy := "user-1";
     exam_questions := Some questions |}.

Definition submission (id examId : string) : ExamSubmission :=
  {| submission_id := id; submission_examId := examId; submission_studentId := "user-2";
     submission_studentName := "P. Quill"; submission_answers := ∅;
     submission_submittedAt := 1704900000000; submission_score := 50;
     submission_status := Completed |}.

Definition school : State :=
  {| currentUser := Some pupil;
     users := [teacher; pupil];
     students := [other; quill week false None];
     leaveApplications := [leave "leave-1" "user-2" "2024-01-10" "2024-01-12";
                           leave "leave-2" "user-9" "2024-01-10" "2024-01-10"];
     exams := [exam "exam-1" [question "q1" "A"; question "q2" "B";
                              question "q3" "C"; question "q4" "D"];
               exam "exam-2" []];
     examSubmissions := [submission "sub-1" "exam-1"; submission "sub-2" "exam-2";
                         submission "sub-3" "exam-1"];
     isLoginView := true; authError := None; isIdlePromptVisible := false |}.

(** Three of the four answers are right. *)
Definition answers : gmap string string :=
  <["q1" := "A"]> (<["q2" := "B"]> (<["q3" := "C"]> (<["q4" := "A"]> ∅))).

Definition paper (examId : string) : SubmissionData :=
  {| data_examId := examId; data_studentId := "user-2"; data_answers := answers;
     data_submittedAt := 1704900000000; data_status := Completed |}.

End Demo.

Module Demo40.

(** An exam of forty questions whose answer is "A", and a paper that answers
    "A" to the first twenty-three and "B" to the others. *)
Definition questions : list Question :=
  map (fun k => Demo.question ("q" +:+ pretty k) "A") (seq 0 40).

Definition answers : gmap string string :=
  list_to_map (map (fun k => ("q" +:+ pretty k, if (k <? 23)%nat then "A" else "B"))
                   (seq 0 40)).

Definition school : State := setExams [Demo.exam "exam-40" questions] Demo.school.

Definition paper : SubmissionData :=
  {| data_examId := "exam-40"; data_studentId := "user-2"; data_answers := answers;
     data_submittedAt := 1704900000000; data_status := Completed |}.

End Demo40.

(** ** The other handlers of [App.tsx] *)

(** The values of the enumeration [UserRole]. *)
Definition roleValue (role : UserRole.t) : string :=
  match role with
  | UserRole.Student => "student"
  | UserRole.Teacher => "teacher"
  | UserRole.Parent => "parent"
  end.

Definition handleSocialLogin (role : UserRole.t) (st : State) : State :=
  match find (fun u => UserRole.eqb (user_role u) role) (users st) with
  | Some user => setAuthError None (setCurrentUser (Some user) st)
  | None => setAuthError (Some ("No mock user found for role: " +:+ roleValue role)) st
  end.

(** ['email' | 'mobile'] *)
Inductive IdentifierType := ByEmail | ByMobile.

Definition handleProviderLogin (identifier : string) (type : IdentifierType)
    (st : State) : State :=
  let user :=
    match type with
    | ByEmail => find (fun u => String.eqb (user_email u) identifier) (users st)
    | ByMobile => find (fun u => bool_decide (user_mobile u = Some identifier)) (users st)
    end in
  match user with
  | Some user => setAuthError None (setCurrentUser (Some user) st)
  | None => setAuthError (Some "User not found.") st
  end.

Definition handleUpdateUser (updatedUser : User) (st : State) : State :=
  let newUsers :=
    map (fun u => if String.eqb (user_id u) (user_id updatedUser) then updatedUser else u)
        (users st) in
  let st1 := setUsers newUsers st in
  match currentUser st with
  | Some user =>
      if String.eqb (user_id user) (user_id updatedUser)
      then setCurrentUser (Some updatedUser) st1
      else st1
  | None => st1
  end.

Definition handleSaveExam (examToSave : Exam) (st : State) : State :=
  match findIndex (fun e => String.eqb (exam_id e) (exam_id examToSave)) (exams st) with
  | Some index => setExams (<[index := examToSave]> (exams st)) st
  | None => setExams (exams st ++ [examToSave]) st
  end.

Definition handleDeleteSubmission (submissionId : string) (st : State) : State :=
  setExamSubmissions
    (List.filter (fun s => negb (String.eqb (submission_id s) submissionId))
                 (examSubmissions st)) st.

Definition withLearningPath (s : Student) (learningPath : option LearningPath) : Student :=
  {| student_id := student_id s; student_name := student_name s;
     student_rollNumber := student_rollNumber s;
     student_department := student_department s;
     student_attendance := student_attendance s;
     student_learningPath := learningPath;
     student_isAccessBlocked := student_isAccessBlocked s;
     student_behaviourStatus := student_behaviourStatus s;
     student_blockReason := student_blockReason s;
     student_progress := student_progress s;
     student_temporaryAccessExpires := student_temporaryAccessExpires s;
     student_engagementStatus := student_engagementStatus s |}.

(** The [onPlanUpdate] that the dashboard of the student [user] receives. *)
Definition onPlanUpdate (user : User) (learningPath : option LearningPath)
    (st : State) : State :=
  setStudents
    (map (fun s => if String.eqb (student_id s) (user_id user)
                   then withLearningPath s learningPath else s)
         (students st)) st.

(** The [newUser] and the [newStudent] of [handleSignup]. *)
Definition signedUp (now : Z) (details : SignupDetails) (childId : option string) : User :=
  {| user_id := "user-" +:+ pretty now; user_name := details_name details;
     user_email := details_email details; user_role := details_role details;
     user_password := Some (details_password details); user_mobile := None;
     user_registeredPhotoUrl := details_registeredPhotoUrl details;
     user_childId := childId; user_enableScanOnLogin := Some true |}.

Definition companion (department : string) (now roll : Z) (details : SignupDetails)
    : Student :=
  {| student_id := "user-" +:+ pretty now; student_name := details_name details;
     student_rollNumber := "S" +:+ pretty (roll + 100);
     student_department := department;
     student_attendance := [];
     student_learningPath := None;
     student_isAccessBlocked := false;
     student_behaviourStatus := Good;
     student_blockReason := None;
     student_progress := [];
     student_temporaryAccessExpires := None;
     student_engagementStatus := None |}.

(** ** What is rendered *)

(** The element that [renderDashboard] returns, with the data that it hands
    to the dashboard; [NoView] is [null]. *)
Inductive View :=
  | NoView
  | AttendanceWarningScreen
  | TeacherDashboard (user : User) (allStudents : list Student)
      (allApplications : list LeaveApplication) (ownExams : list Exam)
      (allSubmissions : list ExamSubmission)
  | StudentDataError
  | StudentDashboard (user : User) (studentData : Student)
      (ownApplications : list LeaveApplication) (allExams : list Exam)
      (ownSubmissions : list ExamSubmission)
  | ChildDataError
  | ParentDashboard (user : User) (childData : Student).

(** [temporaryAccessExpires && temporaryAccessExpires > Date.now()] *)
Definition hasActivePass (now : Z) (studentData : Student) : bool :=
  match student_temporaryAccessExpires studentData with
  | Some expires => negb (expires =? 0) && (now <? expires)
  | None => false
  end.

(** [renderDashboard]; [now] is the value of [Date.now()]. *)
Definition renderDashboard (now : Z) (st : State) : View :=
  match currentUser st with
  | None => NoView
  | Some user =>
      let warned :=
        match user_role user with
        | UserRole.Student =>
            match find (fun s => String.eqb (student_id s) (user_id user)) (students st) with
            | Some studentData =>
                student_isAccessBlocked studentData && negb (hasActivePass now studentData)
            | None => false
            end
        | _ => false
        end in
      if warned then AttendanceWarningScreen
      else
        match user_role user with
        | UserRole.Teacher =>
            TeacherDashboard user (students st) (leaveApplications st)
              (List.filter (fun e => String.eqb (exam_createdBy e) (user_id user)) (exams st))
              (examSubmissions st)
        | UserRole.Student =>
            match find (fun s => String.eqb (student_id s) (user_id user)) (students st) with
            | None => StudentDataError
            | Some studentData =>
                StudentDashboard user studentData
                  (List.filter (fun app => String.eqb (leave_studentId app) (user_id user))
                               (leaveApplications st))
                  (exams st)
                  (List.filter (fun s => String.eqb (submission_studentId s) (user_id user))
                               (examSubmissions st))
            end
        | UserRole.Parent =>
            match find (fun s => bool_decide (Some (student_id s) = user_childId user))
                       (students st) with
            | None => ChildDataError
            | Some childData => ParentDashboard user childData
            end
        end
  end.

(** ** The effects of the start *)

(** The values that the start finds in the store: a collection is [None]
    when the stored value is not an array. *)
Record Stored := {
  stored_currentUser : option User;
  stored_users : option (list User);
  stored_students : option (list Student);
  stored_leaveApplications : option (list LeaveApplication);
  stored_exams : option (list Exam);
  stored_examSubmissions : option (list ExamSubmission)
}.

Definition isArray {A} (v : option (list A)) : bool :=
  match v with Some _ => true | None => false end.

(** The validation effect; the arguments are [MOCK_USERS], [MOCK_STUDENTS]
    and [MOCK_EXAMS]. *)
Definition validateStored (mockUsers : list User) (mockStudents : list Student)
    (mockExams : list Exam) (v : Stored) : Stored :=
  let dataWasCorrupted :=
    negb (isArray (stored_users v)) || negb (isArray (stored_students v))
    || negb (isArray (stored_leaveApplications v)) || negb (isArray (stored_exams v))
    || negb (isArray (stored_examSubmissions v)) in
  {| stored_currentUser := if dataWasCorrupted then None else stored_currentUser v;
     stored_users := Some (default mockUsers (stored_users v));
     stored_students := Some (default mockStudents (stored_students v));
     stored_leaveApplications := Some (default [] (stored_leaveApplications v));
     stored_exams := Some (default mockExams (stored_exams v));
     stored_examSubmissions := Some (default [] (stored_examSubmissions v)) |}.

(** The state of stored values that are all arrays. *)
Definition stateOf (v : Stored) : option State :=
  match stored_users v, stored_students v, stored_leaveApplications v,
        stored_exams v, stored_examSubmissions v with
  | Some us, Some ss, Some ls, Some es, Some xs =>
      Some {| currentUser := stored_currentUser v; users := us; students := ss;
              leaveApplications := ls; exams := es; examSubmissions := xs;
              isLoginView := true; authError := None; isIdlePromptVisible := false |}
  | _, _, _, _, _ => None
  end.

Definition withScanOnLogin (u : User) : User :=
  {| user_id := user_id u; user_name := user_name u; user_email := user_email u;
     user_role := user_role u; user_password := user_password u;
     user_mobile := user_mobile u;
     user_registeredPhotoUrl := user_registeredPhotoUrl u;
     user_childId := user_childId u; user_enableScanOnLogin := Some true |}.

(** [user.email === 'student@school.com' && user.enableScanOnLogin !== true] *)
Definition needsScan (u : User) : bool :=
  String.eqb (user_email u) "student@school.com"
  && negb (bool_decide (user_enableScanOnLogin u = Some true)).

(** The migration effect; [storedUsers] is the array that the stored text
    of the users parses to, [None] when there is no text or the text does not
    parse to an array (the effect then catches the exception). *)
Definition migrateUsers (storedUsers : option (list User)) (st : State) : State :=
  match storedUsers with
  | None => st
  | Some storedUsers =>
      let updatedUsers :=
        map (fun user => if needsScan user then withScanOnLogin user else user)
            storedUsers in
      let needsUpdate := existsb needsScan storedUsers in
      if needsUpdate then setUsers updatedUsers st else st
  end.

(** ** The steps of the component

    One step for each handler and effect that [App.tsx] defines on the
    state.  The setter [setStudents] that the dashboard of the teacher
    receives is used by code outside [App.tsx] and is no step. *)
Inductive AppStep (parse : string -> option Z) (department : string)
    : State -> State -> Prop :=
  | step_effect st : AppStep parse department st (accessBlockEffect st)
  | step_login email pass st : AppStep parse department st (handleLogin email pass st)
  | step_social role st : AppStep parse department st (handleSocialLogin role st)
  | step_provider identifier type st :
      AppStep parse department st (handleProviderLogin identifier type st)
  | step_logout st : AppStep parse department st (handleLogout st)
  | step_signup now roll details st :
      AppStep parse department st (handleSignup department now roll details st)
  | step_update_user updatedUser st :
      AppStep parse department st (handleUpdateUser updatedUser st)
  | step_apply now applicationDate applicationData st :
      AppStep parse department st
        (handleApplyForLeave now applicationDate applicationData st)
  | step_decide applicationId status teacherComment st :
      AppStep parse department st
        (handleUpdateLeaveStatus parse applicationId status teacherComment st)
  | step_save_exam examToSave st : AppStep parse department st (handleSaveExam examToSave st)
  | step_delete_exam examId st : AppStep parse department st (handleDeleteExam examId st)
  | step_submit now submission st :
      AppStep parse department st (handleSubmitExam now submission st)
  | step_delete_submission submissionId st :
      AppStep parse department st (handleDeleteSubmission submissionId st)
  | step_plan user learningPath st :
      AppStep parse department st (onPlanUpdate user learningPath st)
  | step_migrate storedUsers st :
      AppStep parse department st (migrateUsers storedUsers st).

(** ** What a write keeps

    The fields that a write leaves, one by one: of an application all but the
    status and the comment, of a student all but the attendance, all but the
    block, all but the learning path, of a user all but the face scan at
    login, and of the state all but one collection. *)
Definition keepsApplication (a a' : LeaveApplication) : Prop :=
  leave_id a' = leave_id a /\ leave_studentId a' = leave_studentId a
  /\ leave_studentName a' = leave_studentName a
  /\ leave_studentRollNumber a' = leave_studentRollNumber a
  /\ leave_startDate a' = leave_startDate a /\ leave_endDate a' = leave_endDate a
  /\ leave_reason a' = leave_reason a /\ leave_documentUrl a' = leave_documentUrl a
  /\ leave_applicationDate a' = leave_applicationDate a.

Definition keepsButAttendance (s s' : Student) : Prop :=
  student_id s' = student_id s /\ student_name s' = student_name s
  /\ student_rollNumber s' = student_rollNumber s
  /\ student_department s' = student_department s
  /\ student_learningPath s' = student_learningPath s
  /\ student_isAccessBlocked s' = student_isAccessBlocked s
  /\ student_behaviourStatus s' = student_behaviourStatus s
  /\ student_blockReason s' = student_blockReason s
  /\ student_progress s' = student_progress s
  /\ student_temporaryAccessExpires s' = student_temporaryAccessExpires s
  /\ student_engagementStatus s' = student_engagementStatus s.


Definition keepsButPath (s s' : Student) : Prop :=
  student_id s' = student_id s /\ student_name s' = student_name s
  /\ student_rollNumber s' = student_rollNumber s
  /\ student_department s' = student_department s
  /\ student_attendance s' = student_attendance s
  /\ student_isAccessBlocked s' = student_isAccessBlocked s
  /\ student_behaviourStatus s' = student_behaviourStatus s
  /\ student_blockReason s' = student_blockReason s
  /\ student_progress s' = student_progress s
  /\ student_temporaryAccessExpires s' = student_temporaryAccessExpires s
  /\ student_engagementStatus s' = student_engagementStatus s.

Definition keepsButScan (u u' : User) : Prop :=
  user_id u' = user_id u /\ user_name u' = user_name u /\ user_email u' = user_email u
  /\ user_role u' = user_role u /\ user_password u' = user_password u
  /\ user_mobile u' = user_mobile u
  /\ user_registeredPhotoUrl u' = user_registeredPhotoUrl u
  /\ user_childId u' = user_childId u.

Definition keepsButApplications (st st' : State) : Prop :=
  currentUser st' = currentUser st /\ users st' = users st
  /\ students st' = students st /\ exams st' = exams st
  /\ examSubmissions st' = examSubmissions st /\ isLoginView st' = isLoginView st
  /\ authError st' = authError st /\ isIdlePromptVisible st' = isIdlePromptVisible st.

Definition keepsButStudents (st st' : State) : Prop :=
  currentUser st' = currentUser st /\ users st' = users st
  /\ leaveApplications st' = leaveApplications st /\ exams st' = exams st
  /\ examSubmissions st' = examSubmissions st /\ isLoginView st' = isLoginView st
  /\ authError st' = authError st /\ isIdlePromptVisible st' = isIdlePromptVisible st.

Definition keepsButUsers (st st' : State) : Prop :=
  currentUser st' = currentUser st /\ students st' = students st
  /\ leaveApplications st' = leaveApplications st /\ exams st' = exams st
  /\ examSubmissions st' = examSubmissions st /\ isLoginView st' = isLoginView st
  /\ authError st' = authError st /\ isIdlePromptVisible st' = isIdlePromptVisible st.

(** ** What a run keeps

    [s'] is [s] later in a run: the fields that no step writes are those of
    [s], the attendance starts with that of [s], and [s'] is blocked when [s]
    is. *)
Definition laterStudent (s s' : Student) : Prop :=
  student_id s' = student_id s /\ student_name s' = student_name s
  /\ student_rollNumber s' = student_rollNumber s
  /\ student_department s' = student_department s
  /\ student_behaviourStatus s' = student_behaviourStatus s
  /\ student_progress s' = student_progress s
  /\ student_temporaryAccessExpires s' = student_temporaryAccessExpires s
  /\ student_engagementStatus s' = student_engagementStatus s
  /\ student_attendance s `prefix_of` student_attendance s'
  /\ (student_isAccessBlocked s = true -> student_isAccessBlocked s' = true).

(** [a'] is [a] later in a run: [a] but for the status and the comment. *)
Definition laterApplication (a a' : LeaveApplication) : Prop :=
  withDecision a' (leave_status a) (leave_teacherComment a) = a.

(** [l'] is [l] later in a run: the elements of [l] later, in their places,
    and then new ones. *)
Definition laterList {A} (R : A -> A -> Prop) (l l' : list A) : Prop :=
  exists later new, l' = later ++ new /\ Forall2 R l later.

(** ** The model against the hardware numbers and the calendar *)

(** Twenty-nine out of two hundred: the number just below 14.5 for the
    model as for the hardware. *)
Example percent_29_200 :
  Double.prim_percent 29 200 = Some (Double.percent 29 200)
  /\ 2 * Double.percent 29 200 < 29 * Double.one.
Proof. vm_compute. split; reflexivity. Qed.

Example toISODate_epoch : JSDate.toISODate 0 = "1970-01-01".
Proof. reflexivity. Qed.

Example toISODate_days :
  map (fun d => JSDate.toISODate (d * JSDate.msPerDay + 1234567))
      [19732; 19734; 19782; 11016; -25508; -1; 2932896; 2932897; -719162; -719529]
  = ["2024-01-10"; "2024-01-12"; "2024-02-29"; "2000-02-29"; "1900-03-01";
     "1969-12-31"; "9999-12-31"; "+010000-01-01"; "0001-01-01"; "-000001-12-31"].
Proof. vm_compute. reflexivity. Qed.

Example isoParse_days :
  map JSDate.isoParse
      ["2024-01-10T00:00:00Z"; "2024-02-29T00:00:00Z"; "2024-02-30T00:00:00Z";
       "2024-03-01T00:00:00Z"; "2024-13-01T00:00:00Z"; "2024-02-32T00:00:00Z"]
  = [Some (19732 * JSDate.msPerDay); Some (19782 * JSDate.msPerDay);
     Some (19783 * JSDate.msPerDay); Some (19783 * JSDate.msPerDay); None; None].
Proof. vm_compute. reflexivity. Qed.

(** A student without a record of presence is blocked at login. *)
Example login_blocks_absent :
  let st := setCurrentUser None
              (setStudents [Demo.quill [Demo.class "2024-01-08" "Physics" Absent] false None]
                           Demo.school) in
  map (fun s => (student_isAccessBlocked s, student_blockReason s))
      (students (login "student@school.com" "slate" st))
  = [(true, Some LowAttendance)].
Proof. vm_compute. reflexivity. Qed.

(** A leave from its application to its approval: the application is
    pending, the approval marks its two days. *)
Example leave_from_application :
  let data :=
    {| adata_studentId := "user-3"; adata_studentName := "R. Finch";
       adata_studentRollNumber := "S102"; adata_startDate := "2024-02-28";
       adata_endDate := "2024-02-29"; adata_reason := "travel";
       adata_documentUrl := None; adata_teacherComment := None |} in
  let st1 := handleApplyForLeave 1709000000000 "2024-02-27T02:13:20.000Z" data
                                 Demo.school in
  let st2 := handleUpdateLeaveStatus JSDate.isoParse "leave-1709000000000" Approved
                                     (Some "granted") st1 in
  map (fun app => (leave_id app, leave_status app)) (leaveApplications st1)
  = [("leave-1", LeaveStatus.Pending); ("leave-2", LeaveStatus.Pending);
     ("leave-1709000000000", LeaveStatus.Pending)]
  /\ map (fun app => (leave_status app, leave_teacherComment app)) (leaveApplications st2)
     = [(LeaveStatus.Pending, None); (LeaveStatus.Pending, None);
        (LeaveStatus.Approved, Some "granted")]
  /\ map (fun s => map rec_date (student_attendance s)) (students st2)
     = [["2024-01-10"; "2024-02-28"; "2024-02-29"]; ["2024-01-08"; "2024-01-09"]]
  /\ currentUser (handleLogout st2) = None.
Proof. vm_compute. repeat split; reflexivity. Qed.

Module DoubleFacts.
Import Double.

Lemma rne_cases a b : 0 < b ->
  (rne a b = a / b /\ 2 * (a mod b) <= b /\ (2 * (a mod b) = b -> Z.even (a / b) = true)) \/
  (rne a b = a / b + 1 /\ b <= 2 * (a mod b) /\ (2 * (a mod b) = b -> Z.even (a / b) = false)).
Proof.
  intros Hb. unfold rne.
  destruct (Z.ltb_spec (2 * (a mod b)) b) as [H1|H1]; [left; lia|].
  destruct (Z.ltb_spec b (2 * (a mod b))) as [H2|H2]; [right; lia|].
  destruct (Z.even (a / b)) eqn:He; [left|right]; repeat split; auto; lia.
Qed.

Lemma rne_lower a b m : 0 < b -> m * b <= a -> m <= rne a b.
Proof.
  intros Hb Hm.
  pose proof (Z.div_mod a b ltac:(lia)) as Hdm.
  pose proof (Z.mod_pos_bound a b Hb) as Hr.
  assert (m <= a / b) by (apply Z.div_le_lower_bound; lia).
  destruct (rne_cases a b Hb) as [(-> & _)|(-> & _)]; lia.
Qed.

Lemma rne_upper a b m : 0 < b -> a <= m * b -> rne a b <= m.
Proof.
  intros Hb Hm.
  pose proof (Z.div_mod a b ltac:(lia)) as Hdm.
  pose proof (Z.mod_pos_bound a b Hb) as Hr.
  destruct (rne_cases a b Hb) as [(-> & _)|(-> & H2 & _)].
  - apply Z.div_le_upper_bound; lia.
  - assert (a / b < m); [|lia].
    apply (Z.mul_lt_mono_pos_l b); lia.
Qed.

Lemma div_le_cross a b a' b' : 0 < b -> 0 < b' -> a * b' <= a' * b -> a / b <= a' / b'.
Proof.
  intros Hb Hb' H.
  apply Z.div_le_lower_bound; [lia|].
  pose proof (Z.div_mod a b ltac:(lia)) as Hdm.
  pose proof (Z.mod_pos_bound a b Hb) as Hr.
  nia.
Qed.

Lemma rne_mono a b a' b' : 0 < b -> 0 < b' -> a * b' <= a' * b -> rne a b <= rne a' b'.
Proof.
  intros Hb Hb' H.
  pose proof (Z.div_mod a b ltac:(lia)) as Hdm.
  pose proof (Z.mod_pos_bound a b Hb) as Hr.
  pose proof (Z.div_mod a' b' ltac:(lia)) as Hdm'.
  pose proof (Z.mod_pos_bound a' b' Hb') as Hr'.
  pose proof (div_le_cross a b a' b' Hb Hb' H) as Hq.
  destruct (rne_cases a b Hb) as [(-> & _)|(-> & H2 & He)];
  destruct (rne_cases a' b' Hb') as [(-> & H2' & He')|(-> & _)]; try lia.
  destruct (Z.eq_dec (a / b) (a' / b')) as [Heq|]; [|lia].
  exfalso.
  set (q := a / b) in *. set (r := a mod b) in *.
  set (r' := a' mod b') in *. rewrite <- Heq in *.
  assert (r * b' <= r' * b) by nia.
  assert (2 * r = b) by nia.
  assert (2 * r' = b') by nia.
  rewrite He in He' by assumption. discriminate He'; assumption.
Qed.

Lemma rne_cancel a b c : 0 < b -> 0 < c -> rne (a * c) (b * c) = rne a b.
Proof.
  intros Hb Hc. unfold rne.
  rewrite Z.div_mul_cancel_r by lia.
  rewrite Z.mul_mod_distr_r by lia.
  replace (2 * (a mod b * c) <? b * c) with (2 * (a mod b) <? b)
    by (apply eq_true_iff_eq; rewrite !Z.ltb_lt; nia).
  replace (b * c <? 2 * (a mod b * c)) with (b <? 2 * (a mod b))
    by (apply eq_true_iff_eq; rewrite !Z.ltb_lt; nia).
  reflexivity.
Qed.

Lemma round_eq a b : round a b = 2 ^ expo a b * rne a (b * 2 ^ expo a b).
Proof. reflexivity. Qed.

Lemma expo_nonneg a b : 0 <= expo a b.
Proof. unfold expo. lia. Qed.

Lemma pow2_pos e : 0 <= e -> 0 < 2 ^ e.
Proof. intros. apply Z.pow_pos_nonneg; lia. Qed.

(** Below the binade bound. *)
Lemma expo_upper a b : 0 < b -> a < b * 2 ^ (expo a b + 53).
Proof.
  intros Hb.
  pose proof (expo_nonneg a b) as He.
  assert (a / b < 2 ^ (expo a b + 53)) as Hq.
  { destruct (Z.le_gt_cases (a / b) 0) as [H0|H0].
    - pose proof (pow2_pos (expo a b + 53) ltac:(lia)). lia.
    - destruct (Z.log2_spec (a / b) H0) as [_ Hlt].
      eapply Z.lt_le_trans; [exact Hlt|].
      apply Z.pow_le_mono_r; [lia|]. unfold expo. lia. }
  pose proof (Z.div_mod a b ltac:(lia)) as Hdm.
  pose proof (Z.mod_pos_bound a b Hb) as Hr.
  nia.
Qed.

Lemma expo_lower a b : 0 < b -> 0 < expo a b -> b * 2 ^ (expo a b + 52) <= a.
Proof.
  intros Hb He.
  assert (expo a b = Z.log2 (a / b) - 52) as Hex by (unfold expo in *; lia).
  assert (0 < a / b) as H0.
  { destruct (Z.le_gt_cases (a / b) 0) as [H0|H0]; [|lia].
    rewrite Z.log2_nonpos in Hex by lia. lia. }
  destruct (Z.log2_spec (a / b) H0) as [Hle _].
  replace (expo a b + 52) with (Z.log2 (a / b)) by lia.
  pose proof (Z.div_mod a b ltac:(lia)) as Hdm.
  pose proof (Z.mod_pos_bound a b Hb) as Hr.
  nia.
Qed.

Lemma expo_mono a b a' b' : 0 < b -> 0 < b' -> a * b' <= a' * b -> expo a b <= expo a' b'.
Proof.
  intros Hb Hb' H. unfold expo.
  pose proof (Z.log2_le_mono _ _ (div_le_cross a b a' b' Hb Hb' H)). lia.
Qed.

Theorem round_mono a b a' b' :
  0 < b -> 0 < b' -> a * b' <= a' * b -> round a b <= round a' b'.
Proof.
  intros Hb Hb' H. rewrite !round_eq.
  pose proof (expo_mono a b a' b' Hb Hb' H) as Hee.
  pose proof (expo_nonneg a b) as He.
  set (e := expo a b) in *. set (e' := expo a' b') in *.
  pose proof (pow2_pos e He) as Hp. pose proof (pow2_pos e' ltac:(lia)) as Hp'.
  destruct (Z.eq_dec e e') as [<-|Hne].
  - apply Z.mul_le_mono_nonneg_l; [lia|].
    apply rne_mono; nia.
  - assert (rne a (b * 2 ^ e) <= 2 ^ 53) as Hup.
    { apply rne_upper; [nia|].
      pose proof (expo_upper a b Hb) as Hu. fold e in Hu.
      rewrite Z.pow_add_r in Hu by lia. nia. }
    assert (2 ^ 52 <= rne a' (b' * 2 ^ e')) as Hlo.
    { apply rne_lower; [nia|].
      pose proof (expo_lower a' b' Hb' ltac:(fold e'; lia)) as Hl. fold e' in Hl.
      rewrite Z.pow_add_r in Hl by lia. nia. }
    assert (2 ^ e' = 2 ^ (e' - e - 1) * 2 * 2 ^ e) as Hsplit.
    { replace e' with ((e' - e - 1) + 1 + e) at 1 by lia.
      rewrite !Z.pow_add_r by lia. reflexivity. }
    pose proof (pow2_pos (e' - e - 1) ltac:(lia)) as Hd.
    change (2 ^ 53) with (2 * 2 ^ 52) in Hup.
    set (X := rne a (b * 2 ^ e)) in *. set (Y := rne a' (b' * 2 ^ e')) in *.
    rewrite Hsplit. clearbody X Y.
    set (P52 := 2 ^ 52) in *. assert (0 < P52) by (subst P52; lia).
    set (Pe := 2 ^ e) in *. set (D := 2 ^ (e' - e - 1)) in *.
    apply Z.le_trans with (Pe * (2 * P52)); [nia|].
    apply Z.le_trans with (Pe * (2 * Y)); [nia|].
    assert (0 <= Pe * (2 * Y)) by nia.
    nia.
Qed.


Lemma round_cancel a b c : 0 < b -> 0 < c -> round (a * c) (b * c) = round a b.
Proof.
  intros Hb Hc. rewrite !round_eq. unfold expo.
  rewrite Z.div_mul_cancel_r by lia.
  set (e := Z.max 0 (Z.log2 (a / b) - 52)).
  pose proof (pow2_pos e ltac:(lia)).
  replace (b * c * 2 ^ e) with (b * 2 ^ e * c) by ring.
  rewrite rne_cancel by nia. reflexivity.
Qed.

(** The binade of a value of at least [2^52] units moves with the unit. *)
Lemma expo_scale a b k :
  0 < b -> 0 <= k -> 2 ^ 52 * b <= a -> expo (a * 2 ^ k) b = expo a b + k.
Proof.
  intros Hb Hk Ha.
  pose proof (pow2_pos k Hk) as Hpk.
  assert (2 ^ 52 <= a / b) as Hq by (apply Z.div_le_lower_bound; lia).
  assert (0 < a / b) as H0 by lia.
  pose proof (Z.log2_le_mono _ _ Hq) as Hl. rewrite Z.log2_pow2 in Hl by lia.
  destruct (Z.log2_spec (a / b) H0) as [Hlo Hhi].
  pose proof (Z.log2_nonneg (a / b)) as HL.
  set (L := Z.log2 (a / b)) in *.
  pose proof (Z.div_mod a b ltac:(lia)) as Hdm.
  pose proof (Z.mod_pos_bound a b Hb) as Hr.
  assert (Z.log2 (a * 2 ^ k / b) = L + k) as HLk.
  { apply Z.log2_unique; [lia|]. split.
    - apply Z.div_le_lower_bound; [lia|]. rewrite Z.pow_add_r by lia.
      assert (b * 2 ^ L <= a) by nia.
      rewrite Z.mul_assoc. apply Z.mul_le_mono_nonneg_r; lia.
    - apply Z.div_lt_upper_bound; [lia|].
      replace (Z.succ (L + k)) with (Z.succ L + k) by lia.
      rewrite Z.pow_add_r by lia.
      assert (a < b * 2 ^ Z.succ L) by nia.
      rewrite Z.mul_assoc. apply Z.mul_lt_mono_pos_r; lia. }
  unfold expo. rewrite HLk. fold L. lia.
Qed.

Lemma round_scale a b k :
  0 < b -> 0 <= k -> 2 ^ 52 * b <= a -> round (a * 2 ^ k) b = 2 ^ k * round a b.
Proof.
  intros Hb Hk Ha. rewrite !round_eq, expo_scale by assumption.
  pose proof (expo_nonneg a b) as He.
  pose proof (pow2_pos k Hk). pose proof (pow2_pos (expo a b) He).
  rewrite Z.pow_add_r by lia.
  replace (b * (2 ^ expo a b * 2 ^ k)) with (b * 2 ^ expo a b * 2 ^ k) by ring.
  rewrite rne_cancel by nia. ring.
Qed.

Lemma round_lower a b j : 0 < b -> 0 <= j -> 2 ^ j * b <= a -> 2 ^ j <= round a b.
Proof.
  intros Hb Hj Ha. rewrite round_eq.
  pose proof (expo_nonneg a b) as He.
  pose proof (pow2_pos (expo a b) He) as Hp.
  destruct (Z.eq_dec (expo a b) 0) as [H0|H0].
  - rewrite H0. change (2 ^ 0) with 1. rewrite Z.mul_1_l, Z.mul_1_r.
    apply rne_lower; lia.
  - pose proof (expo_lower a b Hb ltac:(lia)) as Hl.
    pose proof (expo_upper a b Hb) as Hu.
    rewrite Z.pow_add_r in Hl by lia.
    assert (2 ^ 52 <= rne a (b * 2 ^ expo a b)) by (apply rne_lower; nia).
    assert (2 ^ j < 2 ^ (expo a b + 53)) as Hlt by nia.
    apply Z.pow_lt_mono_r_iff in Hlt; [|lia|lia].
    assert (2 ^ j <= 2 ^ (expo a b + 52)) as Hle by (apply Z.pow_le_mono_r; lia).
    rewrite Z.pow_add_r in Hle by lia. nia.
Qed.

Lemma one_pos : 0 < one.
Proof. apply pow2_pos. unfold unit_exp. lia. Qed.

Lemma percent_percentAt c n : 0 < n -> percent c n = percentAt unit_exp c n.
Proof.
  intros Hn. pose proof one_pos as H1.
  unfold percent, percentAt, mul, div, of_Z. fold one.
  replace (c * one * one) with (c * one * one) by ring.
  rewrite (round_cancel (c * one) n one) by lia.
  replace (round (c * one) n * (100 * one)) with (round (c * one) n * 100 * one) by ring.
  rewrite <- (Z.mul_1_l one) at 3.
  rewrite round_cancel by lia. reflexivity.
Qed.

Lemma percentAt_scale u k c n :
  0 <= u -> 0 <= k -> 0 < n -> 2 ^ 52 * n <= c * 2 ^ u ->
  percentAt (u + k) c n = 2 ^ k * percentAt u c n.
Proof.
  intros Hu Hk Hn Hc. unfold percentAt.
  rewrite Z.pow_add_r, Z.mul_assoc by lia.
  rewrite round_scale by lia.
  pose proof (round_lower (c * 2 ^ u) n 52 Hn ltac:(lia) Hc) as HR.
  replace (2 ^ k * round (c * 2 ^ u) n * 100) with (round (c * 2 ^ u) n * 100 * 2 ^ k) by ring.
  rewrite round_scale by lia. reflexivity.
Qed.

Lemma percent_mono c n c' n' :
  0 < n -> 0 < n' -> c * n' <= c' * n -> percent c n <= percent c' n'.
Proof.
  intros Hn Hn' H. rewrite !percent_percentAt by assumption. unfold percentAt.
  apply round_mono; [lia|lia|].
  rewrite !Z.mul_1_r. apply Z.mul_le_mono_nonneg_r; [lia|].
  pose proof (pow2_pos unit_exp ltac:(unfold unit_exp; lia)).
  apply round_mono; nia.
Qed.


Lemma percent_small c n :
  0 < n -> 2 ^ 52 * n <= c * 2 ^ small_exp ->
  percent c n = 2 ^ (unit_exp - small_exp) * percentAt small_exp c n.
Proof.
  intros Hn Hc. rewrite percent_percentAt by assumption.
  replace unit_exp with (small_exp + (unit_exp - small_exp)) at 1 by ring.
  apply percentAt_scale; unfold small_exp, unit_exp in *; lia.
Qed.

Lemma one_split : one = 2 ^ (unit_exp - small_exp) * 2 ^ small_exp.
Proof. unfold one. rewrite <- Z.pow_add_r by (unfold unit_exp, small_exp; lia). f_equal. Qed.

Lemma scoreTable_small : forallb (scoreTable small_exp) (map Z.of_nat (seq 0 101)) = true.
Proof. vm_compute. reflexivity. Qed.

Lemma scoreTable_at j : 0 <= j <= 100 -> scoreTable small_exp j = true.
Proof.
  intros Hj. pose proof scoreTable_small as H.
  rewrite forallb_forall in H. apply H.
  apply in_map_iff. exists (Z.to_nat j). split; [lia|].
  apply in_seq. lia.
Qed.

Lemma percent_below j :
  0 <= j <= 100 ->
  2 * percent ((2 * j + 1) * 2 ^ 32 - 1) (200 * 2 ^ 32) < (2 * j + 1) * one.
Proof.
  intros Hj. pose proof (scoreTable_at j Hj) as H.
  unfold scoreTable in H. apply andb_prop in H as [H _]. apply Z.ltb_lt in H.
  rewrite percent_small; [|lia|unfold small_exp; lia].
  rewrite one_split.
  pose proof (pow2_pos (unit_exp - small_exp) ltac:(unfold unit_exp, small_exp; lia)).
  nia.
Qed.

Lemma percent_above j :
  1 <= j <= 100 ->
  (2 * j - 1) * one <= 2 * percent ((2 * j - 1) * 2 ^ 32 + 1) (200 * 2 ^ 32).
Proof.
  intros Hj. pose proof (scoreTable_at j ltac:(lia)) as H.
  unfold scoreTable in H. apply andb_prop in H as [_ H].
  apply orb_prop in H as [H|H]; [apply Z.eqb_eq in H; lia|]. apply Z.leb_le in H.
  rewrite percent_small; [|lia|unfold small_exp; lia].
  rewrite one_split.
  pose proof (pow2_pos (unit_exp - small_exp) ltac:(unfold unit_exp, small_exp; lia)).
  nia.
Qed.

Lemma Math_round_le x j : 2 * x < (2 * j + 1) * one -> Math_round x <= j.
Proof.
  intros H. pose proof one_pos. unfold Math_round.
  assert ((2 * x + one) / (2 * one) < j + 1); [|lia].
  apply Z.div_lt_upper_bound; lia.
Qed.

Lemma Math_round_ge x j : (2 * j - 1) * one <= 2 * x -> j <= Math_round x.
Proof.
  intros H. pose proof one_pos. unfold Math_round.
  apply Z.div_le_lower_bound; lia.
Qed.

End DoubleFacts.

(** ** The percentages of the engine *)

Module PercentFacts.
Import Double DoubleFacts.

Local Ltac decide_Z := vm_compute; first [reflexivity | discriminate].

Lemma of_Z_small k : of_Z k = 2 ^ (unit_exp - small_exp) * (k * 2 ^ small_exp).
Proof. unfold of_Z. rewrite one_split. ring. Qed.

Lemma percent_3_4 : percent 3 4 = of_Z 75.
Proof.
  rewrite percent_small, of_Z_small by decide_Z.
  f_equal.
Qed.

Lemma percent_1_1 : percent 1 1 = of_Z 100.
Proof.
  rewrite percent_small, of_Z_small by decide_Z.
  f_equal.
Qed.

Lemma percent_0_1 : percent 0 1 = 0.
Proof. reflexivity. Qed.

(** Just below three quarters, the percentage stays below 75. *)
Lemma percent_below_75 : percent (3 * 2 ^ 32 - 1) (2 ^ 34) < of_Z 75.
Proof.
  rewrite percent_small, of_Z_small by decide_Z.
  apply Z.mul_lt_mono_pos_l; [apply pow2_pos; decide_Z|].
  vm_compute. reflexivity.
Qed.

Lemma percent_zero n : 0 < n -> percent 0 n = 0.
Proof.
  intros Hn.
  assert (percent 0 n <= percent 0 1) by (apply percent_mono; lia).
  assert (percent 0 1 <= percent 0 n) by (apply percent_mono; lia).
  rewrite percent_0_1 in *. lia.
Qed.

Lemma percent_nonneg c n : 0 < n -> 0 <= c -> 0 <= percent c n.
Proof.
  intros Hn Hc.
  assert (percent 0 n <= percent c n) by (apply percent_mono; nia).
  rewrite percent_zero in *; assumption.
Qed.

Lemma percent_full n : 0 < n -> percent n n = of_Z 100.
Proof.
  intros Hn.
  assert (percent n n <= percent 1 1) by (apply percent_mono; lia).
  assert (percent 1 1 <= percent n n) by (apply percent_mono; lia).
  rewrite percent_1_1 in *. lia.
Qed.

(** The test [percentage < 75] on the numbers decides [100 * c < 75 * n]
    on the integers, for lengths of arrays. *)
Lemma percent_lt_75 c n :
  0 < n < 2 ^ 32 -> 0 <= c ->
  ltb (percent c n) (of_Z 75) = true <-> 100 * c < 75 * n.
Proof.
  intros Hn Hc. unfold ltb. rewrite Z.ltb_lt. split.
  - intros Hlt. destruct (Z.lt_ge_cases (100 * c) (75 * n)) as [|Hge]; [assumption|].
    exfalso. assert (percent 3 4 <= percent c n) as H by (apply percent_mono; lia).
    rewrite percent_3_4 in H. lia.
  - intros Hlt. eapply Z.le_lt_trans; [|exact percent_below_75].
    apply percent_mono; [lia|lia|].
    change (2 ^ 34) with (4 * 2 ^ 32). lia.
Qed.

Lemma of_spec_scale f v :
  of_spec_at small_exp f = Some v -> of_spec f = Some (2 ^ (unit_exp - small_exp) * v).
Proof.
  unfold of_spec, of_spec_at. destruct f as [s|s| |[] m e]; try discriminate.
  - intros [= <-]. rewrite Z.mul_0_r. reflexivity.
  - destruct (Z.leb_spec 0 (e + small_exp)) as [He|]; [|discriminate].
    intros [= <-].
    replace (0 <=? e + unit_exp) with true
      by (symmetry; apply Z.leb_le; unfold unit_exp, small_exp in *; lia).
    f_equal. replace (e + unit_exp) with ((unit_exp - small_exp) + (e + small_exp)) by ring.
    rewrite Z.pow_add_r by (unfold unit_exp, small_exp in *; lia). ring.
Qed.

Lemma agreeUpTo_at fuel u n m c :
  agreeUpTo fuel u n = true ->
  n - Z.of_nat fuel < m <= n -> 1 <= c <= m -> agreesAt u c m = true.
Proof.
  revert n. induction fuel as [|fuel IH]; intros n H Hm Hc; [lia|].
  cbn [agreeUpTo] in H. apply andb_prop in H as [Hn H].
  destruct (Z.eq_dec m n) as [->|Hne].
  - rewrite forallb_forall in Hn. specialize (Hn (Z.to_nat c)).
    rewrite Z2Nat.id in Hn by lia. apply Hn, in_seq. lia.
  - apply (IH (n - 1)); [exact H|lia|exact Hc].
Qed.

Lemma agree_checked : agreeUpTo 40 small_exp 40 = true.
Proof. vm_compute. reflexivity. Qed.

(** On the quotients [c / n] with [1 <= c <= n <= 40], the model of the
    percentage is the number that the primitive binary64 operations
    compute. *)
Theorem percent_hardware c n :
  1 <= c <= n -> n <= 40 -> prim_percent c n = Some (percent c n).
Proof.
  intros Hc Hn.
  pose proof (agreeUpTo_at 40 small_exp 40 n c agree_checked ltac:(lia) Hc) as H.
  unfold agreesAt in H.
  destruct (of_spec_at small_exp (prim_percent_spec c n)) as [v|] eqn:Hv; [|discriminate].
  apply Z.eqb_eq in H. subst v.
  unfold prim_percent. rewrite (of_spec_scale _ _ Hv). f_equal. symmetry.
  apply percent_small; [lia|].
  unfold small_exp. change (2 ^ 128) with (2 ^ 52 * 2 ^ 76). nia.
Qed.

Lemma mod_div_eq a b : 0 < b -> a = b * (a / b) + a mod b /\ 0 <= a mod b < b.
Proof. intros Hb. split; [apply Z.div_mod; lia|apply Z.mod_pos_bound; lia]. Qed.

(** [Math.round((c / n) * 100)] against the exact percentage, for lengths of
    arrays. *)
Lemma round_percent_upper c n :
  0 < n < 2 ^ 32 -> 0 <= c <= n ->
  Math_round (percent c n) <= (200 * c + n) / (2 * n).
Proof.
  intros Hn Hc.
  destruct (mod_div_eq (200 * c + n) (2 * n) ltac:(lia)) as [Hdm Hr].
  set (j := (200 * c + n) / (2 * n)) in *.
  assert (0 <= j <= 100) as Hj by (split; [|assert (j < 101) by nia; lia]; nia).
  apply Math_round_le.
  eapply Z.le_lt_trans; [|exact (percent_below j Hj)].
  apply Z.mul_le_mono_nonneg_l; [lia|].
  apply percent_mono; [lia|lia|]. nia.
Qed.

Lemma round_percent_lower c n j :
  0 < n < 2 ^ 32 -> 0 <= c <= n -> 0 <= j <= 100 ->
  (2 * j - 1) * n < 200 * c -> j <= Math_round (percent c n).
Proof.
  intros Hn Hc Hj Hlt.
  apply Math_round_ge.
  destruct (Z.eq_dec j 0) as [->|Hj0].
  - pose proof (percent_nonneg c n ltac:(lia) ltac:(lia)). pose proof one_pos. lia.
  - eapply Z.le_trans; [exact (percent_above j ltac:(lia))|].
    apply Z.mul_le_mono_nonneg_l; [lia|].
    apply percent_mono; [lia|lia|]. nia.
Qed.

Lemma round_percent c n :
  0 < n < 2 ^ 32 -> 0 <= c <= n ->
  let s := Math_round (percent c n) in
  0 <= s <= 100 /\
  2 * Z.abs (s * n - 100 * c) <= n /\
  ((200 * c + n) mod (2 * n) <> 0 -> s = (200 * c + n) / (2 * n)).
Proof.
  intros Hn Hc s.
  pose proof (round_percent_upper c n Hn Hc) as Hup. fold s in Hup.
  destruct (mod_div_eq (200 * c + n) (2 * n) ltac:(lia)) as [Hdm Hr].
  set (j := (200 * c + n) / (2 * n)) in *.
  set (r := (200 * c + n) mod (2 * n)) in *.
  assert (0 <= j <= 100) as Hj by (split; [|assert (j < 101) by nia; lia]; nia).
  assert (0 <= s) as Hs0 by (apply (round_percent_lower c n 0); lia).
  assert (r <> 0 -> j <= s) as Hlow.
  { intros Hr0. apply round_percent_lower; try lia; nia. }
  assert (j - 1 <= s) as Hlow1.
  { destruct (Z.eq_dec j 0) as [->|]; [lia|].
    apply round_percent_lower; try lia; nia. }
  split; [lia|]. split.
  - destruct (Z.eq_dec r 0) as [Hr0|Hr0].
    + assert (s = j \/ s = j - 1) as [->| ->] by lia; nia.
    + assert (s = j) as -> by (specialize (Hlow Hr0); lia). nia.
  - intros Hr0. specialize (Hlow Hr0). lia.
Qed.

End PercentFacts.

(** ** The calendar *)

Module DateFacts.
Import JSDate.

(** The place of a day in its cycle of 400 years. *)
Lemma cycle_bounds doe :
  0 <= doe < 146097 ->
  let yoe := (doe - doe / 1460 + doe / 36524 - doe / 146096) / 365 in
  let doy := doe - (365 * yoe + yoe / 4 - yoe / 100) in
  0 <= yoe <= 399 /\ 0 <= doy <= 365.
Proof.
  intros H yoe doy. subst doy yoe. Z.to_euclidean_division_equations. lia.
Qed.

Lemma month_bounds doy :
  0 <= doy <= 365 ->
  let mp := (5 * doy + 2) / 153 in
  let d := doy - (153 * mp + 2) / 5 + 1 in
  0 <= mp <= 11 /\ 1 <= d <= 31.
Proof.
  intros H mp d. subst d mp. Z.to_euclidean_division_equations. lia.
Qed.

(** The calendar date of a day number is the date of that day only. *)
Theorem days_civil z : let '(y, m, d) := civil z in days y m d = z.
Proof.
  unfold civil, days.
  set (z' := z + 719468).
  set (era := z' / 146097).
  set (doe := z' - era * 146097).
  assert (0 <= doe < 146097) as Hdoe.
  { subst doe era. pose proof (Z.div_mod z' 146097 ltac:(lia)).
    pose proof (Z.mod_pos_bound z' 146097 ltac:(lia)). lia. }
  destruct (cycle_bounds doe Hdoe) as [Hyoe Hdoy].
  set (yoe := (doe - doe / 1460 + doe / 36524 - doe / 146096) / 365) in *.
  set (doy := doe - (365 * yoe + yoe / 4 - yoe / 100)) in *.
  destruct (month_bounds doy Hdoy) as [Hmp0 Hd].
  set (mp := (5 * doy + 2) / 153) in *.
  set (d := doy - (153 * mp + 2) / 5 + 1) in *.
  assert (forall adj, (yoe + era * 400 + adj - adj) / 400 = era) as Hera.
  { intros adj. replace (yoe + era * 400 + adj - adj) with (yoe + era * 400) by ring.
    rewrite Z.div_add by lia. rewrite Z.div_small by lia. lia. }
  assert (forall adj, yoe + era * 400 + adj - adj - era * 400 = yoe) as Hyo
    by (intros; ring).
  destruct (Z.ltb_spec mp 10) as [Hmp|Hmp].
  - replace (mp + 3 <=? 2) with false by (symmetry; apply Z.leb_gt; lia).
    replace (2 <? mp + 3) with true by (symmetry; apply Z.ltb_lt; lia).
    replace (yoe + era * 400 + 0) with (yoe + era * 400 + 0 - 0) by ring.
    rewrite Hera, !Hyo.
    replace (mp + 3 - 3) with mp by ring.
    subst d doy doe z'. lia.
  - replace (mp - 9 <=? 2) with true by (symmetry; apply Z.leb_le; lia).
    replace (2 <? mp - 9) with false by (symmetry; apply Z.ltb_ge; lia).
    rewrite Hera, !Hyo.
    replace (mp - 9 + 9) with mp by ring.
    subst d doy doe z'. lia.
Qed.

Lemma civil_inj z z' : civil z = civil z' -> z = z'.
Proof.
  intros H. pose proof (days_civil z) as H1. pose proof (days_civil z') as H2.
  rewrite H in H1. destruct (civil z') as [[y m] d]. congruence.
Qed.


Lemma civil_range z :
  Z.abs z <= 100000000 ->
  let '(y, m, d) := civil z in
  -999999 <= y <= 999999 /\ 1 <= m <= 12 /\ 1 <= d <= 31.
Proof.
  intros Hz. unfold civil.
  set (z' := z + 719468).
  set (era := z' / 146097).
  set (doe := z' - era * 146097).
  assert (0 <= doe < 146097 /\ -700 <= era <= 700) as [Hdoe Hera].
  { subst doe era z'. Z.to_euclidean_division_equations. lia. }
  destruct (cycle_bounds doe Hdoe) as [Hyoe Hdoy].
  set (yoe := (doe - doe / 1460 + doe / 36524 - doe / 146096) / 365) in *.
  set (doy := doe - (365 * yoe + yoe / 4 - yoe / 100)) in *.
  destruct (month_bounds doy Hdoy) as [Hmp Hd].
  set (mp := (5 * doy + 2) / 153) in *.
  set (d := doy - (153 * mp + 2) / 5 + 1) in *.
  destruct (Z.ltb_spec mp 10);
    match goal with |- context [?a <=? 2] => destruct (Z.leb_spec a 2) end; lia.
Qed.

Lemma digit_code n : 0 <= n < 10 -> N_of_ascii (digit n) = (48 + Z.to_N n)%N.
Proof. intros H. unfold digit. apply N_ascii_embedding. lia. Qed.

Lemma digit_inj a b : 0 <= a < 10 -> 0 <= b < 10 -> digit a = digit b -> a = b.
Proof.
  intros Ha Hb H. apply (f_equal N_of_ascii) in H.
  rewrite !digit_code in H by assumption. lia.
Qed.

Lemma digit_mod_inj a b : digit (a mod 10) = digit (b mod 10) -> a mod 10 = b mod 10.
Proof. apply digit_inj; apply Z.mod_pos_bound; lia. Qed.

Lemma digit_not_sign n (c : bool) :
  digit (n mod 10) <> (if c then "+"%char else "-"%char).
Proof.
  intros H. apply (f_equal N_of_ascii) in H.
  rewrite digit_code in H by (apply Z.mod_pos_bound; lia).
  pose proof (Z.mod_pos_bound n 10 ltac:(lia)).
  destruct c; simpl in H; lia.
Qed.

Lemma pad_2 n : pad 2 n = String (digit (n / 10 mod 10)) (String (digit (n mod 10)) "").
Proof. reflexivity. Qed.

Lemma pad_4 n :
  pad 4 n = String (digit (n / 10 / 10 / 10 mod 10)) (String (digit (n / 10 / 10 mod 10))
            (String (digit (n / 10 mod 10)) (String (digit (n mod 10)) ""))).
Proof. reflexivity. Qed.

Lemma pad_6 n :
  pad 6 n = String (digit (n / 10 / 10 / 10 / 10 / 10 mod 10))
            (String (digit (n / 10 / 10 / 10 / 10 mod 10))
            (String (digit (n / 10 / 10 / 10 mod 10)) (String (digit (n / 10 / 10 mod 10))
            (String (digit (n / 10 mod 10)) (String (digit (n mod 10)) ""))))).
Proof. reflexivity. Qed.

Local Ltac digits :=
  repeat match goal with
         | H : digit (_ mod 10) = digit (_ mod 10) |- _ => apply digit_mod_inj in H
         end.

Theorem dateString_inj y m d y' m' d' :
  -999999 <= y <= 999999 -> 0 <= m < 100 -> 0 <= d < 100 ->
  -999999 <= y' <= 999999 -> 0 <= m' < 100 -> 0 <= d' < 100 ->
  dateString y m d = dateString y' m' d' -> y = y' /\ m = m' /\ d = d'.
Proof.
  intros Hy Hm Hd Hy' Hm' Hd' H. unfold dateString, yearString in H.
  rewrite !pad_2 in H.
  destruct ((0 <=? y) && (y <=? 9999)) eqn:E; destruct ((0 <=? y') && (y' <=? 9999)) eqn:E'.
  - rewrite !pad_4 in H. simpl in H.
    injection H; intros. digits.
    apply andb_prop in E as [?%Z.leb_le ?%Z.leb_le].
    apply andb_prop in E' as [?%Z.leb_le ?%Z.leb_le].
    repeat split; Z.to_euclidean_division_equations; lia.
  - rewrite pad_4 in H. simpl in H. exfalso.
    injection H; intros. eapply digit_not_sign; eassumption.
  - rewrite pad_4 in H. simpl in H. exfalso.
    injection H; intros. eapply digit_not_sign; symmetry; eassumption.
  - rewrite !pad_6 in H. simpl in H.
    injection H; intros. digits.
    assert (Z.abs y = Z.abs y') as Habs by (Z.to_euclidean_division_equations; lia).
    assert (y = y').
    { destruct (Z.leb_spec 0 y); destruct (Z.leb_spec 0 y');
        try match goal with Hs : _ = _ :> ascii |- _ => discriminate Hs end; lia. }
    repeat split; try assumption; Z.to_euclidean_division_equations; lia.
Qed.

Lemma Day_range t : Z.abs t <= maxTime -> Z.abs (Day t) <= 100000000.
Proof.
  unfold Day, maxTime, msPerDay. intros H. Z.to_euclidean_division_equations. lia.
Qed.

(** In the range of the time values, two instants have the same date only
    on the same day. *)
Theorem toISODate_inj t t' :
  Z.abs t <= maxTime -> Z.abs t' <= maxTime -> toISODate t = toISODate t' -> Day t = Day t'.
Proof.
  intros Ht Ht' H. unfold toISODate in H.
  pose proof (civil_range _ (Day_range t Ht)) as R.
  pose proof (civil_range _ (Day_range t' Ht')) as R'.
  apply civil_inj.
  destruct (civil (Day t)) as [[y m] d]. destruct (civil (Day t')) as [[y' m'] d'].
  apply dateString_inj in H; [|lia..].
  destruct H as (-> & -> & ->). reflexivity.
Qed.

End DateFacts.

(** ** The loop of the leave synthesizer *)

Section LeaveLoop.
Import JSDate.

Lemma TimeClip_Some t : Z.abs t <= maxTime -> TimeClip t = Some t.
Proof. intros H. unfold TimeClip. apply Z.leb_le in H. rewrite H. reflexivity. Qed.

Lemma TimeClip_None t : maxTime < Z.abs t -> TimeClip t = None.
Proof. intros H. unfold TimeClip. apply Z.leb_gt in H. rewrite H. reflexivity. Qed.

Lemma TimeClip_bound t t' : TimeClip t = Some t' -> t' = t /\ Z.abs t <= maxTime.
Proof.
  unfold TimeClip. destruct (Z.leb_spec (Z.abs t) maxTime); intros [=]. auto.
Qed.

Lemma construct_bound parse s t : construct parse s = Some t -> Z.abs t <= maxTime.
Proof.
  unfold construct. destruct (parse s); [|discriminate].
  intros H. apply TimeClip_bound in H as [-> ?]. assumption.
Qed.

Lemma rounds_after s e :
  s <= e -> Z.to_nat ((e - s) / msPerDay + 1) = S (Z.to_nat ((e - (s + msPerDay)) / msPerDay + 1)).
Proof.
  intros H. unfold msPerDay.
  rewrite <- Z2Nat.inj_succ by (Z.to_euclidean_division_equations; lia).
  f_equal. Z.to_euclidean_division_equations. lia.
Qed.

Lemma rounds_none s e : e < s -> Z.to_nat ((e - s) / msPerDay + 1) = O.
Proof.
  intros H. unfold msPerDay.
  assert ((e - s) / 86400000 + 1 <= 0) by (Z.to_euclidean_division_equations; lia). lia.
Qed.

Lemma loopTimes_cons s e : s <= e -> loopTimes s e = s :: loopTimes (s + msPerDay) e.
Proof.
  intros H. unfold loopTimes. rewrite (rounds_after s e H).
  cbn [seq map]. f_equal; [lia|].
  rewrite <- seq_shift, map_map. apply map_ext. intros k. lia.
Qed.

Lemma loopTimes_nil s e : e < s -> loopTimes s e = [].
Proof. intros H. unfold loopTimes. rewrite rounds_none by assumption. reflexivity. Qed.

Lemma leaveLoop_invalid fuel tn e recs : leaveLoop fuel tn None e recs = recs.
Proof. destruct fuel; reflexivity. Qed.

(** With the rounds of [leaveDays] the loop runs to its end: it marks the
    dates of [leaveDates] one after the other, and more fuel changes
    nothing. *)
Theorem leaveLoop_fold fuel tn s e recs :
  Z.abs s <= maxTime -> Z.abs e <= maxTime ->
  (leaveDays (Some s) (Some e) <= fuel)%nat ->
  leaveLoop fuel tn (Some s) (Some e) recs
  = fold_left (markLeaveDay tn) (leaveDates s e) recs.
Proof.
  revert s recs. induction fuel as [|fuel IH]; intros s recs Hs He Hfuel.
  - simpl in *. unfold leaveDates, loopTimes.
    replace (Z.to_nat ((e - s) / msPerDay + 1)) with O by lia. reflexivity.
  - cbn [leaveLoop JSDate.le]. destruct (Z.leb_spec s e) as [Hle|Hgt].
    + unfold leaveDates. rewrite (loopTimes_cons s e Hle). cbn [map fold_left].
      unfold nextUTCDate.
      destruct (Z.le_gt_cases (Z.abs (s + msPerDay)) maxTime) as [Hin|Hout].
      * rewrite TimeClip_Some by assumption. apply IH; [assumption..|].
        simpl in Hfuel. rewrite (rounds_after s e Hle) in Hfuel. simpl. lia.
      * rewrite TimeClip_None by assumption. rewrite leaveLoop_invalid.
        rewrite loopTimes_nil; [reflexivity|]. unfold msPerDay, maxTime in *. lia.
    + unfold leaveDates. rewrite loopTimes_nil by assumption. reflexivity.
Qed.

Lemma loopTimes_elem s e t :
  t ∈ loopTimes s e <-> exists k, 0 <= k /\ t = s + k * msPerDay /\ t <= e.
Proof.
  unfold loopTimes. rewrite list_elem_of_In, in_map_iff. split.
  - intros (k & <- & Hk%in_seq). exists (Z.of_nat k). split; [lia|]. split; [reflexivity|].
    unfold msPerDay in *.
    assert (Z.of_nat k < (e - s) / 86400000 + 1) by lia.
    Z.to_euclidean_division_equations. nia.
  - intros (k & Hk & -> & Hle). exists (Z.to_nat k).
    split; [rewrite Z2Nat.id by lia; reflexivity|]. apply in_seq.
    unfold msPerDay in *.
    assert (k < (e - s) / 86400000 + 1) by (Z.to_euclidean_division_equations; nia). lia.
Qed.

Lemma loopTimes_bound s e t :
  Z.abs s <= maxTime -> Z.abs e <= maxTime -> t ∈ loopTimes s e -> Z.abs t <= maxTime.
Proof.
  intros Hs He (k & Hk & -> & Hle)%loopTimes_elem. unfold msPerDay, maxTime in *. lia.
Qed.

Lemma Day_step s k : Day (s + k * msPerDay) = Day s + k.
Proof. unfold Day, msPerDay. rewrite Z.div_add by lia. reflexivity. Qed.

(** The dates of the rounds are pairwise different. *)
Theorem leaveDates_NoDup s e :
  Z.abs s <= maxTime -> Z.abs e <= maxTime -> NoDup (leaveDates s e).
Proof.
  intros Hs He. unfold leaveDates.
  assert (NoDup (loopTimes s e)) as Hnd.
  { unfold loopTimes. apply (NoDup_fmap_2_strong (fun k => s + Z.of_nat k * msPerDay)).
    - intros a b _ _ Hab. unfold msPerDay in Hab. lia.
    - apply NoDup_ListNoDup, seq_NoDup. }
  apply (NoDup_fmap_2_strong toISODate); [|assumption].
  intros t t' Ht Ht' Heq.
  apply DateFacts.toISODate_inj in Heq; [|apply (loopTimes_bound s e); assumption..].
  apply loopTimes_elem in Ht as (k & _ & -> & _).
  apply loopTimes_elem in Ht' as (k' & _ & -> & _).
  rewrite !Day_step in Heq. f_equal. f_equal. lia.
Qed.

End LeaveLoop.

(** ** Arrays *)

Section Arrays.
Context {A : Type}.
Implicit Types (p : A -> bool) (l : list A).

Lemma findIndex_Some p l i :
  findIndex p l = Some i ->
  exists x, l !! i = Some x /\ p x = true /\
            forall j y, (j < i)%nat -> l !! j = Some y -> p y = false.
Proof.
  revert i. induction l as [|a l IH]; intros i H; [discriminate|].
  simpl in H. destruct (p a) eqn:Hpa.
  - injection H as <-. exists a. repeat split; [assumption|]. intros j y Hj. lia.
  - destruct (findIndex p l) as [i'|] eqn:Hf; [|discriminate].
    injection H as <-. destruct (IH i' eq_refl) as (x & Hx & Hpx & Hbefore).
    exists x. repeat split; [assumption..|].
    intros [|j] y Hj Hy; simpl in Hy.
    + injection Hy as <-. assumption.
    + apply (Hbefore j); [lia|assumption].
Qed.

Lemma findIndex_None p l : findIndex p l = None <-> forall x, x ∈ l -> p x = false.
Proof.
  induction l as [|a l IH]; simpl.
  - split; [intros _ x Hx; inversion Hx|reflexivity].
  - destruct (p a) eqn:Hpa.
    + split; [discriminate|]. intros H. rewrite (H a) in Hpa; [discriminate|left].
    + destruct (findIndex p l); simpl.
      * split; [discriminate|]. intros H.
        assert (Some n = None) as [=]. apply IH. intros x Hx. apply H. right. assumption.
      * split; [|reflexivity]. intros _ x Hx.
        apply elem_of_cons in Hx as [->|Hx]; [assumption|].
        destruct IH as [IH _]. apply IH; [reflexivity|assumption].
Qed.

(** Replacing an element by one that [p] does not tell apart leaves the
    index that [findIndex] returns. *)
Lemma findIndex_insert p l i x x' :
  l !! i = Some x -> p x' = p x -> findIndex p (<[i := x']> l) = findIndex p l.
Proof.
  revert i. induction l as [|a l IH]; intros [|i] Hx Hp; simpl in *; try discriminate.
  - injection Hx as ->. rewrite Hp. reflexivity.
  - rewrite (IH i Hx Hp). reflexivity.
Qed.

End Arrays.

(** ** Marking the days of a leave *)

Section Marking.
Variable teacherName : string.
Implicit Types (recs : list AttendanceRecord) (dates : list string).

Local Abbreviation mark := (markLeaveDay teacherName).

Lemma hasLeaveRecord_app recs recs' ds :
  hasLeaveRecord (recs ++ recs') ds = hasLeaveRecord recs ds || hasLeaveRecord recs' ds.
Proof. unfold hasLeaveRecord, some. apply existsb_app. Qed.

Lemma isLeaveRecordFor_leaveRecord ds ds' :
  isLeaveRecordFor ds (leaveRecord teacherName ds') = String.eqb ds' ds.
Proof. unfold isLeaveRecordFor. simpl. apply andb_true_r. Qed.

Lemma hasLeaveRecord_new ds ds' :
  hasLeaveRecord [leaveRecord teacherName ds'] ds = String.eqb ds' ds.
Proof.
  unfold hasLeaveRecord, some. simpl.
  rewrite isLeaveRecordFor_leaveRecord. apply orb_false_r.
Qed.

Lemma mark_cases recs ds :
  (hasLeaveRecord recs ds = true /\ mark recs ds = recs) \/
  (hasLeaveRecord recs ds = false /\ mark recs ds = recs ++ [leaveRecord teacherName ds]).
Proof.
  unfold markLeaveDay. fold (hasLeaveRecord recs ds).
  destruct (hasLeaveRecord recs ds); [left|right]; split; reflexivity.
Qed.

Lemma mark_has recs ds : hasLeaveRecord (mark recs ds) ds = true.
Proof.
  destruct (mark_cases recs ds) as [[H ->]|[H ->]]; [assumption|].
  rewrite hasLeaveRecord_app, hasLeaveRecord_new, String.eqb_refl. apply orb_true_r.
Qed.

Lemma mark_keeps recs ds ds' :
  hasLeaveRecord recs ds' = true -> hasLeaveRecord (mark recs ds) ds' = true.
Proof.
  intros H. destruct (mark_cases recs ds) as [[_ ->]|[_ ->]]; [assumption|].
  rewrite hasLeaveRecord_app, H. reflexivity.
Qed.

Lemma fold_mark_keeps dates recs ds :
  hasLeaveRecord recs ds = true -> hasLeaveRecord (fold_left mark dates recs) ds = true.
Proof.
  revert recs. induction dates as [|d dates IH]; intros recs H; [assumption|].
  cbn [fold_left]. apply IH, mark_keeps, H.
Qed.

Lemma fold_mark_has dates recs ds :
  ds ∈ dates -> hasLeaveRecord (fold_left mark dates recs) ds = true.
Proof.
  revert recs. induction dates as [|d dates IH]; intros recs H; [inversion H|].
  cbn [fold_left]. apply elem_of_cons in H as [->|H].
  - apply fold_mark_keeps, mark_has.
  - apply IH, H.
Qed.

(** Nothing is appended once every date has its record. *)
Lemma fold_mark_fixed dates recs :
  (forall ds, ds ∈ dates -> hasLeaveRecord recs ds = true) ->
  fold_left mark dates recs = recs.
Proof.
  induction dates as [|d dates IH]; intros H; [reflexivity|].
  cbn [fold_left]. destruct (mark_cases recs d) as [[_ ->]|[Hf _]].
  - apply IH. intros ds Hds. apply H. right. assumption.
  - rewrite H in Hf by left. discriminate.
Qed.

Theorem fold_mark_idempotent dates recs :
  fold_left mark dates (fold_left mark dates recs) = fold_left mark dates recs.
Proof. apply fold_mark_fixed. intros ds Hds. apply fold_mark_has, Hds. Qed.

(** When the dates are pairwise different, the appended records are those
    of the dates that had none. *)
Theorem fold_mark_missing dates recs :
  NoDup dates ->
  fold_left mark dates recs
  = recs ++ map (leaveRecord teacherName) (missingDates recs dates).
Proof.
  revert recs. induction dates as [|d dates IH]; intros recs Hnd.
  - symmetry. apply app_nil_r.
  - apply NoDup_cons in Hnd as [Hd Hnd]. cbn [fold_left]. rewrite (IH _ Hnd).
    unfold missingDates. cbn [List.filter].
    destruct (mark_cases recs d) as [[Hh ->]|[Hh ->]]; rewrite Hh; cbn [negb].
    + reflexivity.
    + rewrite <- app_assoc. cbn [map app]. do 3 f_equal.
      apply filter_ext_in. intros ds Hds. f_equal.
      rewrite hasLeaveRecord_app, hasLeaveRecord_new.
      destruct (String.eqb_spec d ds) as [->|_]; [|apply orb_false_r].
      exfalso. apply Hd, list_elem_of_In, Hds.
Qed.

Lemma countLeave_app ds recs recs' :
  countLeave ds (recs ++ recs') = (countLeave ds recs + countLeave ds recs')%nat.
Proof. unfold countLeave. rewrite List.filter_app, length_app. reflexivity. Qed.

Lemma countLeave_has ds recs : hasLeaveRecord recs ds = false <-> countLeave ds recs = O.
Proof.
  unfold hasLeaveRecord, some, countLeave. induction recs as [|r recs IH]; simpl.
  - split; reflexivity.
  - destruct (isLeaveRecordFor ds r); simpl; [split; discriminate|exact IH].
Qed.

Lemma countLeave_new ds d :
  countLeave ds [leaveRecord teacherName d] = if String.eqb d ds then 1%nat else O.
Proof.
  unfold countLeave. cbn [List.filter]. rewrite isLeaveRecordFor_leaveRecord.
  destruct (String.eqb d ds); reflexivity.
Qed.

Lemma countLeave_mark ds recs d :
  (countLeave ds (mark recs d) <= Nat.max 1 (countLeave ds recs))%nat
  /\ (countLeave ds recs <= countLeave ds (mark recs d))%nat.
Proof.
  destruct (mark_cases recs d) as [[_ ->]|[Hh ->]]; [lia|].
  rewrite countLeave_app, countLeave_new.
  destruct (String.eqb_spec d ds) as [->|_]; [|lia].
  apply countLeave_has in Hh. lia.
Qed.

(** The synthesizer never gives a date a second leave record. *)
Theorem countLeave_fold ds dates recs :
  (countLeave ds (fold_left mark dates recs) <= Nat.max 1 (countLeave ds recs))%nat.
Proof.
  revert recs. induction dates as [|d dates IH]; intros recs; [simpl; lia|].
  cbn [fold_left]. specialize (IH (mark recs d)).
  pose proof (countLeave_mark ds recs d). lia.
Qed.

End Marking.

Section Counting.
Variable teacherName : string.

Lemma NoDup_List_filter {A} (f : A -> bool) (l : list A) : NoDup l -> NoDup (List.filter f l).
Proof.
  induction 1 as [|x l Hx Hnd IH]; [constructor|]. cbn [List.filter].
  destruct (f x); [|exact IH]. constructor; [|exact IH].
  intros Hin. apply Hx. apply list_elem_of_In in Hin. apply filter_In in Hin as [Hin _].
  apply list_elem_of_In, Hin.
Qed.

Lemma countLeave_absent ds (l : list string) :
  ds ∉ l -> countLeave ds (map (leaveRecord teacherName) l) = O.
Proof.
  induction l as [|d l IH]; intros Hds; [reflexivity|].
  cbn [map]. change (leaveRecord teacherName d :: ?t) with ([leaveRecord teacherName d] ++ t).
  rewrite countLeave_app, countLeave_new, IH.
  - destruct (String.eqb_spec d ds) as [->|_]; [|reflexivity]. exfalso. apply Hds. left.
  - intros H. apply Hds. right. exact H.
Qed.

(** Among the leave records of pairwise different dates, a date has one. *)
Lemma countLeave_once ds (l : list string) :
  NoDup l -> ds ∈ l -> countLeave ds (map (leaveRecord teacherName) l) = 1%nat.
Proof.
  induction 1 as [|d l Hd Hnd IH]; intros Hds; [inversion Hds|].
  cbn [map]. change (leaveRecord teacherName d :: ?t) with ([leaveRecord teacherName d] ++ t).
  rewrite countLeave_app, countLeave_new.
  apply elem_of_cons in Hds as [->|Hds].
  - rewrite String.eqb_refl, countLeave_absent by assumption. reflexivity.
  - rewrite IH by assumption.
    destruct (String.eqb_spec d ds) as [->|_]; [contradiction|reflexivity].
Qed.

Lemma missingDates_elem attendance dates ds :
  ds ∈ missingDates attendance dates <-> ds ∈ dates /\ hasLeaveRecord attendance ds = false.
Proof.
  unfold missingDates. rewrite !list_elem_of_In, filter_In, negb_true_iff. reflexivity.
Qed.

Lemma missingDates_all attendance dates :
  (forall ds, ds ∈ dates -> hasLeaveRecord attendance ds = false) ->
  missingDates attendance dates = dates.
Proof.
  intros H. unfold missingDates. induction dates as [|d dates IH]; [reflexivity|].
  cbn [List.filter]. rewrite (H d) by left. cbn [negb]. f_equal.
  apply IH. intros ds Hds. apply H. right. exact Hds.
Qed.

End Counting.

(** ** The leave handler *)

Lemma withAttendance_same s : withAttendance s (student_attendance s) = s.
Proof. destruct s; reflexivity. Qed.

Lemma withBlock_same s :
  withBlock s (student_isAccessBlocked s) (student_blockReason s) = s.
Proof. destruct s; reflexivity. Qed.

Lemma synthesizeLeave_fold parse us application attendance :
  synthesizeLeave parse us application attendance
  = fold_left (markLeaveDay (teacherNameOr (find isTeacher us) "System"))
              (leaveRange parse application) attendance.
Proof.
  unfold synthesizeLeave, leaveRange.
  destruct (JSDate.construct parse (leave_startDate application +:+ "T00:00:00Z"))
    as [s|] eqn:Hs; [|reflexivity].
  destruct (JSDate.construct parse (leave_endDate application +:+ "T00:00:00Z"))
    as [e|] eqn:He; [|reflexivity].
  apply leaveLoop_fold; [eapply construct_bound; eassumption..|]. reflexivity.
Qed.

Lemma leaveRange_NoDup parse application : NoDup (leaveRange parse application).
Proof.
  unfold leaveRange.
  destruct (JSDate.construct parse (leave_startDate application +:+ "T00:00:00Z"))
    as [s|] eqn:Hs; [|constructor].
  destruct (JSDate.construct parse (leave_endDate application +:+ "T00:00:00Z"))
    as [e|] eqn:He; [|constructor].
  apply leaveDates_NoDup; eapply construct_bound; eassumption.
Qed.

(** The attendance after the synthesis: the records that were there, then
    one leave record for each date of the leave that had none. *)
Theorem synthesizeLeave_missing parse us application attendance :
  synthesizeLeave parse us application attendance
  = attendance ++ map (leaveRecord (teacherNameOr (find isTeacher us) "System"))
                      (missingDates attendance (leaveRange parse application)).
Proof. rewrite synthesizeLeave_fold. apply fold_mark_missing, leaveRange_NoDup. Qed.

(** With an invalid date the loop does not run. *)
Lemma synthesizeLeave_invalid parse us application attendance :
  JSDate.construct parse (leave_startDate application +:+ "T00:00:00Z") = None
  \/ JSDate.construct parse (leave_endDate application +:+ "T00:00:00Z") = None ->
  synthesizeLeave parse us application attendance = attendance.
Proof.
  intros H. rewrite synthesizeLeave_fold. unfold leaveRange.
  destruct H as [-> | ->]; [reflexivity|].
  destruct (JSDate.construct parse _); reflexivity.
Qed.

Theorem synthesizeLeave_idempotent parse us application attendance :
  synthesizeLeave parse us application (synthesizeLeave parse us application attendance)
  = synthesizeLeave parse us application attendance.
Proof. rewrite !synthesizeLeave_fold. apply fold_mark_idempotent. Qed.

Section Handler.
Variable parse : string -> option Z.
Variables (applicationId : string) (teacherComment : option string) (st : State).

Local Abbreviation byId := (fun app => String.eqb (leave_id app) applicationId).

Lemma update_unknown status :
  findIndex byId (leaveApplications st) = None ->
  handleUpdateLeaveStatus parse applicationId status teacherComment st = st.
Proof. intros H. unfold handleUpdateLeaveStatus. rewrite H. reflexivity. Qed.

Lemma update_rejected i application :
  findIndex byId (leaveApplications st) = Some i ->
  leaveApplications st !! i = Some application ->
  handleUpdateLeaveStatus parse applicationId Rejected teacherComment st
  = setLeaveApplications
      (<[i := withDecision application LeaveStatus.Rejected teacherComment]>
         (leaveApplications st)) st.
Proof.
  intros Hi Happ. unfold handleUpdateLeaveStatus. rewrite Hi, Happ. reflexivity.
Qed.

Lemma update_no_student i application :
  findIndex byId (leaveApplications st) = Some i ->
  leaveApplications st !! i = Some application ->
  findIndex (fun s => String.eqb (student_id s) (leave_studentId application)) (students st)
  = None ->
  handleUpdateLeaveStatus parse applicationId Approved teacherComment st
  = setLeaveApplications
      (<[i := withDecision application LeaveStatus.Approved teacherComment]>
         (leaveApplications st)) st.
Proof.
  intros Hi Happ Hs. unfold handleUpdateLeaveStatus.
  rewrite Hi, Happ, Hs. reflexivity.
Qed.

Lemma update_approved i application j studentToUpdate :
  findIndex byId (leaveApplications st) = Some i ->
  leaveApplications st !! i = Some application ->
  findIndex (fun s => String.eqb (student_id s) (leave_studentId application)) (students st)
  = Some j ->
  students st !! j = Some studentToUpdate ->
  handleUpdateLeaveStatus parse applicationId Approved teacherComment st
  = setStudents
      (<[j := withAttendance studentToUpdate
                (synthesizeLeave parse (users st) application
                   (student_attendance studentToUpdate))]> (students st))
      (setLeaveApplications
         (<[i := withDecision application LeaveStatus.Approved teacherComment]>
            (leaveApplications st)) st).
Proof.
  intros Hi Happ Hj Hs. unfold handleUpdateLeaveStatus.
  rewrite Hi, Happ, Hj, Hs. reflexivity.
Qed.

Lemma update_outcome status :
  Outcome parse applicationId teacherComment st status
    (handleUpdateLeaveStatus parse applicationId status teacherComment st).
Proof.
  destruct (findIndex byId (leaveApplications st)) as [i|] eqn:Hi.
  2: { rewrite update_unknown by assumption. apply Unknown_application, Hi. }
  destruct (findIndex_Some _ _ _ Hi) as (application & Happ & _).
  destruct status.
  - destruct (findIndex (fun s => String.eqb (student_id s) (leave_studentId application))
                        (students st)) as [j|] eqn:Hj.
    + destruct (findIndex_Some _ _ _ Hj) as (studentToUpdate & Hs & _).
      rewrite (update_approved i application j studentToUpdate) by assumption.
      eapply Synthesized; eauto.
    + rewrite (update_no_student i application) by assumption.
      eapply Decided; eauto.
  - rewrite (update_rejected i application) by assumption.
    eapply Decided; eauto.
Qed.

End Handler.

Lemma Forall2_diag {A} (R : A -> A -> Prop) (l : list A) :
  (forall x, R x x) -> Forall2 R l l.
Proof. intros HR. induction l; constructor; auto. Qed.

(** A list against the list with one element replaced. *)
Lemma Forall2_replace {A} (R : A -> A -> Prop) (l : list A) j x y :
  (forall z, R z z) -> l !! j = Some x -> R x y -> Forall2 R l (<[j := y]> l).
Proof.
  intros HR Hx Hxy. rewrite <- (list_insert_id l j x Hx) at 1.
  apply Forall2_insert; [apply Forall2_diag, HR|exact Hxy].
Qed.

Lemma synthesizeLeave_decided parse us application status teacherComment attendance :
  synthesizeLeave parse us (withDecision application status teacherComment) attendance
  = synthesizeLeave parse us application attendance.
Proof. reflexivity. Qed.

(** ** Unknown identifiers in [handleUpdateLeaveStatus] *)

(** C7 (as the code has it): when no leave application has the identifier,
    the handler returns the state it was given; when the application exists
    but no student has its [studentId], the application still receives the
    status and the comment, and nothing else of the state changes: no
    attendance is synthesized.  The application that is stored has the status
    of the decision and the comment given, and every other field of the
    application found. *)
Theorem update_unknown_ids parse applicationId status teacherComment st :
  ((forall app, app ∈ leaveApplications st -> leave_id app <> applicationId) ->
   handleUpdateLeaveStatus parse applicationId status teacherComment st = st)
  /\ (forall i application,
        findIndex (fun app => String.eqb (leave_id app) applicationId)
                  (leaveApplications st) = Some i ->
        leaveApplications st !! i = Some application ->
        (forall s, s ∈ students st -> student_id s <> leave_studentId application) ->
        let st' := handleUpdateLeaveStatus parse applicationId status teacherComment st in
        let updated := withDecision application (decided status) teacherComment in
        st' = setLeaveApplications (<[i := updated]> (leaveApplications st)) st
        /\ leaveApplications st' = <[i := updated]> (leaveApplications st)
        /\ leave_status updated
           = match status with
             | Approved => LeaveStatus.Approved
             | Rejected => LeaveStatus.Rejected
             end
        /\ leave_teacherComment updated = teacherComment
        /\ keepsApplication application updated
        /\ keepsButApplications st st').
Proof.
  split.
  - intros Hnone. apply update_unknown. apply findIndex_None.
    intros app Happ. apply String.eqb_neq, Hnone, Happ.
  - intros i application Hi Happ Hnone. cbn zeta.
    assert (findIndex (fun s => String.eqb (student_id s) (leave_studentId application))
                      (students st) = None) as Hs.
    { apply findIndex_None. intros s Hs. apply String.eqb_neq, Hnone, Hs. }
    assert (handleUpdateLeaveStatus parse applicationId status teacherComment st
            = setLeaveApplications
                (<[i := withDecision application (decided status) teacherComment]>
                   (leaveApplications st)) st) as Hst.
    { destruct status.
      - apply update_no_student; assumption.
      - apply update_rejected; assumption. }
    rewrite Hst. split; [reflexivity|]. split; [reflexivity|].
    split; [destruct status; reflexivity|]. split; [reflexivity|].
    split; [unfold keepsApplication|unfold keepsButApplications]; repeat split.
Qed.

Lemma update_unknown_ids_witness :
  let st' := handleUpdateLeaveStatus JSDate.isoParse "leave-2" Approved (Some "ok")
                                     Demo.school in
  handleUpdateLeaveStatus JSDate.isoParse "leave-7" Approved (Some "ok") Demo.school
  = Demo.school
  /\ map (fun app => (leave_id app, leave_status app, leave_teacherComment app))
         (leaveApplications st')
     = [("leave-1", LeaveStatus.Pending, None);
        ("leave-2", LeaveStatus.Approved, Some "ok")]
  /\ students st' = students Demo.school
  /\ users st' = users Demo.school /\ currentUser st' = currentUser Demo.school.
Proof.
  cbn zeta. split.
  - apply (update_unknown_ids JSDate.isoParse "leave-7" Approved (Some "ok") Demo.school).
    intros app Happ. vm_compute in Happ.
    repeat (apply elem_of_cons in Happ as [->|Happ]; [discriminate|]).
    inversion Happ.
  - destruct (update_unknown_ids JSDate.isoParse "leave-2" Approved (Some "ok") Demo.school)
      as [_ Hfound].
    destruct (Hfound 1%nat (Demo.leave "leave-2" "user-9" "2024-01-10" "2024-01-10")
                eq_refl eq_refl)
      as (_ & Happs & _ & _ & _ & Hu & Hus & Hss & _).
    + intros s Hs. vm_compute in Hs.
      repeat (apply elem_of_cons in Hs as [->|Hs]; [discriminate|]).
      inversion Hs.
    + split; [rewrite Happs; reflexivity|]. split; [exact Hss|].
      split; [exact Hus|exact Hu].
Defined.

(** C7, the claim as it is worded, fails: approving the application
    ["leave-2"], whose student ["user-9"] does not exist, changes the state:
    the application becomes approved. *)
Lemma update_unknown_student_changes :
  (forall s, s ∈ students Demo.school -> student_id s <> "user-9")
  /\ handleUpdateLeaveStatus JSDate.isoParse "leave-2" Approved None Demo.school
     <> Demo.school
  /\ map leave_status
         (leaveApplications
            (handleUpdateLeaveStatus JSDate.isoParse "leave-2" Approved None Demo.school))
     = [LeaveStatus.Pending; LeaveStatus.Approved].
Proof.
  split; [|split].
  - intros s Hs. vm_compute in Hs.
    repeat (apply elem_of_cons in Hs as [->|Hs]; [discriminate|]).
    inversion Hs.
  - intros H. apply (f_equal (fun st => map leave_status (leaveApplications st))) in H.
    vm_compute in H. discriminate H.
  - reflexivity.
Qed.

(** ** Deleting an exam *)

(** C8: [handleDeleteExam] keeps, in their order, the exams with another
    identifier and the submissions of another exam, removes the others, and
    touches nothing else. *)
Theorem delete_exam_cascade examId st :
  let st' := handleDeleteExam examId st in
  (forall e, e ∈ exams st' <-> e ∈ exams st /\ exam_id e <> examId)
  /\ (forall s, s ∈ examSubmissions st' <->
                s ∈ examSubmissions st /\ submission_examId s <> examId)
  /\ examSubmissions st' `sublist_of` examSubmissions st
  /\ List.filter (fun s => negb (String.eqb (submission_examId s) examId))
                 (examSubmissions st') =
     List.filter (fun s => negb (String.eqb (submission_examId s) examId))
                 (examSubmissions st)
  /\ (length (examSubmissions st)
      = length (examSubmissions st')
        + length (List.filter (fun s => String.eqb (submission_examId s) examId)
                              (examSubmissions st)))%nat
  /\ currentUser st' = currentUser st /\ users st' = users st
  /\ students st' = students st /\ leaveApplications st' = leaveApplications st.
Proof.
  cbn zeta. unfold handleDeleteExam.
  cbn [exams examSubmissions setExamSubmissions setExams currentUser users students
       leaveApplications].
  assert (forall {A} (key : A -> string) (l : list A) x,
            x ∈ List.filter (fun y => negb (String.eqb (key y) examId)) l
            <-> x ∈ l /\ key x <> examId) as Hkept.
  { intros A key l x.
    rewrite !list_elem_of_In, filter_In, negb_true_iff, String.eqb_neq. reflexivity. }
  split; [intros e; apply (Hkept _ exam_id)|].
  split; [intros s; apply (Hkept _ submission_examId)|].
  split; [|split; [|split; [|repeat split]]].
  - induction (examSubmissions st) as [|s l IH]; [constructor|]. cbn [List.filter].
    destruct (negb _); [apply sublist_skip|apply sublist_cons]; exact IH.
  - induction (examSubmissions st) as [|s l IH]; [reflexivity|]. cbn [List.filter].
    destruct (negb _) eqn:E; cbn [List.filter]; rewrite ?E, IH; reflexivity.
  - induction (examSubmissions st) as [|s l IH]; [reflexivity|]. cbn [List.filter].
    destruct (String.eqb _ _); cbn [negb length]; lia.
Qed.

(** Deleting ["exam-1"], which has two submissions, removes those two and
    leaves the submission of ["exam-2"]. *)
Example delete_exam_two :
  map submission_id (examSubmissions Demo.school) = ["sub-1"; "sub-2"; "sub-3"]
  /\ map submission_id (examSubmissions (handleDeleteExam "exam-1" Demo.school)) = ["sub-2"]
  /\ map exam_id (exams (handleDeleteExam "exam-1" Demo.school)) = ["exam-2"].
Proof. repeat split. Qed.

(** ** Signing up as a parent *)

(** C9: a signup as a parent whose [childEmail] is absent, or is the email
    of no user with the role of a student, sets the error of the
    authentication and creates nothing: the users, the students and the
    current user stay as they were. *)
Theorem parent_signup_unresolved department now roll details st :
  details_role details = UserRole.Parent ->
  (details_childEmail details = None \/
   forall u, u ∈ users st -> user_role u = UserRole.Student ->
             Some (user_email u) <> details_childEmail details) ->
  let st' := handleSignup department now roll details st in
  (exists message, authError st' = Some message)
  /\ users st' = users st /\ students st' = students st
  /\ currentUser st' = currentUser st.
Proof.
  intros Hrole Hchild. cbn zeta. unfold handleSignup.
  destruct (find _ (users st)) as [taken|]; [cbn; eauto|].
  rewrite Hrole.
  destruct (falsy (details_childEmail details)) eqn:Hfalsy; [cbn; eauto|].
  destruct (find _ (users st)) as [childUser|] eqn:Hfind; [|cbn; eauto].
  exfalso. unfold find in Hfind. apply find_some in Hfind as [Hin Hmatch].
  apply andb_prop in Hmatch as [Hemail Hstudent].
  apply bool_decide_eq_true in Hemail.
  destruct Hchild as [Hnone|Hnone].
  - rewrite Hnone in Hfalsy. discriminate Hfalsy.
  - apply (Hnone childUser); [apply list_elem_of_In, Hin| |exact Hemail].
    destruct (user_role childUser); try discriminate Hstudent. reflexivity.
Qed.

Lemma parent_signup_unresolved_witness :
  let details :=
    {| details_name := "A. Quill"; details_email := "parent@school.com";
       details_role := UserRole.Parent; details_password := "ink";
       details_childEmail := Some "teacher@school.com";
       details_registeredPhotoUrl := "parent.png" |} in
  let st' := handleSignup "Science" 1704900000000 412 details Demo.school in
  (exists message, authError st' = Some message)
  /\ users st' = users Demo.school /\ students st' = students Demo.school
  /\ currentUser st' = currentUser Demo.school.
Proof.
  apply (parent_signup_unresolved "Science" 1704900000000 412
           {| details_name := "A. Quill"; details_email := "parent@school.com";
              details_role := UserRole.Parent; details_password := "ink";
              details_childEmail := Some "teacher@school.com";
              details_registeredPhotoUrl := "parent.png" |} Demo.school).
  - reflexivity.
  - right. intros u Hu Hrole. vm_compute in Hu.
    repeat (apply elem_of_cons in Hu as [->|Hu]; [discriminate|]).
    inversion Hu.
Defined.

(** ** What [handleUpdateLeaveStatus] leaves alone *)

(** C10: the handler leaves the users, the exams, the submissions and the
    current user; each student keeps every field but the attendance, and
    keeps the attendance records in place, new ones coming after them; a
    student whose identifier is not the [studentId] of the application is
    unchanged. *)
Theorem update_frame parse applicationId status teacherComment st :
  let st' := handleUpdateLeaveStatus parse applicationId status teacherComment st in
  currentUser st' = currentUser st /\ users st' = users st
  /\ exams st' = exams st /\ examSubmissions st' = examSubmissions st
  /\ Forall2 (fun s s' => exists added,
                s' = withAttendance s (student_attendance s ++ added))
             (students st) (students st')
  /\ match findIndex (fun app => String.eqb (leave_id app) applicationId)
                     (leaveApplications st) ≫= (fun i => leaveApplications st !! i) with
     | Some application =>
         Forall2 (fun s s' => student_id s = leave_studentId application \/ s' = s)
                 (students st) (students st')
     | None => students st' = students st
     end.
Proof.
  cbn zeta.
  assert (forall s : Student, exists added,
            s = withAttendance s (student_attendance s ++ added)) as Hrefl.
  { intros s. exists []. rewrite app_nil_r, withAttendance_same. reflexivity. }
  destruct (update_outcome parse applicationId teacherComment st status)
    as [Hnone|i application Hi Happ _|i application j studentToUpdate _ Hi Happ Hj Hs].
  - rewrite Hnone. cbn. repeat split. apply Forall2_diag, Hrefl.
  - rewrite Hi. cbn. rewrite Happ. repeat split.
    + apply Forall2_diag, Hrefl.
    + apply Forall2_diag. auto.
  - rewrite Hi. cbn. rewrite Happ. repeat split.
    + eapply Forall2_replace; [exact Hrefl|exact Hs|].
      rewrite synthesizeLeave_missing. eauto.
    + eapply Forall2_replace; [auto|exact Hs|]. left.
      destruct (findIndex_Some _ _ _ Hj) as (s & Hs' & Hid & _).
      rewrite Hs in Hs'. injection Hs' as <-. apply String.eqb_eq, Hid.
Qed.

(** ** Approving twice *)

(** C1 (as the code has it): a second approval of an application leaves
    the students as the first approval left them, synthesizing again adds
    nothing, and an approval never gives a date a second leave record: for
    each student and each date, the number of records of that date with the
    subject "On Approved Leave" is afterwards at most one, or at most what it
    was before. *)
Theorem reapproval_adds_nothing parse applicationId comment1 comment2 st :
  let st1 := handleUpdateLeaveStatus parse applicationId Approved comment1 st in
  let st2 := handleUpdateLeaveStatus parse applicationId Approved comment2 st1 in
  students st2 = students st1
  /\ (forall us application attendance,
        synthesizeLeave parse us application
          (synthesizeLeave parse us application attendance)
        = synthesizeLeave parse us application attendance)
  /\ Forall2 (fun s s1 => forall dateString,
                (countLeave dateString (student_attendance s1)
                 <= Nat.max 1 (countLeave dateString (student_attendance s)))%nat)
             (students st) (students st1).
Proof.
  cbn zeta. split; [|split].
  - destruct (update_outcome parse applicationId comment1 st Approved)
      as [Hnone|i application Hi Happ [[=]|Hj]
         |i application j studentToUpdate _ Hi Happ Hj Hs].
    + rewrite update_unknown by exact Hnone. reflexivity.
    + rewrite (update_no_student parse applicationId comment2 _ i
                 (withDecision application LeaveStatus.Approved comment1)).
      * reflexivity.
      * cbn. erewrite findIndex_insert; [exact Hi|exact Happ|reflexivity].
      * cbn. apply list_lookup_insert_eq. eapply lookup_lt_Some, Happ.
      * exact Hj.
    + set (marked := synthesizeLeave parse (users st) application
                       (student_attendance studentToUpdate)).
      rewrite (update_approved parse applicationId comment2 _ i
                 (withDecision application LeaveStatus.Approved comment1) j
                 (withAttendance studentToUpdate marked)).
      * cbn. rewrite synthesizeLeave_decided. fold marked.
        unfold marked at 2. rewrite synthesizeLeave_idempotent. fold marked.
        apply list_insert_insert_eq.
      * cbn. erewrite findIndex_insert; [exact Hi|exact Happ|reflexivity].
      * cbn. apply list_lookup_insert_eq. eapply lookup_lt_Some, Happ.
      * cbn. erewrite findIndex_insert; [exact Hj|exact Hs|reflexivity].
      * cbn. apply list_lookup_insert_eq. eapply lookup_lt_Some, Hs.
  - intros. apply synthesizeLeave_idempotent.
  - destruct (update_outcome parse applicationId comment1 st Approved)
      as [Hnone|i application Hi Happ _|i application j studentToUpdate _ Hi Happ Hj Hs].
    + apply Forall2_diag. intros. lia.
    + cbn. apply Forall2_diag. intros. lia.
    + cbn. eapply Forall2_replace; [intros; lia|exact Hs|].
      intros dateString. cbn. rewrite synthesizeLeave_fold. apply countLeave_fold.
Qed.

(** C1, the claim as it is worded, fails: a student who already has two
    leave records of one date has them at every point, and two approvals do
    not change that. *)
Lemma reapproval_keeps_old_duplicates :
  let twice := [Demo.class "2024-01-10" onApprovedLeave Present;
                Demo.class "2024-01-10" onApprovedLeave Present] in
  let st := setStudents [Demo.quill twice false None] Demo.school in
  let st1 := handleUpdateLeaveStatus JSDate.isoParse "leave-1" Approved None st in
  let st2 := handleUpdateLeaveStatus JSDate.isoParse "leave-1" Approved None st1 in
  map (fun s => countLeave "2024-01-10" (student_attendance s)) (students st) = [2%nat]
  /\ map (fun s => countLeave "2024-01-10" (student_attendance s)) (students st1) = [2%nat]
  /\ map (fun s => countLeave "2024-01-10" (student_attendance s)) (students st2) = [2%nat].
Proof. repeat split. Qed.

(** Approving the leave of three days adds three records; approving it
    again adds none. *)
Example approval_three_days :
  let st1 := handleUpdateLeaveStatus JSDate.isoParse "leave-1" Approved None Demo.school in
  let st2 := handleUpdateLeaveStatus JSDate.isoParse "leave-1" Approved (Some "again") st1 in
  students st1
  = [Demo.other;
     Demo.quill (Demo.week ++ map (leaveRecord "T. Marlow")
                                  ["2024-01-10"; "2024-01-11"; "2024-01-12"]) false None]
  /\ students st2 = students st1.
Proof. repeat split. Qed.

(** ** Approving a leave *)

(** C2 (as the code has it): when the application and its student are
    found, approving sets the status and the comment of the application and
    appends to the attendance of the student, for each day from the start
    date to the end date whose date has no leave record yet, one record of
    that date with the subject "On Approved Leave", the time stamp "All Day",
    the status Present and, as the name of the teacher, the name of the first
    user with the role of a teacher when there is one and the name is not
    empty, "System" otherwise.  The other fields of the application and of
    the student are kept.  The dates of the days are pairwise different, so
    that a leave of three days without leave records adds three records; with
    an invalid date there is no day and nothing is added. *)
Theorem approval_synthesis parse applicationId teacherComment st
    i application j student :
  findIndex (fun app => String.eqb (leave_id app) applicationId) (leaveApplications st)
  = Some i ->
  leaveApplications st !! i = Some application ->
  findIndex (fun x => String.eqb (student_id x) (leave_studentId application)) (students st)
  = Some j ->
  students st !! j = Some student ->
  let st' := handleUpdateLeaveStatus parse applicationId Approved teacherComment st in
  let teacherName :=
    match find (fun u => UserRole.eqb (user_role u) UserRole.Teacher) (users st) with
    | Some teacher =>
        if String.eqb (user_name teacher) "" then "System" else user_name teacher
    | None => "System"
    end in
  let old := student_attendance student in
  let startDate := JSDate.construct parse (leave_startDate application +:+ "T00:00:00Z") in
  let endDate := JSDate.construct parse (leave_endDate application +:+ "T00:00:00Z") in
  let times := match startDate, endDate with
               | Some s, Some e => loopTimes s e
               | _, _ => []
               end in
  let dates := map JSDate.toISODate times in
  let added := map (leaveRecord teacherName) (missingDates old dates) in
  let updated := withDecision application LeaveStatus.Approved teacherComment in
  let marked := withAttendance student (old ++ added) in
  leaveApplications st' = <[i := updated]> (leaveApplications st)
  /\ leave_status updated = LeaveStatus.Approved
  /\ leave_teacherComment updated = teacherComment
  /\ keepsApplication application updated
  /\ students st' = <[j := marked]> (students st)
  /\ student_attendance marked = old ++ added
  /\ keepsButAttendance student marked
  /\ map rec_date added
     = List.filter
         (fun dateString =>
            negb (existsb (fun rec => String.eqb (rec_date rec) dateString
                                      && String.eqb (rec_subject rec) "On Approved Leave")
                          old))
         dates
  /\ Forall (fun rec => rec_subject rec = "On Approved Leave"
                        /\ rec_teacherName rec = teacherName
                        /\ rec_timestamp rec = "All Day" /\ rec_status rec = Present)
            added
  /\ NoDup dates
  /\ (forall dateString,
        dateString ∈ dates -> hasLeaveRecord old dateString = false ->
        countLeave dateString (old ++ added) = 1%nat
        /\ leaveRecord teacherName dateString ∈ added)
  /\ (forall dateString,
        hasLeaveRecord old dateString = true ->
        countLeave dateString (old ++ added) = countLeave dateString old)
  /\ match startDate, endDate with
     | Some s, Some e =>
         (forall t, t ∈ times <->
                    exists k, 0 <= k /\ t = s + k * JSDate.msPerDay /\ t <= e)
         /\ ((forall dateString,
                dateString ∈ dates -> hasLeaveRecord old dateString = false) ->
             length added = Z.to_nat ((e - s) / JSDate.msPerDay + 1)
             /\ (e = s + 2 * JSDate.msPerDay -> length added = 3%nat))
     | _, _ => added = []
     end.
Proof.
  intros Hi Happ Hj Hs. cbn zeta.
  assert (leaveRange parse application
          = map JSDate.toISODate
              match JSDate.construct parse (leave_startDate application +:+ "T00:00:00Z"),
                    JSDate.construct parse (leave_endDate application +:+ "T00:00:00Z") with
              | Some s, Some e => loopTimes s e
              | _, _ => []
              end) as Hrange.
  { unfold leaveRange, leaveDates.
    destruct (JSDate.construct parse (leave_startDate application +:+ "T00:00:00Z"));
      [|reflexivity].
    destruct (JSDate.construct parse (leave_endDate application +:+ "T00:00:00Z"));
      reflexivity. }
  pose proof (leaveRange_NoDup parse application) as Hnd. rewrite Hrange in Hnd.
  rewrite (update_approved parse applicationId teacherComment st i application j student)
    by assumption.
  rewrite synthesizeLeave_missing, Hrange.
  change (teacherNameOr (find isTeacher (users st)) "System")
    with (match find (fun u => UserRole.eqb (user_role u) UserRole.Teacher) (users st) with
          | Some teacher =>
              if String.eqb (user_name teacher) "" then "System" else user_name teacher
          | None => "System"
          end).
  match goal with
  | |- context [map (leaveRecord ?t)] => set (teacherName := t)
  end.
  match goal with
  | |- context [map JSDate.toISODate ?t] => set (times := t) in *
  end.
  cbn [leaveApplications students setStudents setLeaveApplications student_attendance
       withAttendance].
  split; [reflexivity|]. split; [reflexivity|]. split; [reflexivity|].
  split; [unfold keepsApplication; repeat split|].
  split; [reflexivity|]. split; [reflexivity|].
  split; [unfold keepsButAttendance; repeat split|].
  split; [|split; [|split; [exact Hnd|split; [|split]]]].
  - rewrite List.map_map. cbn [rec_date leaveRecord]. rewrite List.map_id. reflexivity.
  - induction (missingDates (student_attendance student) (map JSDate.toISODate times))
      as [|d l IH]; constructor; [repeat split|exact IH].
  - intros dateString Hin Hnew.
    assert (dateString ∈ missingDates (student_attendance student)
                           (map JSDate.toISODate times)) as Hmiss
      by (apply missingDates_elem; auto).
    split.
    + rewrite countLeave_app, countLeave_once;
        [|apply NoDup_List_filter, Hnd|exact Hmiss].
      apply countLeave_has in Hnew. rewrite Hnew. reflexivity.
    + apply list_elem_of_In, in_map, list_elem_of_In, Hmiss.
  - intros dateString Hhas. rewrite countLeave_app, countLeave_absent; [lia|].
    intros Hmiss%missingDates_elem. destruct Hmiss as [_ Hmiss]. congruence.
  - subst times.
    destruct (JSDate.construct parse (leave_startDate application +:+ "T00:00:00Z"))
      as [s|]; [|reflexivity].
    destruct (JSDate.construct parse (leave_endDate application +:+ "T00:00:00Z"))
      as [e|]; [|reflexivity].
    split; [apply loopTimes_elem|].
    intros Hall. rewrite missingDates_all by exact Hall.
    rewrite !length_map.
    assert (length (loopTimes s e) = Z.to_nat ((e - s) / JSDate.msPerDay + 1)) as Hlen
      by (unfold loopTimes; rewrite length_map, length_seq; reflexivity).
    split; [exact Hlen|]. intros ->. rewrite Hlen.
    replace (s + 2 * JSDate.msPerDay - s) with (2 * JSDate.msPerDay) by ring.
    rewrite Z.div_mul by discriminate. reflexivity.
Qed.

Lemma approval_synthesis_witness :
  let st' := handleUpdateLeaveStatus JSDate.isoParse "leave-1" Approved (Some "ok")
                                     Demo.school in
  let added :=
    map (fun dateString =>
           {| rec_date := dateString; rec_subject := "On Approved Leave";
              rec_teacherName := "T. Marlow"; rec_timestamp := "All Day";
              rec_status := Present |})
        ["2024-01-10"; "2024-01-11"; "2024-01-12"] in
  map (fun app => (leave_id app, leave_status app, leave_teacherComment app))
      (leaveApplications st')
  = [("leave-1", LeaveStatus.Approved, Some "ok"); ("leave-2", LeaveStatus.Pending, None)]
  /\ students st' = [Demo.other; Demo.quill (Demo.week ++ added) false None]
  /\ length added = 3%nat.
Proof.
  pose proof (approval_synthesis JSDate.isoParse "leave-1" (Some "ok") Demo.school
                0%nat (Demo.leave "leave-1" "user-2" "2024-01-10" "2024-01-12")
                1%nat (Demo.quill Demo.week false None)
                eq_refl eq_refl eq_refl eq_refl)
    as (Happs & _ & _ & _ & Hstudents & _).
  split; [rewrite Happs; reflexivity|].
  split; [rewrite Hstudents; reflexivity|].
  reflexivity.
Defined.

(** C2, the claim as it is worded, fails: with a first teacher whose name
    is the empty string, the records name "System", not that teacher. *)
Lemma approval_nameless_teacher :
  let nameless :=
    {| user_id := "user-0"; user_name := ""; user_email := "head@school.com";
       user_role := UserRole.Teacher; user_password := None; user_mobile := None;
       user_registeredPhotoUrl := "head.png"; user_childId := None;
       user_enableScanOnLogin := None |} in
  let st := setUsers (nameless :: users Demo.school) Demo.school in
  let st' := handleUpdateLeaveStatus JSDate.isoParse "leave-1" Approved None st in
  option_map user_name (find isTeacher (users st)) = Some ""
  /\ map (fun x => map rec_teacherName
                       (List.filter (fun r => String.eqb (rec_subject r) onApprovedLeave)
                                    (student_attendance x)))
         (students st')
     = [["T. Marlow"]; ["System"; "System"; "System"]].
Proof. repeat split. Qed.

(** ** The access-block effect *)

Lemma present_le_total (attendance : list AttendanceRecord) :
  0 <= Z.of_nat (length (List.filter isPresent attendance))
    <= Z.of_nat (length attendance).
Proof. pose proof (List.filter_length_le isPresent attendance). lia. Qed.

Lemma attendancePercentage_percent attendance :
  attendance <> [] ->
  attendancePercentage attendance
  = Double.percent (Z.of_nat (length (List.filter isPresent attendance)))
                   (Z.of_nat (length attendance)).
Proof.
  intros Hne. unfold attendancePercentage.
  destruct attendance as [|a l]; [contradiction|]. reflexivity.
Qed.

(** On the lengths of arrays, the test of the effect decides
    [100 * present < 75 * total] on the integers. *)
Lemma isLowAttendance_exact attendance :
  Z.of_nat (length attendance) < 2 ^ 32 ->
  isLowAttendance attendance
  = (0 <? Z.of_nat (length attendance))
    && (100 * Z.of_nat (length (List.filter isPresent attendance))
        <? 75 * Z.of_nat (length attendance)).
Proof.
  intros Hlen. unfold isLowAttendance.
  destruct attendance as [|a l] eqn:E; [reflexivity|]. rewrite <- E in *.
  assert (attendance <> []) as Hne by (subst; discriminate).
  rewrite attendancePercentage_percent by exact Hne.
  pose proof (present_le_total attendance) as Hp.
  assert (0 < Z.of_nat (length attendance)) as Hpos by (subst; simpl; lia).
  apply Z.ltb_lt in Hpos as Hposb. rewrite Hposb. cbn [andb].
  apply eq_true_iff_eq. rewrite Z.ltb_lt.
  apply PercentFacts.percent_lt_75; lia.
Qed.


Lemma setStudents_same st : setStudents (students st) st = st.
Proof. destruct st; reflexivity. Qed.

(** The effect replaces the record of the student who logs in by the
    evaluated record. *)
Lemma accessBlockEffect_evaluated st user i studentData :
  currentUser st = Some user ->
  user_role user = UserRole.Student ->
  findIndex (fun s => String.eqb (student_id s) (user_id user)) (students st) = Some i ->
  students st !! i = Some studentData ->
  accessBlockEffect st = setStudents (<[i := evaluated studentData]> (students st)) st.
Proof.
  intros Hu Hrole Hi Hs. unfold accessBlockEffect, evaluated.
  rewrite Hu, Hrole, Hi, Hs. cbn [UserRole.eqb].
  destruct (evaluateBlock studentData); [reflexivity|].
  rewrite list_insert_id by exact Hs. symmetry. apply setStudents_same.
Qed.



(** C4: the record that the evaluation leaves is a function of the
    attendance and of the block state before, the other fields being kept;
    evaluating a second time changes nothing, for a student and for the
    state. *)
Theorem evaluation_idempotent :
  (exists after : list AttendanceRecord -> bool -> option BlockReason
                  -> bool * option BlockReason,
     forall studentData,
       evaluated studentData
       = let '(blocked, reason) :=
           after (student_attendance studentData) (student_isAccessBlocked studentData)
                 (student_blockReason studentData) in
         withBlock studentData blocked reason)
  /\ (forall studentData, evaluated (evaluated studentData) = evaluated studentData)
  /\ (forall st, accessBlockEffect (accessBlockEffect st) = accessBlockEffect st).
Proof.
  assert (forall studentData updatedStudent,
            evaluateBlock studentData = Some updatedStudent ->
            evaluateBlock updatedStudent = None
            /\ student_id updatedStudent = student_id studentData) as Hstep.
  { intros s u H. unfold evaluateBlock in *.
    destruct (isLowAttendance (student_attendance s)) eqn:Hlow; [|discriminate].
    destruct (negb (student_isAccessBlocked s)) eqn:Hb.
    - injection H as <-. cbn. rewrite Hlow. auto.
    - destruct (isBehaviourIssue (student_blockReason s)); [|discriminate].
      injection H as <-. cbn. rewrite Hlow, Hb. auto. }
  split; [|split].
  - exists (fun attendance blocked reason =>
              if isLowAttendance attendance then
                if negb blocked then (true, Some LowAttendance)
                else if isBehaviourIssue reason then (blocked, Some AttendanceAndBehaviour)
                else (blocked, reason)
              else (blocked, reason)).
    intros s. unfold evaluated, evaluateBlock.
    destruct (isLowAttendance _); [|symmetry; apply withBlock_same].
    destruct (negb _); [reflexivity|].
    destruct (isBehaviourIssue _); [reflexivity|symmetry; apply withBlock_same].
  - intros s. destruct (evaluateBlock s) as [u|] eqn:H.
    + assert (evaluated s = u) as -> by (unfold evaluated; rewrite H; reflexivity).
      unfold evaluated. destruct (Hstep s u H) as [-> _]. reflexivity.
    + assert (evaluated s = s) as -> by (unfold evaluated; rewrite H; reflexivity).
      unfold evaluated. rewrite H. reflexivity.
  - intros st.
    assert (accessBlockEffect st = st \/
            exists user i s u,
              currentUser st = Some user
              /\ UserRole.eqb (user_role user) UserRole.Student = true
              /\ findIndex (fun x => String.eqb (student_id x) (user_id user)) (students st)
                 = Some i
              /\ students st !! i = Some s /\ evaluateBlock s = Some u
              /\ accessBlockEffect st = setStudents (<[i := u]> (students st)) st)
      as [Hsame|(user & i & s & u & Hu & Hrole & Hi & Hs & He & Heq)].
    { unfold accessBlockEffect.
      destruct (currentUser st) as [user|] eqn:Hu; [|left; reflexivity].
      destruct (UserRole.eqb (user_role user) UserRole.Student) eqn:Hrole;
        [|left; reflexivity].
      destruct (findIndex _ (students st)) as [i|] eqn:Hi; [|left; reflexivity].
      destruct (students st !! i) as [s|] eqn:Hs; [|left; reflexivity].
      destruct (evaluateBlock s) as [u|] eqn:He; [|left; reflexivity].
      right. exists user, i, s, u. auto 10. }
    + rewrite !Hsame. reflexivity.
    + rewrite Heq. destruct (Hstep s u He) as [Hnone Hid].
      unfold accessBlockEffect. cbn [currentUser students setStudents].
      rewrite Hu, Hrole.
      erewrite findIndex_insert; [|exact Hs|rewrite Hid; reflexivity].
      rewrite Hi, list_lookup_insert_eq by (eapply lookup_lt_Some, Hs).
      rewrite Hnone. reflexivity.
Qed.

(** ** The score of an exam *)

Lemma countCorrect_filter answers questions :
  countCorrect answers questions
  = Z.of_nat (length (List.filter (isCorrect answers) questions)).
Proof.
  unfold countCorrect.
  assert (forall acc,
            fold_left (fun correctAnswers q =>
                         if isCorrect answers q then correctAnswers + 1 else correctAnswers)
                      questions acc
            = acc + Z.of_nat (length (List.filter (isCorrect answers) questions))) as H.
  { induction questions as [|q l IH]; intros acc; cbn [fold_left List.filter].
    - simpl. lia.
    - rewrite IH. destruct (isCorrect answers q); cbn [length]; lia. }
  rewrite H. lia.
Qed.

Lemma Math_round_of_Z k : Double.Math_round (Double.of_Z k) = k.
Proof.
  unfold Double.Math_round, Double.of_Z. pose proof DoubleFacts.one_pos.
  replace (2 * (k * Double.one) + Double.one) with (Double.one + k * (2 * Double.one))
    by ring.
  rewrite Z.div_add by lia. rewrite Z.div_small by lia. lia.
Qed.

Lemma examScore_empty correctAnswers : examScore correctAnswers 0 = 0.
Proof. unfold examScore. cbn [Z.ltb Z.compare]. apply (Math_round_of_Z 0). Qed.

Lemma examScore_percent correctAnswers total :
  0 < total ->
  examScore correctAnswers total = Double.Math_round (Double.percent correctAnswers total).
Proof.
  intros Ht. unfold examScore, Double.percent.
  replace (0 <? total) with true by (symmetry; apply Z.ltb_lt; exact Ht). reflexivity.
Qed.

Lemma examScore_3_4 : examScore 3 4 = 75.
Proof.
  rewrite examScore_percent by reflexivity.
  rewrite PercentFacts.percent_3_4. apply Math_round_of_Z.
Qed.

(** The score against the exact percentage, for the lengths of arrays. *)
Lemma examScore_exact correctAnswers total :
  0 <= total < 2 ^ 32 -> 0 <= correctAnswers <= total ->
  let score := examScore correctAnswers total in
  0 <= score <= 100
  /\ 2 * Z.abs (score * total - 100 * correctAnswers) <= total
  /\ (score = roundedPercentage correctAnswers total
      \/ ((200 * correctAnswers + total) mod (2 * total) = 0
          /\ score = roundedPercentage correctAnswers total - 1)).
Proof.
  intros Ht Hc. cbn zeta. unfold roundedPercentage.
  destruct (Z.eqb_spec total 0) as [->|Hne].
  - rewrite examScore_empty. repeat split; lia.
  - rewrite examScore_percent by lia.
    destruct (PercentFacts.round_percent correctAnswers total ltac:(lia) Hc)
      as (Hrange & Hnear & Hround).
    repeat split; try lia.
    destruct (Z.eq_dec ((200 * correctAnswers + total) mod (2 * total)) 0) as [Htie|Htie];
      [|left; apply Hround, Htie].
    destruct (PercentFacts.mod_div_eq (200 * correctAnswers + total) (2 * total) ltac:(lia))
      as [Hdm _].
    rewrite Htie in Hdm.
    set (j := (200 * correctAnswers + total) / (2 * total)) in *.
    set (s := Double.Math_round (Double.percent correctAnswers total)) in *.
    pose proof (PercentFacts.round_percent_upper correctAnswers total ltac:(lia) Hc) as Hup.
    fold j s in Hup.
    assert (s = j \/ s = j - 1) as [->| ->] by nia; [left|right]; auto.
Qed.

(** C5 (as the code has it): for an exam that is found, with a current
    user and an array of questions, [handleSubmitExam] appends one submission;
    its score is [Math.round] of the binary64 number
    [(correct / total) * 100], where [correct] counts the questions whose
    answer in the submission is their [correctAnswer]: an integer from 0 to
    100, nearest to the exact percentage, equal to the percentage rounded
    half up unless the percentage lies exactly half-way between two integers,
    where it can be the integer below.  Without questions the score is 0;
    three right answers out of four score 75. *)
Theorem submit_exam_score now submission st exam user questions :
  find (fun e => String.eqb (exam_id e) (data_examId submission)) (exams st) = Some exam ->
  currentUser st = Some user ->
  exam_questions exam = Some questions ->
  Z.of_nat (length questions) < 2 ^ 32 ->
  let total := Z.of_nat (length questions) in
  let correct :=
    Z.of_nat (length (List.filter (isCorrect (data_answers submission)) questions)) in
  let score := examScore correct total in
  handleSubmitExam now submission st
  = setExamSubmissions
      (examSubmissions st
       ++ [{| submission_id := "sub-" +:+ pretty now;
              submission_examId := data_examId submission;
              submission_studentId := data_studentId submission;
              submission_studentName := user_name user;
              submission_answers := data_answers submission;
              submission_submittedAt := data_submittedAt submission;
              submission_score := score;
              submission_status := data_status submission |}]) st
  /\ score = Double.Math_round
               (if 0 <? total
                then Double.mul (Double.div (Double.of_Z correct) (Double.of_Z total))
                                (Double.of_Z 100)
                else Double.of_Z 0)
  /\ 0 <= score <= 100
  /\ 2 * Z.abs (score * total - 100 * correct) <= total
  /\ (score = roundedPercentage correct total
      \/ ((200 * correct + total) mod (2 * total) = 0
          /\ score = roundedPercentage correct total - 1))
  /\ examScore correct 0 = 0
  /\ examScore 3 4 = 75.
Proof.
  intros Hexam Huser Hquestions Hlen. cbn zeta.
  split.
  { unfold handleSubmitExam. rewrite Hexam, Huser, Hquestions, countCorrect_filter.
    reflexivity. }
  split; [reflexivity|].
  pose proof (List.filter_length_le (isCorrect (data_answers submission)) questions).
  destruct (examScore_exact
              (Z.of_nat (length (List.filter (isCorrect (data_answers submission)) questions)))
              (Z.of_nat (length questions)) ltac:(lia) ltac:(lia)) as (H1 & H2 & H3).
  split; [exact H1|]. split; [exact H2|]. split; [exact H3|].
  split; [apply examScore_empty|apply examScore_3_4].
Qed.

Lemma submit_exam_score_witness :
  map submission_score
      (examSubmissions (handleSubmitExam 1704900000001 (Demo.paper "exam-1") Demo.school))
  = [50; 50; 50; 75].
Proof.
  pose proof (submit_exam_score 1704900000001 (Demo.paper "exam-1") Demo.school
                (Demo.exam "exam-1" [Demo.question "q1" "A"; Demo.question "q2" "B";
                                     Demo.question "q3" "C"; Demo.question "q4" "D"])
                Demo.pupil
                [Demo.question "q1" "A"; Demo.question "q2" "B";
                 Demo.question "q3" "C"; Demo.question "q4" "D"]
                eq_refl eq_refl eq_refl eq_refl)
    as (Hsubmit & _ & _ & _ & _ & _ & H75).
  rewrite Hsubmit. cbn [examSubmissions setExamSubmissions].
  rewrite map_app. cbn [map submission_score].
  change (Z.of_nat (length _)) with 3 at 1.
  change (Z.of_nat (length _)) with 4.
  rewrite H75. reflexivity.
Defined.

(** C5, the claim as it is worded, fails: twenty-three right answers out
    of forty are 57.5 percent, which rounds to 58, and the score is 57: the
    quotient 23/40 is not a binary64 number, and its product by 100 is the
    number just below 57.5. *)
Lemma submit_exam_score_half :
  map submission_score (examSubmissions (handleSubmitExam 0 Demo40.paper Demo40.school))
  = [50; 50; 50; 57]
  /\ length Demo40.questions = 40%nat
  /\ length (List.filter (isCorrect Demo40.answers) Demo40.questions) = 23%nat
  /\ roundedPercentage 23 40 = 58
  /\ Double.prim_percent 23 40 = Some (Double.percent 23 40)
  /\ 2 * Double.percent 23 40 < 115 * Double.one.
Proof.
  split; [vm_compute; reflexivity|]. split; [reflexivity|]. split; [reflexivity|].
  split; [reflexivity|]. split; [apply PercentFacts.percent_hardware; lia|].
  vm_compute. reflexivity.
Qed.

(** ** Leave and the attendance percentage *)

Lemma isPresent_leaveRecord teacherName (dates : list string) :
  List.filter isPresent (map (leaveRecord teacherName) dates)
  = map (leaveRecord teacherName) dates.
Proof. induction dates as [|d l IH]; [reflexivity|]. cbn. rewrite IH. reflexivity. Qed.

(** Appending records of presence does not lower the percentage, the exact
    one or the number that the effect computes. *)
Lemma percentage_with_leave attendance teacherName (dates : list string) :
  let attendance' := attendance ++ map (leaveRecord teacherName) dates in
  (exactPercentage attendance <= exactPercentage attendance')%Q
  /\ attendancePercentage attendance <= attendancePercentage attendance'.
Proof.
  cbn zeta. unfold exactPercentage, attendancePercentage.
  rewrite List.filter_app, !length_app, isPresent_leaveRecord, !length_map.
  pose proof (present_le_total attendance) as Hp.
  rewrite !Nat2Z.inj_add.
  assert (0 <= Z.of_nat (length dates)) as Hk by lia.
  assert (0 <= Z.of_nat (length attendance)) as Ht by lia.
  set (p := Z.of_nat (length (List.filter isPresent attendance))) in *.
  set (t := Z.of_nat (length attendance)) in *.
  set (k := Z.of_nat (length dates)) in *. clearbody p t k.
  destruct (Z.eqb_spec t 0) as [->|Hne].
  - assert (p = 0) as -> by lia. rewrite !Z.add_0_l. cbn [Z.eqb Z.ltb Z.compare].
    destruct (Z.eqb_spec k 0) as [->|Hk0].
    + split; [apply Qle_refl|apply Z.le_refl].
    + replace (0 <? k) with true by (symmetry; apply Z.ltb_lt; lia).
      split.
      * unfold Qle. cbn [Qnum Qden]. rewrite Z2Pos.id by lia. lia.
      * change (Double.mul _ _) with (Double.percent k k).
        rewrite PercentFacts.percent_full by lia. apply Z.le_refl.
  - replace (t + k =? 0) with false by (symmetry; apply Z.eqb_neq; lia).
    replace (0 <? t) with true by (symmetry; apply Z.ltb_lt; lia).
    replace (0 <? t + k) with true by (symmetry; apply Z.ltb_lt; lia).
    split.
    + unfold Qle. cbn [Qnum Qden]. rewrite !Z2Pos.id by lia. nia.
    + apply DoubleFacts.percent_mono; [lia|lia|nia].
Qed.

(** C6: approving a leave does not lower the attendance percentage of any
    student: neither the exact percentage (100 without records, else
    [100 * present / total]) nor the number that the access-block effect
    computes from the attendance. *)
Theorem approval_raises_percentage parse applicationId teacherComment st :
  Forall2 (fun s s' =>
             (exactPercentage (student_attendance s)
              <= exactPercentage (student_attendance s'))%Q
             /\ attendancePercentage (student_attendance s)
                <= attendancePercentage (student_attendance s'))
          (students st)
          (students (handleUpdateLeaveStatus parse applicationId Approved teacherComment st)).
Proof.
  assert (forall s : Student,
            (exactPercentage (student_attendance s)
             <= exactPercentage (student_attendance s))%Q
            /\ attendancePercentage (student_attendance s)
               <= attendancePercentage (student_attendance s)) as Hrefl
    by (intros s; split; [apply Qle_refl|lia]).
  destruct (update_outcome parse applicationId teacherComment st Approved)
    as [Hnone|i application Hi Happ _|i application j studentToUpdate _ Hi Happ Hj Hs].
  - apply Forall2_diag, Hrefl.
  - cbn. apply Forall2_diag, Hrefl.
  - cbn. eapply Forall2_replace; [exact Hrefl|exact Hs|].
    cbn [student_attendance withAttendance]. rewrite synthesizeLeave_missing.
    apply percentage_with_leave.
Qed.

(** ** More on the arrays *)

Section Finding.
Context {A : Type}.
Implicit Types (p : A -> bool) (l : list A).

Lemma find_elem p l x : find p l = Some x -> x ∈ l /\ p x = true.
Proof.
  unfold find. intros H. apply find_some in H as [Hin Hp].
  split; [apply list_elem_of_In, Hin|exact Hp].
Qed.

Lemma find_none_iff p l : find p l = None <-> forall x, x ∈ l -> p x = false.
Proof.
  unfold find. split.
  - intros H x Hx. apply list_elem_of_In in Hx. exact (find_none p l H x Hx).
  - intros H. destruct (List.find p l) as [x|] eqn:Hf; [|reflexivity].
    apply find_some in Hf as [Hin Hpx]. apply list_elem_of_In in Hin.
    rewrite (H x Hin) in Hpx. discriminate.
Qed.

Lemma find_app p l l' :
  find p (l ++ l') = match find p l with Some x => Some x | None => find p l' end.
Proof.
  unfold find. induction l as [|a l IH]; [reflexivity|]. cbn [app List.find].
  destruct (p a); [reflexivity|exact IH].
Qed.

(** [find] returns the element at the index that [findIndex] returns. *)
Lemma find_findIndex p l :
  find p l = findIndex p l ≫= (fun i => l !! i).
Proof.
  unfold find. induction l as [|a l IH]; [reflexivity|]. cbn [List.find findIndex].
  destruct (p a); [reflexivity|]. rewrite IH.
  destruct (findIndex p l); reflexivity.
Qed.

Lemma findIndex_app_new p l x :
  (forall y, y ∈ l -> p y = false) -> p x = true ->
  findIndex p (l ++ [x]) = Some (length l).
Proof.
  intros Hl Hx. induction l as [|a l IH]; cbn [app findIndex length].
  - rewrite Hx. reflexivity.
  - rewrite (Hl a) by left. rewrite IH; [reflexivity|].
    intros y Hy. apply Hl. right. exact Hy.
Qed.

Lemma insert_app_new l (x y : A) : <[length l := y]> (l ++ [x]) = l ++ [y].
Proof. induction l as [|a l IH]; [reflexivity|]. simpl. f_equal. exact IH. Qed.

Lemma filter_all p l : (forall x, x ∈ l -> p x = true) -> List.filter p l = l.
Proof.
  intros H. induction l as [|a l IH]; [reflexivity|]. cbn [List.filter].
  rewrite (H a) by left. f_equal. apply IH. intros x Hx. apply H. right. exact Hx.
Qed.

Lemma filter_elem p l x : x ∈ List.filter p l <-> x ∈ l /\ p x = true.
Proof. rewrite !list_elem_of_In. apply filter_In. Qed.

End Finding.

Lemma setExamSubmissions_same st : setExamSubmissions (examSubmissions st) st = st.
Proof. destruct st; reflexivity. Qed.

Lemma setUsers_same st : setUsers (users st) st = st.
Proof. destruct st; reflexivity. Qed.

(** ** Logging in *)

(** X1: [handleLogin] only ever installs a user of the list whose email and
    password are the ones given; it succeeds exactly when there is one, and a
    failure leaves the current user.  No collection changes. *)
Theorem login_credentials email pass st :
  let st' := handleLogin email pass st in
  (forall u, currentUser st' = Some u ->
             currentUser st = Some u
             \/ (u ∈ users st /\ user_email u = email /\ user_password u = Some pass))
  /\ (authError st' = None <->
      exists u, u ∈ users st /\ user_email u = email /\ user_password u = Some pass)
  /\ (authError st' = None \/ currentUser st' = currentUser st)
  /\ users st' = users st /\ students st' = students st
  /\ leaveApplications st' = leaveApplications st /\ exams st' = exams st
  /\ examSubmissions st' = examSubmissions st.
Proof.
  cbn zeta. unfold handleLogin.
  assert (forall u, String.eqb (user_email u) email && passwordIs u pass = true
                    <-> user_email u = email /\ user_password u = Some pass) as Hmatch.
  { intros u. unfold passwordIs. rewrite andb_true_iff, String.eqb_eq.
    destruct (user_password u) as [p|].
    - rewrite String.eqb_eq. split; intros [? ?]; split; congruence.
    - split; intros [? ?]; discriminate. }
  destruct (find _ (users st)) as [user|] eqn:Hfind; cbn.
  - apply find_elem in Hfind as [Hin Hp]. apply Hmatch in Hp.
    repeat split; auto.
    + intros u [= <-]. right. tauto.
    + intros _. exists user. tauto.
  - repeat split; auto; try discriminate.
    intros (u & Hin & Hu). exfalso.
    rewrite find_none_iff in Hfind. specialize (Hfind u Hin).
    destruct (Hmatch u) as [_ Hm]. rewrite Hm in Hfind by exact Hu. discriminate.
Qed.

(** X2: the logins without a password: [handleProviderLogin] only installs a
    user whose email, or whose mobile number, is the identifier, so a user
    without a mobile number is never found by one; [handleSocialLogin] only
    installs a user of the role.  A failure leaves the current user, and no
    collection changes. *)
Theorem passwordless_logins identifier type role st :
  let st1 := handleProviderLogin identifier type st in
  let st2 := handleSocialLogin role st in
  (forall u, currentUser st1 = Some u ->
             currentUser st = Some u
             \/ (u ∈ users st
                 /\ match type with
                    | ByEmail => user_email u = identifier
                    | ByMobile => user_mobile u = Some identifier
                    end))
  /\ (forall u, currentUser st2 = Some u ->
                currentUser st = Some u \/ (u ∈ users st /\ user_role u = role))
  /\ (authError st1 = None \/ currentUser st1 = currentUser st)
  /\ (authError st2 = None \/ currentUser st2 = currentUser st)
  /\ users st1 = users st /\ students st1 = students st
  /\ users st2 = users st /\ students st2 = students st.
Proof.
  cbn zeta. unfold handleProviderLogin, handleSocialLogin.
  repeat split.
  - destruct type; destruct (find _ (users st)) as [user|] eqn:Hfind; cbn; auto;
      intros u [= <-]; right; apply find_elem in Hfind as [Hin Hp]; split; auto.
    + apply String.eqb_eq, Hp.
    + apply bool_decide_eq_true in Hp. exact Hp.
  - destruct (find _ (users st)) as [user|] eqn:Hfind; cbn; auto.
    intros u [= <-]. right. apply find_elem in Hfind as [Hin Hp]. split; auto.
    destruct (user_role user), role; try discriminate Hp; reflexivity.
  - destruct type; destruct (find _ (users st)); cbn; auto.
  - destruct (find _ (users st)); cbn; auto.
  - destruct type; destruct (find _ (users st)); reflexivity.
  - destruct type; destruct (find _ (users st)); reflexivity.
  - destruct (find _ (users st)); reflexivity.
  - destruct (find _ (users st)); reflexivity.
Qed.

(** ** Signing up *)

(** The two ways out of [handleSignup]: an error that creates nothing, or
    the new user appended and logged in, with a companion student for the
    role of a student and the link to the child for the role of a parent. *)
Lemma signup_cases department now roll details st :
  let st' := handleSignup department now roll details st in
  ((exists message, authError st' = Some message)
   /\ users st' = users st /\ students st' = students st
   /\ currentUser st' = currentUser st)
  \/ (find (fun u => String.eqb (user_email u) (details_email details)) (users st) = None
      /\ exists childId,
           st' = setAuthError None
                   (setCurrentUser (Some (signedUp now details childId))
                      (setUsers (users st ++ [signedUp now details childId])
                         (match details_role details with
                          | UserRole.Student =>
                              setStudents
                                (students st ++ [companion department now roll details]) st
                          | _ => st
                          end)))
           /\ match details_role details with
              | UserRole.Parent =>
                  exists childUser,
                    find (fun u => bool_decide (Some (user_email u)
                                                = details_childEmail details)
                                   && UserRole.eqb (user_role u) UserRole.Student)
                         (users st) = Some childUser
                    /\ falsy (details_childEmail details) = false
                    /\ childId = Some (user_id childUser)
              | _ => childId = None
              end).
Proof.
  cbn zeta. unfold handleSignup.
  destruct (find _ (users st)) as [taken|] eqn:Htaken; [left; cbn; eauto 6|].
  destruct (details_role details) eqn:Hrole.
  - right. split; [reflexivity|]. exists None. unfold signedUp, companion.
    rewrite Hrole. split; reflexivity.
  - right. split; [reflexivity|]. exists None. unfold signedUp.
    rewrite Hrole. split; reflexivity.
  - destruct (falsy (details_childEmail details)) eqn:Hfalsy; [left; cbn; eauto 6|].
    clear Htaken.
    destruct (find _ (users st)) as [childUser|] eqn:Hchild; [|left; cbn; eauto 6].
    right. split; [reflexivity|]. exists (Some (user_id childUser)). unfold signedUp.
    rewrite Hrole. split; [reflexivity|]. exists childUser. auto.
Qed.

(** X3: whoever signs up without an error is logged in as the new user, who is
    the last of the users and carries the name, the email and the role given,
    and can log in again with the email and the password given, as that
    user. *)
Theorem signup_then_login department now roll details st :
  authError (handleSignup department now roll details st) = None ->
  let st' := handleSignup department now roll details st in
  exists u,
    currentUser st' = Some u /\ users st' = users st ++ [u]
    /\ user_id u = "user-" +:+ pretty now
    /\ user_name u = details_name details /\ user_email u = details_email details
    /\ user_role u = details_role details
    /\ currentUser (handleLogin (details_email details) (details_password details)
                                (handleLogout st')) = Some u.
Proof.
  intros Hok. cbn zeta.
  destruct (signup_cases department now roll details st)
    as [([message Hm] & _)|(Hfree & childId & Hst & _)]; [congruence|].
  rewrite Hst. exists (signedUp now details childId). cbn.
  repeat split.
  unfold handleLogin. cbn [users setUsers setCurrentUser setAuthError handleLogout
                           setIsIdlePromptVisible].
  rewrite find_app.
  replace (find _ (users st)) with (@None User).
  - cbn. unfold passwordIs. cbn. rewrite !String.eqb_refl. reflexivity.
  - symmetry. apply find_none_iff. intros u Hu.
    rewrite find_none_iff in Hfree. rewrite (Hfree u Hu). reflexivity.
Qed.

Lemma signup_then_login_witness :
  let details :=
    {| details_name := "N. Wren"; details_email := "wren@school.com";
       details_role := UserRole.Teacher; details_password := "quill";
       details_childEmail := None; details_registeredPhotoUrl := "wren.png" |} in
  let st' := handleSignup "Science" 1704900000000 7 details Demo.school in
  exists u,
    currentUser st' = Some u /\ users st' = users Demo.school ++ [u]
    /\ user_id u = "user-1704900000000"
    /\ user_name u = "N. Wren" /\ user_email u = "wren@school.com"
    /\ user_role u = UserRole.Teacher
    /\ currentUser (handleLogin "wren@school.com" "quill" (handleLogout st')) = Some u.
Proof.
  exact (signup_then_login "Science" 1704900000000 7
           {| details_name := "N. Wren"; details_email := "wren@school.com";
              details_role := UserRole.Teacher; details_password := "quill";
              details_childEmail := None; details_registeredPhotoUrl := "wren.png" |}
           Demo.school eq_refl).
Defined.

(** X4: a signup with an email that a user already has creates nothing, sets
    the error and switches to the login view. *)
Theorem signup_duplicate_email department now roll details st :
  (exists u, u ∈ users st /\ user_email u = details_email details) ->
  let st' := handleSignup department now roll details st in
  authError st' = Some "An account with this email already exists."
  /\ isLoginView st' = true
  /\ users st' = users st /\ students st' = students st
  /\ currentUser st' = currentUser st.
Proof.
  intros (u & Hu & Hemail). cbn zeta. unfold handleSignup.
  destruct (find _ (users st)) as [taken|] eqn:Htaken; [repeat split|].
  exfalso. rewrite find_none_iff in Htaken. specialize (Htaken u Hu).
  rewrite Hemail, String.eqb_refl in Htaken. discriminate.
Qed.

Lemma signup_duplicate_email_witness :
  let details :=
    {| details_name := "N. Wren"; details_email := "teacher@school.com";
       details_role := UserRole.Student; details_password := "quill";
       details_childEmail := None; details_registeredPhotoUrl := "wren.png" |} in
  let st' := handleSignup "Science" 1704900000000 7 details
                          (setIsLoginView false Demo.school) in
  authError st' = Some "An account with this email already exists."
  /\ isLoginView st' = true
  /\ users st' = users Demo.school /\ students st' = students Demo.school
  /\ currentUser st' = currentUser Demo.school.
Proof.
  apply (signup_duplicate_email "Science" 1704900000000 7
           {| details_name := "N. Wren"; details_email := "teacher@school.com";
              details_role := UserRole.Student; details_password := "quill";
              details_childEmail := None; details_registeredPhotoUrl := "wren.png" |}
           (setIsLoginView false Demo.school)).
  exists Demo.teacher. split; [left|reflexivity].
Defined.

Lemma not_low_without_records : isLowAttendance [] = false.
Proof.
  unfold isLowAttendance.
  change (attendancePercentage []) with (Double.of_Z 100).
  unfold Double.ltb, Double.of_Z. apply Z.ltb_ge. pose proof DoubleFacts.one_pos. lia.
Qed.

(** X5: a signup as a student with a new email appends the user and a
    companion student with the identifier of the user, no attendance and no
    block.  When no student has that identifier yet, the access-block effect
    that the login runs leaves the state, and the dashboard shows the new
    student with the applications and the submissions that carry the
    identifier. *)
Theorem signup_student_companion department now roll details st :
  (forall u, u ∈ users st -> user_email u <> details_email details) ->
  details_role details = UserRole.Student ->
  let st' := handleSignup department now roll details st in
  let u := signedUp now details None in
  let s := companion department now roll details in
  users st' = users st ++ [u] /\ students st' = students st ++ [s]
  /\ currentUser st' = Some u /\ authError st' = None
  /\ student_id s = user_id u /\ student_attendance s = []
  /\ student_isAccessBlocked s = false
  /\ ((forall x, x ∈ students st -> student_id x <> user_id u) ->
      accessBlockEffect st' = st'
      /\ forall time,
           renderDashboard time st'
           = StudentDashboard u s
               (List.filter (fun app => String.eqb (leave_studentId app) (user_id u))
                            (leaveApplications st))
               (exams st)
               (List.filter (fun x => String.eqb (submission_studentId x) (user_id u))
                            (examSubmissions st))).
Proof.
  intros Hfree Hrole. cbn zeta.
  destruct (signup_cases department now roll details st)
    as [([message Hm] & Hus & _)|(_ & childId & Hst & Hchild)].
  - exfalso. revert Hm. unfold handleSignup.
    replace (find _ (users st)) with (@None User).
    + rewrite Hrole. discriminate.
    + symmetry. apply find_none_iff. intros x Hx. apply String.eqb_neq, Hfree, Hx.
  - rewrite Hrole in Hst, Hchild. subst childId. rewrite Hst. cbn.
    do 7 (split; [reflexivity|]). intros H. split.
    + assert (findIndex (fun x => String.eqb (student_id x) ("user-" +:+ pretty now))
                        (students st ++ [companion department now roll details])
              = Some (length (students st))) as Hidx.
      { apply findIndex_app_new; [|apply String.eqb_refl].
        intros x Hx. apply String.eqb_neq, H, Hx. }
      unfold accessBlockEffect. cbn. rewrite Hrole. cbn. rewrite Hidx.
      rewrite lookup_app_r by lia. rewrite Nat.sub_diag. cbn.
      unfold evaluateBlock. cbn. rewrite not_low_without_records. reflexivity.
    + intros time. unfold renderDashboard. cbn. rewrite Hrole. cbn.
      rewrite find_app.
      replace (find _ (students st)) with (@None Student).
      * cbn. rewrite String.eqb_refl. cbn. reflexivity.
      * symmetry. apply find_none_iff. intros x Hx. apply String.eqb_neq, H, Hx.
Qed.

Local Ltac each_member H :=
  vm_compute in H;
  repeat (apply elem_of_cons in H as [->|H]; [try discriminate|]);
  try (inversion H; fail).

Lemma signup_student_companion_witness :
  let details :=
    {| details_name := "N. Wren"; details_email := "wren@school.com";
       details_role := UserRole.Student; details_password := "quill";
       details_childEmail := None; details_registeredPhotoUrl := "wren.png" |} in
  let st' := handleSignup "Science" 1704900000000 7 details Demo.school in
  map student_id (students st') = ["user-3"; "user-2"; "user-1704900000000"]
  /\ map student_rollNumber (students st') = ["S102"; "S101"; "S107"]
  /\ accessBlockEffect st' = st'.
Proof.
  pose proof (signup_student_companion "Science" 1704900000000 7
                {| details_name := "N. Wren"; details_email := "wren@school.com";
                   details_role := UserRole.Student; details_password := "quill";
                   details_childEmail := None; details_registeredPhotoUrl := "wren.png" |}
                Demo.school) as H.
  destruct H as (_ & Hstudents & _ & _ & _ & _ & _ & Heffect).
  - intros u Hu. each_member Hu.
  - reflexivity.
  - cbn zeta. split; [rewrite Hstudents; reflexivity|].
    split; [rewrite Hstudents; reflexivity|].
    apply Heffect. intros x Hx. each_member Hx.
Defined.

(** X6: a signup as a parent with a new email and the email of a student
    appends a user linked to the first user with that email and the role of a
    student, and leaves the students; the dashboard then shows the first
    student with the identifier of that user, or an error when there is
    none. *)
Theorem signup_parent_link department now roll details st childUser :
  (forall u, u ∈ users st -> user_email u <> details_email details) ->
  details_role details = UserRole.Parent ->
  falsy (details_childEmail details) = false ->
  find (fun u => bool_decide (Some (user_email u) = details_childEmail details)
                 && UserRole.eqb (user_role u) UserRole.Student) (users st)
  = Some childUser ->
  let st' := handleSignup department now roll details st in
  let u := signedUp now details (Some (user_id childUser)) in
  users st' = users st ++ [u] /\ students st' = students st
  /\ currentUser st' = Some u /\ authError st' = None
  /\ user_childId u = Some (user_id childUser)
  /\ forall time,
       renderDashboard time st'
       = match find (fun s => String.eqb (student_id s) (user_id childUser)) (students st) with
         | Some childData => ParentDashboard u childData
         | None => ChildDataError
         end.
Proof.
  intros Hfree Hrole Hfalsy Hchild. cbn zeta.
  assert (handleSignup department now roll details st
          = setAuthError None
              (setCurrentUser (Some (signedUp now details (Some (user_id childUser))))
                 (setUsers (users st ++ [signedUp now details (Some (user_id childUser))])
                           st))) as ->.
  { unfold handleSignup.
    replace (find (fun u => String.eqb (user_email u) (details_email details)) (users st))
      with (@None User)
      by (symmetry; apply find_none_iff; intros x Hx; apply String.eqb_neq, Hfree, Hx).
    rewrite Hrole, Hfalsy, Hchild. unfold signedUp. rewrite Hrole. reflexivity. }
  cbn. do 5 (split; [reflexivity|]).
  intros time. unfold renderDashboard. cbn. rewrite Hrole. cbn.
  assert (forall l : list Student,
            find (fun s => bool_decide (Some (student_id s) = Some (user_id childUser))) l
            = find (fun s => String.eqb (student_id s) (user_id childUser)) l) as ->.
  { intros l. unfold find. induction l as [|a l IH]; [reflexivity|]. cbn [List.find].
    rewrite IH. destruct (String.eqb_spec (student_id a) (user_id childUser)) as [->|Hne].
    - rewrite bool_decide_eq_true_2 by reflexivity. reflexivity.
    - rewrite bool_decide_eq_false_2 by congruence. reflexivity. }
  destruct (find _ (students st)); reflexivity.
Qed.

Lemma signup_parent_link_witness :
  let details :=
    {| details_name := "A. Quill"; details_email := "parent@school.com";
       details_role := UserRole.Parent; details_password := "ink";
       details_childEmail := Some "student@school.com";
       details_registeredPhotoUrl := "parent.png" |} in
  let st' := handleSignup "Science" 1704900000000 7 details Demo.school in
  option_map user_childId (currentUser st') = Some (Some "user-2")
  /\ renderDashboard 0 st'
     = ParentDashboard (signedUp 1704900000000 details (Some "user-2"))
                       (Demo.quill Demo.week false None).
Proof.
  pose proof (signup_parent_link "Science" 1704900000000 7
                {| details_name := "A. Quill"; details_email := "parent@school.com";
                   details_role := UserRole.Parent; details_password := "ink";
                   details_childEmail := Some "student@school.com";
                   details_registeredPhotoUrl := "parent.png" |}
                Demo.school Demo.pupil) as H.
  destruct H as (_ & _ & Hcurrent & _ & _ & Hview).
  - intros u Hu. each_member Hu.
  - reflexivity.
  - reflexivity.
  - reflexivity.
  - cbn zeta. split; [rewrite Hcurrent; reflexivity|].
    rewrite Hview. reflexivity.
Defined.

(** ** Updating a user *)

(** X7: [handleUpdateUser] puts the updated user in the place of every user
    with its identifier and leaves the others, and the current user follows
    when it has the identifier.  The students are not touched, so the record
    of a student keeps the name it had; neither are the submissions.  With an
    identifier that no user has nothing changes, and updating twice is
    updating once. *)
Theorem update_user_replaces updatedUser st :
  let st' := handleUpdateUser updatedUser st in
  Forall2 (fun u u' => if String.eqb (user_id u) (user_id updatedUser)
                       then u' = updatedUser else u' = u)
          (users st) (users st')
  /\ currentUser st'
     = match currentUser st with
       | Some user => if String.eqb (user_id user) (user_id updatedUser)
                      then Some updatedUser else Some user
       | None => None
       end
  /\ students st' = students st /\ examSubmissions st' = examSubmissions st
  /\ leaveApplications st' = leaveApplications st /\ exams st' = exams st
  /\ match find (fun u => String.eqb (user_id u) (user_id updatedUser)) (users st) with
     | Some _ => True
     | None => users st' = users st
     end
  /\ handleUpdateUser updatedUser st' = st'.
Proof.
  cbn zeta.
  assert (forall l : list User,
            Forall2 (fun u u' => if String.eqb (user_id u) (user_id updatedUser)
                                 then u' = updatedUser else u' = u)
              l (map (fun u => if String.eqb (user_id u) (user_id updatedUser)
                               then updatedUser else u) l)) as Hmap.
  { induction l as [|a l IH]; constructor; [|exact IH].
    destruct (String.eqb _ _); reflexivity. }
  assert (forall l : list User,
            map (fun u => if String.eqb (user_id u) (user_id updatedUser)
                          then updatedUser else u)
                (map (fun u => if String.eqb (user_id u) (user_id updatedUser)
                               then updatedUser else u) l)
            = map (fun u => if String.eqb (user_id u) (user_id updatedUser)
                            then updatedUser else u) l) as Htwice.
  { induction l as [|a l IH]; [reflexivity|]. cbn [map]. rewrite IH. f_equal.
    destruct (String.eqb (user_id a) (user_id updatedUser)) eqn:E;
      [rewrite String.eqb_refl|rewrite E]; reflexivity. }
  assert (users (handleUpdateUser updatedUser st)
          = map (fun u => if String.eqb (user_id u) (user_id updatedUser)
                          then updatedUser else u) (users st)) as Husers.
  { unfold handleUpdateUser. destruct (currentUser st) as [user|];
      [destruct (String.eqb (user_id user) (user_id updatedUser))|]; reflexivity. }
  rewrite Husers.
  split; [apply Hmap|].
  split; [|split; [|split; [|split; [|split; [|split]]]]];
    try (unfold handleUpdateUser; destruct (currentUser st) as [user|];
         [destruct (String.eqb (user_id user) (user_id updatedUser))|]; reflexivity).
  - unfold handleUpdateUser. destruct (currentUser st) as [user|] eqn:Hu;
      [destruct (String.eqb (user_id user) (user_id updatedUser))|];
      cbn; rewrite ?Hu; reflexivity.
  - destruct (find _ (users st)) eqn:Hfind; [exact I|].
    rewrite find_none_iff in Hfind. revert Hfind.
    generalize (users st) as l. induction l as [|a l IH]; intros Hfind; [reflexivity|].
    cbn [map]. rewrite (Hfind a) by left. f_equal. apply IH.
    intros x Hx. apply Hfind. right. exact Hx.
  - unfold handleUpdateUser. destruct (currentUser st) as [user|] eqn:Hu.
    + destruct (String.eqb (user_id user) (user_id updatedUser)) eqn:E.
      * cbn. rewrite String.eqb_refl, Htwice. reflexivity.
      * cbn. rewrite Hu, E, Htwice. reflexivity.
    + cbn. rewrite Hu, Htwice. reflexivity.
Qed.

(** ** Saving an exam *)

(** X8: [handleSaveExam] replaces the first exam with the identifier, or
    appends the exam when there is none: afterwards the exam found under the
    identifier is the saved one, the other exams are in their places, and
    saving it again changes nothing.  The submissions are never touched. *)
Theorem save_exam_upsert examToSave st :
  let st' := handleSaveExam examToSave st in
  find (fun e => String.eqb (exam_id e) (exam_id examToSave)) (exams st') = Some examToSave
  /\ match findIndex (fun e => String.eqb (exam_id e) (exam_id examToSave)) (exams st) with
     | Some index => exams st' = <[index := examToSave]> (exams st)
                     /\ length (exams st') = length (exams st)
     | None => exams st' = exams st ++ [examToSave]
     end
  /\ (forall i e, exams st !! i = Some e -> exam_id e <> exam_id examToSave ->
                  exams st' !! i = Some e)
  /\ examSubmissions st' = examSubmissions st
  /\ handleSaveExam examToSave st' = st'.
Proof.
  cbn zeta. unfold handleSaveExam.
  destruct (findIndex _ (exams st)) as [index|] eqn:Hi; cbn [exams setExams examSubmissions].
  - destruct (findIndex_Some _ _ _ Hi) as (old & Hold & Hp & Hbefore).
    assert (index < length (exams st))%nat as Hlt by (eapply lookup_lt_Some, Hold).
    assert (findIndex (fun e => String.eqb (exam_id e) (exam_id examToSave))
                      (<[index := examToSave]> (exams st)) = Some index) as Hi'.
    { erewrite findIndex_insert; [exact Hi|exact Hold|].
      rewrite String.eqb_refl. symmetry. exact Hp. }
    split; [|split; [|split; [|split]]].
    + rewrite find_findIndex, Hi'. cbn. apply list_lookup_insert_eq, Hlt.
    + split; [reflexivity|apply length_insert].
    + intros i e He Hne. rewrite list_lookup_insert_ne; [exact He|].
      intros ->. rewrite He in Hold. injection Hold as <-.
      apply String.eqb_eq in Hp. contradiction.
    + reflexivity.
    + rewrite Hi'. cbn. rewrite list_insert_insert_eq. reflexivity.
  - rewrite findIndex_None in Hi.
    assert (findIndex (fun e => String.eqb (exam_id e) (exam_id examToSave))
                      (exams st ++ [examToSave]) = Some (length (exams st))) as Hi'
      by (apply findIndex_app_new; [exact Hi|apply String.eqb_refl]).
    split; [|split; [|split; [|split]]].
    + rewrite find_findIndex, Hi'. cbn. rewrite lookup_app_r, Nat.sub_diag by lia. reflexivity.
    + reflexivity.
    + intros i e He _. apply lookup_app_l_Some, He.
    + reflexivity.
    + rewrite Hi'. cbn. rewrite insert_app_new. reflexivity.
Qed.

(** ** Deleting a submission, and submitting *)

(** X10: [handleDeleteSubmission] removes the submissions with the identifier
    and keeps the others in their order; deleting the submission that
    [handleSubmitExam] has just made, when its identifier was not in use,
    gives back the state from before the submission. *)
Theorem delete_submission_undoes_submit now submission st :
  (forall x, x ∈ examSubmissions st -> submission_id x <> "sub-" +:+ pretty now) ->
  handleDeleteSubmission ("sub-" +:+ pretty now) (handleSubmitExam now submission st) = st
  /\ forall submissionId x,
       x ∈ examSubmissions (handleDeleteSubmission submissionId st)
       <-> x ∈ examSubmissions st /\ submission_id x <> submissionId.
Proof.
  intros Hfresh. split.
  - assert (List.filter (fun s => negb (String.eqb (submission_id s) ("sub-" +:+ pretty now)))
                        (examSubmissions st) = examSubmissions st) as Hkeep.
    { apply filter_all. intros x Hx. apply negb_true_iff, String.eqb_neq, Hfresh, Hx. }
    unfold handleSubmitExam, handleDeleteSubmission.
    destruct (find _ (exams st)) as [exam|];
      [destruct (currentUser st) as [user|]; [destruct (exam_questions exam)|]|];
      cbn [examSubmissions setExamSubmissions];
      rewrite ?List.filter_app, Hkeep; cbn [List.filter submission_id];
      rewrite ?String.eqb_refl; cbn [negb]; rewrite ?app_nil_r;
      destruct st; reflexivity.
  - intros submissionId x. unfold handleDeleteSubmission. cbn.
    rewrite filter_elem, negb_true_iff, String.eqb_neq. reflexivity.
Qed.

Lemma delete_submission_undoes_submit_witness :
  handleDeleteSubmission "sub-1704900000001"
    (handleSubmitExam 1704900000001 (Demo.paper "exam-1") Demo.school) = Demo.school.
Proof.
  apply (delete_submission_undoes_submit 1704900000001 (Demo.paper "exam-1") Demo.school).
  intros x Hx. vm_compute in Hx.
  repeat (apply elem_of_cons in Hx as [->|Hx]; [discriminate|]).
  inversion Hx.
Defined.

Lemma submit_without_exam now submission st :
  (forall e, e ∈ exams st -> exam_id e <> data_examId submission) ->
  handleSubmitExam now submission st = st.
Proof.
  intros Hnone. unfold handleSubmitExam.
  replace (find _ (exams st)) with (@None Exam); [reflexivity|].
  symmetry. apply find_none_iff. intros e He. apply String.eqb_neq, Hnone, He.
Qed.

(** X11: [handleSubmitExam] changes nothing when no exam has the identifier of
    the submission, when nobody is logged in, or when the questions of the
    exam are not an array. *)
Theorem submit_exam_rejected now submission st :
  (forall e, e ∈ exams st -> exam_id e <> data_examId submission)
  \/ currentUser st = None
  \/ (exists exam,
        find (fun e => String.eqb (exam_id e) (data_examId submission)) (exams st)
        = Some exam /\ exam_questions exam = None) ->
  handleSubmitExam now submission st = st.
Proof.
  intros [Hnone|[Hnobody|(exam & Hexam & Hquestions)]];
    [apply submit_without_exam, Hnone| |]; unfold handleSubmitExam.
  - rewrite Hnobody. destruct (find _ (exams st)); reflexivity.
  - rewrite Hexam, Hquestions. destruct (currentUser st); reflexivity.
Qed.

Lemma submit_exam_rejected_witness :
  handleSubmitExam 5 (Demo.paper "exam-7") Demo.school = Demo.school
  /\ handleSubmitExam 5 (Demo.paper "exam-1") (handleLogout Demo.school)
     = handleLogout Demo.school.
Proof.
  split.
  - apply (submit_exam_rejected 5 (Demo.paper "exam-7") Demo.school). left.
    intros e He. vm_compute in He.
    repeat (apply elem_of_cons in He as [->|He]; [discriminate|]).
    inversion He.
  - apply (submit_exam_rejected 5 (Demo.paper "exam-1") (handleLogout Demo.school)).
    right. left. reflexivity.
Defined.

(** X12: once [handleDeleteExam] has deleted an exam, a submission to it is
    rejected: the state stays as the deletion left it. *)
Theorem submit_after_delete now submission st :
  handleSubmitExam now submission (handleDeleteExam (data_examId submission) st)
  = handleDeleteExam (data_examId submission) st.
Proof.
  apply submit_without_exam. intros e He.
  unfold handleDeleteExam in He. cbn in He.
  apply filter_elem in He as [_ He]. apply negb_true_iff, String.eqb_neq in He. exact He.
Qed.

(** X13: the score of an exam with questions grows with the number of right
    answers, from 0 for none to 100 for all of them, whatever the number of
    questions that an array can hold. *)
Theorem exam_score_monotone correct correct' total :
  0 <= correct <= correct' -> correct' <= total -> 0 < total < 2 ^ 32 ->
  0 <= examScore correct total <= examScore correct' total
  /\ examScore correct' total <= 100
  /\ examScore 0 total = 0 /\ examScore total total = 100.
Proof.
  intros Hc Hc' [Ht _]. rewrite !examScore_percent by exact Ht.
  assert (forall x y, x <= y -> Double.Math_round x <= Double.Math_round y) as Hmono.
  { intros x y Hxy. unfold Double.Math_round. pose proof DoubleFacts.one_pos.
    apply Z.div_le_mono; lia. }
  assert (Double.Math_round (Double.percent 0 total) = 0) as R0.
  { rewrite PercentFacts.percent_zero by exact Ht. exact (Math_round_of_Z 0). }
  assert (Double.Math_round (Double.percent total total) = 100) as R100.
  { rewrite PercentFacts.percent_full by exact Ht. apply Math_round_of_Z. }
  assert (Double.Math_round (Double.percent 0 total)
          <= Double.Math_round (Double.percent correct total)) as H0
    by (apply Hmono, DoubleFacts.percent_mono; nia).
  assert (Double.Math_round (Double.percent correct' total)
          <= Double.Math_round (Double.percent total total)) as H100
    by (apply Hmono, DoubleFacts.percent_mono; nia).
  assert (Double.Math_round (Double.percent correct total)
          <= Double.Math_round (Double.percent correct' total))
    by (apply Hmono, DoubleFacts.percent_mono; nia).
  rewrite R0, R100 in *. lia.
Qed.

Lemma exam_score_monotone_witness :
  0 <= examScore 1 3 <= examScore 2 3 /\ examScore 2 3 <= 100
  /\ examScore 0 3 = 0 /\ examScore 3 3 = 100.
Proof. apply (exam_score_monotone 1 2 3); lia. Defined.

(** ** Leaves that mark nothing, and decisions that are taken back *)

Lemma synthesizeLeave_reversed parse us application attendance s e :
  JSDate.construct parse (leave_startDate application +:+ "T00:00:00Z") = Some s ->
  JSDate.construct parse (leave_endDate application +:+ "T00:00:00Z") = Some e ->
  e < s ->
  synthesizeLeave parse us application attendance = attendance.
Proof.
  intros Hs He Hlt. rewrite synthesizeLeave_fold. unfold leaveRange, leaveDates.
  rewrite Hs, He, loopTimes_nil by exact Hlt. reflexivity.
Qed.

(** X14: an approval of a leave whose start or end is an invalid date, or whose
    end is before its start, sets the status and the comment of the
    application and marks no day: the students are as they were, and so is
    everything but the applications.  The application that is stored is
    approved, carries the comment given, and is otherwise the one found. *)
Theorem approval_empty_range parse applicationId teacherComment st i application :
  findIndex (fun app => String.eqb (leave_id app) applicationId) (leaveApplications st)
  = Some i ->
  leaveApplications st !! i = Some application ->
  match JSDate.construct parse (leave_startDate application +:+ "T00:00:00Z"),
        JSDate.construct parse (leave_endDate application +:+ "T00:00:00Z") with
  | Some s, Some e => e < s
  | _, _ => True
  end ->
  let st' := handleUpdateLeaveStatus parse applicationId Approved teacherComment st in
  let updated := withDecision application LeaveStatus.Approved teacherComment in
  st' = setLeaveApplications (<[i := updated]> (leaveApplications st)) st
  /\ leaveApplications st' = <[i := updated]> (leaveApplications st)
  /\ leave_status updated = LeaveStatus.Approved
  /\ leave_teacherComment updated = teacherComment
  /\ keepsApplication application updated
  /\ keepsButApplications st st'.
Proof.
  intros Hi Happ Hrange. cbn zeta.
  assert (forall attendance,
            synthesizeLeave parse (users st) application attendance = attendance) as Hsame.
  { intros attendance.
    destruct (JSDate.construct parse (leave_startDate application +:+ "T00:00:00Z"))
      as [s|] eqn:Hs; [|apply synthesizeLeave_invalid; left; exact Hs].
    destruct (JSDate.construct parse (leave_endDate application +:+ "T00:00:00Z"))
      as [e|] eqn:He; [|apply synthesizeLeave_invalid; right; exact He].
    eapply synthesizeLeave_reversed; eassumption. }
  assert (handleUpdateLeaveStatus parse applicationId Approved teacherComment st
          = setLeaveApplications
              (<[i := withDecision application LeaveStatus.Approved teacherComment]>
                 (leaveApplications st)) st) as Hst.
  { destruct (findIndex (fun s => String.eqb (student_id s) (leave_studentId application))
                        (students st)) as [j|] eqn:Hj.
    - destruct (findIndex_Some _ _ _ Hj) as (studentToUpdate & Hs & _).
      rewrite (update_approved parse applicationId teacherComment st i application j
                 studentToUpdate) by assumption.
      rewrite Hsame, withAttendance_same, list_insert_id by exact Hs.
      destruct st; reflexivity.
    - apply update_no_student; assumption. }
  rewrite Hst. do 4 (split; [reflexivity|]).
  split; [unfold keepsApplication|unfold keepsButApplications]; repeat split.
Qed.

Lemma approval_empty_range_witness :
  let st := setLeaveApplications
              [Demo.leave "leave-1" "user-2" "2024-01-12" "2024-01-10";
               Demo.leave "leave-2" "user-2" "2024-13-01" "2024-01-10"] Demo.school in
  let st1 := handleUpdateLeaveStatus JSDate.isoParse "leave-1" Approved (Some "ok") st in
  let st2 := handleUpdateLeaveStatus JSDate.isoParse "leave-2" Approved None st in
  students st1 = students Demo.school
  /\ map (fun app => (leave_id app, leave_status app, leave_teacherComment app))
         (leaveApplications st1)
     = [("leave-1", LeaveStatus.Approved, Some "ok"); ("leave-2", LeaveStatus.Pending, None)]
  /\ students st2 = students Demo.school
  /\ map (fun app => (leave_id app, leave_status app, leave_teacherComment app))
         (leaveApplications st2)
     = [("leave-1", LeaveStatus.Pending, None); ("leave-2", LeaveStatus.Approved, None)].
Proof.
  cbn zeta.
  destruct (approval_empty_range JSDate.isoParse "leave-1" (Some "ok")
              (setLeaveApplications
                 [Demo.leave "leave-1" "user-2" "2024-01-12" "2024-01-10";
                  Demo.leave "leave-2" "user-2" "2024-13-01" "2024-01-10"] Demo.school)
              0%nat (Demo.leave "leave-1" "user-2" "2024-01-12" "2024-01-10")
              eq_refl eq_refl) as (_ & Happs1 & _ & _ & _ & _ & _ & Hss1 & _).
  { vm_compute. reflexivity. }
  destruct (approval_empty_range JSDate.isoParse "leave-2" None
              (setLeaveApplications
                 [Demo.leave "leave-1" "user-2" "2024-01-12" "2024-01-10";
                  Demo.leave "leave-2" "user-2" "2024-13-01" "2024-01-10"] Demo.school)
              1%nat (Demo.leave "leave-2" "user-2" "2024-13-01" "2024-01-10")
              eq_refl eq_refl) as (_ & Happs2 & _ & _ & _ & _ & _ & Hss2 & _).
  { vm_compute. exact I. }
  split; [exact Hss1|]. split; [rewrite Happs1; reflexivity|].
  split; [exact Hss2|]. rewrite Happs2. reflexivity.
Defined.

(** X15: a rejection never touches the students, so rejecting a leave that was
    approved leaves the records that the approval has added: the application
    ends as rejected, with the comment of the rejection and its other fields
    as they were, and the students stay as the approval left them. *)
Theorem rejection_keeps_records parse applicationId comment1 comment2 st :
  let st1 := handleUpdateLeaveStatus parse applicationId Approved comment1 st in
  let st2 := handleUpdateLeaveStatus parse applicationId Rejected comment2 st1 in
  students (handleUpdateLeaveStatus parse applicationId Rejected comment2 st) = students st
  /\ students st2 = students st1
  /\ match findIndex (fun app => String.eqb (leave_id app) applicationId)
                     (leaveApplications st) with
     | Some i =>
         exists application updated,
           leaveApplications st !! i = Some application
           /\ leaveApplications st2 = <[i := updated]> (leaveApplications st)
           /\ updated = withDecision application LeaveStatus.Rejected comment2
           /\ leave_status updated = LeaveStatus.Rejected
           /\ leave_teacherComment updated = comment2
           /\ keepsApplication application updated
     | None => st2 = st
     end.
Proof.
  cbn zeta.
  assert (forall c s, students (handleUpdateLeaveStatus parse applicationId Rejected c s)
                      = students s) as Hrej.
  { intros c s.
    destruct (update_outcome parse applicationId c s Rejected)
      as [Hnone|i application Hi Happ _|i application j studentToUpdate [=]].
    - reflexivity.
    - reflexivity. }
  split; [apply Hrej|]. split; [apply Hrej|].
  destruct (findIndex _ (leaveApplications st)) as [i|] eqn:Hi.
  - destruct (findIndex_Some _ _ _ Hi) as (application & Happ & _).
    exists application, (withDecision application LeaveStatus.Rejected comment2).
    split; [exact Happ|].
    split; [|split; [reflexivity|split; [reflexivity|split; [reflexivity|]]]].
    2: { unfold keepsApplication. repeat split. }
    assert (leaveApplications
              (handleUpdateLeaveStatus parse applicationId Approved comment1 st)
            = <[i := withDecision application LeaveStatus.Approved comment1]>
                (leaveApplications st)) as Hfirst.
    { destruct (findIndex (fun s => String.eqb (student_id s) (leave_studentId application))
                          (students st)) as [j|] eqn:Hj.
      - destruct (findIndex_Some _ _ _ Hj) as (studentToUpdate & Hs & _).
        rewrite (update_approved parse applicationId comment1 st i application j
                   studentToUpdate) by assumption.
        reflexivity.
      - rewrite (update_no_student parse applicationId comment1 st i application)
          by assumption.
        reflexivity. }
    rewrite (update_rejected parse applicationId comment2 _ i
               (withDecision application LeaveStatus.Approved comment1)).
    + cbn [leaveApplications setLeaveApplications]. rewrite Hfirst.
      rewrite list_insert_insert_eq. reflexivity.
    + rewrite Hfirst. erewrite findIndex_insert; [exact Hi|exact Happ|reflexivity].
    + rewrite Hfirst. apply list_lookup_insert_eq. eapply lookup_lt_Some, Happ.
  - rewrite !update_unknown; try reflexivity; try exact Hi.
    rewrite update_unknown by exact Hi. exact Hi.
Qed.

Lemma rejection_keeps_records_witness :
  let st1 := handleUpdateLeaveStatus JSDate.isoParse "leave-1" Approved (Some "ok")
                                     Demo.school in
  let st2 := handleUpdateLeaveStatus JSDate.isoParse "leave-1" Rejected (Some "late") st1 in
  map (fun app => (leave_id app, leave_status app, leave_teacherComment app))
      (leaveApplications st2)
  = [("leave-1", LeaveStatus.Rejected, Some "late"); ("leave-2", LeaveStatus.Pending, None)]
  /\ map (fun s => map rec_date (student_attendance s)) (students st2)
     = [["2024-01-10"];
        ["2024-01-08"; "2024-01-09"; "2024-01-10"; "2024-01-11"; "2024-01-12"]].
Proof.
  cbn zeta.
  destruct (rejection_keeps_records JSDate.isoParse "leave-1" (Some "ok") (Some "late")
              Demo.school) as (_ & Hstudents & Happs).
  change (findIndex (fun app => String.eqb (leave_id app) "leave-1")
                    (leaveApplications Demo.school)) with (Some 0%nat) in Happs.
  destruct Happs as (application & updated & Happ & Happs & -> & _).
  injection Happ as <-.
  split; [rewrite Happs; reflexivity|].
  rewrite Hstudents. reflexivity.
Defined.

(** ** Applying, then deciding *)

(** X16: [handleApplyForLeave] appends a pending application that carries the
    data given and the identifier made from the time, and changes nothing
    else.  When no application has that identifier yet, a decision under it
    reaches the new application, which receives the status of the decision
    and the comment given and keeps its other fields, and leaves the earlier
    ones. *)
Theorem apply_then_decide parse now applicationDate applicationData st :
  (forall app, app ∈ leaveApplications st -> leave_id app <> "leave-" +:+ pretty now) ->
  let st1 := handleApplyForLeave now applicationDate applicationData st in
  exists application,
    leaveApplications st1 = leaveApplications st ++ [application]
    /\ keepsButApplications st st1
    /\ leave_id application = "leave-" +:+ pretty now
    /\ leave_status application = LeaveStatus.Pending
    /\ leave_studentId application = adata_studentId applicationData
    /\ leave_studentName application = adata_studentName applicationData
    /\ leave_studentRollNumber application = adata_studentRollNumber applicationData
    /\ leave_startDate application = adata_startDate applicationData
    /\ leave_endDate application = adata_endDate applicationData
    /\ leave_reason application = adata_reason applicationData
    /\ leave_documentUrl application = adata_documentUrl applicationData
    /\ leave_teacherComment application = adata_teacherComment applicationData
    /\ leave_applicationDate application = applicationDate
    /\ forall status teacherComment,
         exists updated,
           leaveApplications
             (handleUpdateLeaveStatus parse ("leave-" +:+ pretty now) status teacherComment
                                      st1)
           = leaveApplications st ++ [updated]
           /\ leave_status updated
              = match status with
                | Approved => LeaveStatus.Approved
                | Rejected => LeaveStatus.Rejected
                end
           /\ leave_teacherComment updated = teacherComment
           /\ keepsApplication application updated.
Proof.
  intros Hfresh. cbn zeta. unfold handleApplyForLeave.
  match goal with
  | |- context [leaveApplications st ++ [?a]] => set (application := a)
  end.
  exists application. cbn [leaveApplications setLeaveApplications].
  split; [reflexivity|]. split; [unfold keepsButApplications; repeat split|].
  do 11 (split; [reflexivity|]).
  intros status teacherComment.
  exists (withDecision application (decided status) teacherComment).
  split; [|split; [destruct status; reflexivity
                  |split; [reflexivity|unfold keepsApplication; repeat split]]].
  set (st1 := setLeaveApplications (leaveApplications st ++ [application]) st).
  assert (findIndex (fun app => String.eqb (leave_id app) ("leave-" +:+ pretty now))
                    (leaveApplications st1) = Some (length (leaveApplications st))) as Hi.
  { apply findIndex_app_new; [|apply String.eqb_refl].
    intros y Hy. apply String.eqb_neq, Hfresh, Hy. }
  assert (leaveApplications st1 !! length (leaveApplications st) = Some application)
    as Happ.
  { cbn. rewrite lookup_app_r, Nat.sub_diag by lia. reflexivity. }
  assert (leaveApplications
            (setLeaveApplications
               (<[length (leaveApplications st)
                  := withDecision application (decided status) teacherComment]>
                  (leaveApplications st1)) st1)
          = leaveApplications st
            ++ [withDecision application (decided status) teacherComment]) as Hend.
  { cbn. apply insert_app_new. }
  destruct status.
  - destruct (findIndex (fun s => String.eqb (student_id s) (leave_studentId application))
                        (students st1)) as [j|] eqn:Hj.
    + destruct (findIndex_Some _ _ _ Hj) as (studentToUpdate & Hs & _).
      rewrite (update_approved parse _ teacherComment st1 (length (leaveApplications st))
                 application j studentToUpdate) by assumption.
      exact Hend.
    + rewrite (update_no_student parse _ teacherComment st1
                 (length (leaveApplications st)) application) by assumption.
      exact Hend.
  - rewrite (update_rejected parse _ teacherComment st1
               (length (leaveApplications st)) application) by assumption.
    exact Hend.
Qed.

Lemma apply_then_decide_witness :
  let data :=
    {| adata_studentId := "user-2"; adata_studentName := "P. Quill";
       adata_studentRollNumber := "S101"; adata_startDate := "2024-02-01";
       adata_endDate := "2024-02-02"; adata_reason := "family";
       adata_documentUrl := None; adata_teacherComment := None |} in
  let st1 := handleApplyForLeave 1704900000000 "2024-01-10T15:20:00.000Z" data
                                 Demo.school in
  let st2 := handleUpdateLeaveStatus JSDate.isoParse "leave-1704900000000" Rejected
                                     (Some "no") st1 in
  map (fun app => (leave_id app, leave_status app, leave_teacherComment app))
      (leaveApplications st1)
  = [("leave-1", LeaveStatus.Pending, None); ("leave-2", LeaveStatus.Pending, None);
     ("leave-1704900000000", LeaveStatus.Pending, None)]
  /\ map (fun app => (leave_id app, leave_status app, leave_teacherComment app))
         (leaveApplications st2)
     = [("leave-1", LeaveStatus.Pending, None); ("leave-2", LeaveStatus.Pending, None);
        ("leave-1704900000000", LeaveStatus.Rejected, Some "no")].
Proof.
  cbn zeta.
  destruct (apply_then_decide JSDate.isoParse 1704900000000 "2024-01-10T15:20:00.000Z"
              {| adata_studentId := "user-2"; adata_studentName := "P. Quill";
                 adata_studentRollNumber := "S101"; adata_startDate := "2024-02-01";
                 adata_endDate := "2024-02-02"; adata_reason := "family";
                 adata_documentUrl := None; adata_teacherComment := None |}
              Demo.school)
    as (application & Happs & _ & Hid & Hstatus & _ & _ & _ & _ & _ & _ & _ & Hcomment
        & _ & Hdecide).
  - intros app Happ. vm_compute in Happ.
    repeat (apply elem_of_cons in Happ as [->|Happ]; [discriminate|]).
    inversion Happ.
  - destruct (Hdecide Rejected (Some "no")) as (updated & Hupdated & Hst & Hc & Hkeep).
    destruct Hkeep as (Hid' & _).
    split.
    + rewrite Happs, map_app. cbn [map]. rewrite Hid, Hstatus, Hcomment. reflexivity.
    + etransitivity; [exact (f_equal (map _) Hupdated)|].
      rewrite map_app. cbn [map]. rewrite Hid', Hid, Hst, Hc. reflexivity.
Defined.

(** ** The access-block effect on the whole state *)

(** X17: the effect only writes the block of the student who is logged in, only
    when the attendance of that student is low, and never takes a block away:
    each student keeps the other fields, stays blocked when blocked, and is
    unchanged unless the student is the current user, has low attendance and
    ends blocked.  The users, the applications, the exams and the submissions
    are left, and so is the whole state when nobody, a teacher or a parent is
    logged in. *)
Theorem effect_never_unblocks st :
  let st' := accessBlockEffect st in
  setStudents (students st) st' = st
  /\ Forall2 (fun s s' =>
                withBlock s' (student_isAccessBlocked s) (student_blockReason s) = s
                /\ (student_isAccessBlocked s = true -> student_isAccessBlocked s' = true)
                /\ (s' = s
                    \/ (isLowAttendance (student_attendance s) = true
                        /\ student_isAccessBlocked s' = true
                        /\ exists user, currentUser st = Some user
                                        /\ student_id s = user_id user)))
             (students st) (students st')
  /\ match currentUser st with
     | Some user => if UserRole.eqb (user_role user) UserRole.Student then True
                    else st' = st
     | None => st' = st
     end.
Proof.
  cbn zeta.
  assert (forall s : Student,
            withBlock s (student_isAccessBlocked s) (student_blockReason s) = s
            /\ (student_isAccessBlocked s = true -> student_isAccessBlocked s = true)
            /\ (s = s
                \/ (isLowAttendance (student_attendance s) = true
                    /\ student_isAccessBlocked s = true
                    /\ exists user, currentUser st = Some user
                                    /\ student_id s = user_id user))) as Hrefl.
  { intros s. split; [apply withBlock_same|]. auto. }
  unfold accessBlockEffect.
  destruct (currentUser st) as [user|] eqn:Hu.
  2: { split; [apply setStudents_same|]. split; [apply Forall2_diag, Hrefl|reflexivity]. }
  destruct (UserRole.eqb (user_role user) UserRole.Student) eqn:Hrole.
  2: { split; [apply setStudents_same|]. split; [apply Forall2_diag, Hrefl|reflexivity]. }
  destruct (findIndex _ (students st)) as [studentIndex|] eqn:Hi.
  2: { split; [apply setStudents_same|]. split; [apply Forall2_diag, Hrefl|exact I]. }
  destruct (findIndex_Some _ _ _ Hi) as (studentData & Hs & Hid & _).
  rewrite Hs. apply String.eqb_eq in Hid.
  destruct (evaluateBlock studentData) as [updatedStudent|] eqn:Hev.
  2: { split; [apply setStudents_same|]. split; [apply Forall2_diag, Hrefl|exact I]. }
  split; [destruct st; reflexivity|]. split; [|exact I].
  cbn [students setStudents].
  eapply Forall2_replace; [exact Hrefl|exact Hs|].
  unfold evaluateBlock in Hev.
  destruct (isLowAttendance (student_attendance studentData)) eqn:Hlow; [|discriminate].
  destruct (student_isAccessBlocked studentData) eqn:Hb; cbn [negb] in Hev.
  - destruct (isBehaviourIssue (student_blockReason studentData)); [|discriminate].
    injection Hev as <-. cbn.
    split; [clear - Hb; destruct studentData; cbn in *; subst; reflexivity|].
    split; [auto|].
    right. split; [reflexivity|]. split; [reflexivity|]. exists user. auto.
  - injection Hev as <-. cbn.
    split; [clear - Hb; destruct studentData; cbn in *; subst; reflexivity|].
    split; [auto|].
    right. split; [reflexivity|]. split; [reflexivity|]. exists user. auto.
Qed.

(** ** What is rendered *)

Lemma hasActivePass_withBlock now s blocked reason :
  hasActivePass now (withBlock s blocked reason) = hasActivePass now s.
Proof. reflexivity. Qed.

Lemma evaluated_blocked s :
  student_isAccessBlocked (evaluated s)
  = isLowAttendance (student_attendance s) || student_isAccessBlocked s.
Proof.
  unfold evaluated, evaluateBlock.
  destruct (isLowAttendance (student_attendance s)); [|reflexivity].
  destruct (student_isAccessBlocked s) eqn:Hb; cbn [negb orb]; [|reflexivity].
  destruct (isBehaviourIssue (student_blockReason s)); cbn; rewrite ?Hb; reflexivity.
Qed.

Lemma evaluated_pass now s : hasActivePass now (evaluated s) = hasActivePass now s.
Proof. unfold evaluated. destruct (evaluateBlock s) eqn:H; [|reflexivity].
  unfold evaluateBlock in H.
  destruct (isLowAttendance _); [|discriminate].
  destruct (negb _); [injection H as <-; reflexivity|].
  destruct (isBehaviourIssue _); [injection H as <-; reflexivity|discriminate].
Qed.

Lemma evaluated_id s : student_id (evaluated s) = student_id s.
Proof. unfold evaluated. destruct (evaluateBlock s) eqn:H; [|reflexivity].
  unfold evaluateBlock in H.
  destruct (isLowAttendance _); [|discriminate].
  destruct (negb _); [injection H as <-; reflexivity|].
  destruct (isBehaviourIssue _); [injection H as <-; reflexivity|discriminate].
Qed.

Lemma List_filter_sublist {A} (f : A -> bool) (l : list A) : List.filter f l `sublist_of` l.
Proof.
  induction l as [|a l IH]; [constructor|]. cbn [List.filter].
  destruct (f a); [apply sublist_skip|apply sublist_cons]; exact IH.
Qed.

(** X18: the login of a student whose record is found: after the access-block
    effect the student gets the warning screen exactly when the attendance is
    low or the student was blocked already, and no pass is active; otherwise
    the dashboard, with the record that the effect has left, the applications
    and the submissions of the student, and all the exams. *)
Theorem login_warning now st user studentData :
  currentUser st = Some user ->
  user_role user = UserRole.Student ->
  find (fun s => String.eqb (student_id s) (user_id user)) (students st)
  = Some studentData ->
  renderDashboard now (accessBlockEffect st)
  = if (isLowAttendance (student_attendance studentData)
        || student_isAccessBlocked studentData)
       && negb (hasActivePass now studentData)
    then AttendanceWarningScreen
    else StudentDashboard user (evaluated studentData)
           (List.filter (fun app => String.eqb (leave_studentId app) (user_id user))
                        (leaveApplications st))
           (exams st)
           (List.filter (fun s => String.eqb (submission_studentId s) (user_id user))
                        (examSubmissions st)).
Proof.
  intros Hu Hrole Hfind.
  rewrite find_findIndex in Hfind.
  destruct (findIndex _ (students st)) as [i|] eqn:Hi; [|discriminate]. cbn in Hfind.
  rewrite (accessBlockEffect_evaluated st user i studentData) by assumption.
  assert (find (fun s => String.eqb (student_id s) (user_id user))
               (<[i := evaluated studentData]> (students st))
          = Some (evaluated studentData)) as Hfound.
  { rewrite find_findIndex.
    erewrite findIndex_insert; [|exact Hfind|rewrite evaluated_id; reflexivity].
    rewrite Hi. cbn. apply list_lookup_insert_eq. eapply lookup_lt_Some, Hfind. }
  unfold renderDashboard. cbn [currentUser students setStudents leaveApplications exams
                               examSubmissions].
  rewrite Hu, Hrole, Hfound, evaluated_blocked, evaluated_pass.
  destruct (_ && _); reflexivity.
Qed.

Lemma login_warning_witness :
  let absent := [Demo.class "2024-01-08" "Physics" Absent;
                 Demo.class "2024-01-09" "Physics" Present] in
  let st := setStudents [Demo.other; Demo.quill absent false None] Demo.school in
  renderDashboard 1704900000000 (accessBlockEffect st) = AttendanceWarningScreen.
Proof.
  cbn zeta.
  rewrite (login_warning 1704900000000
             (setStudents [Demo.other;
                           Demo.quill [Demo.class "2024-01-08" "Physics" Absent;
                                       Demo.class "2024-01-09" "Physics" Present]
                                      false None] Demo.school)
             Demo.pupil
             (Demo.quill [Demo.class "2024-01-08" "Physics" Absent;
                          Demo.class "2024-01-09" "Physics" Present] false None)
             eq_refl eq_refl eq_refl).
  cbn [student_attendance Demo.quill].
  rewrite isLowAttendance_exact by (cbn; lia). reflexivity.
Defined.

(** X19: the warning screen does not go away with time: when it is rendered at
    [now], it is rendered from the same state at every later time. *)
Theorem warning_persists now later st :
  now <= later ->
  renderDashboard now st = AttendanceWarningScreen ->
  renderDashboard later st = AttendanceWarningScreen.
Proof.
  intros Hle. unfold renderDashboard.
  destruct (currentUser st) as [user|]; [|discriminate].
  assert (forall s, hasActivePass later s = true -> hasActivePass now s = true) as Hpass.
  { intros s. unfold hasActivePass.
    destruct (student_temporaryAccessExpires s) as [expires|]; [|discriminate].
    rewrite !andb_true_iff, !Z.ltb_lt. intros [? ?]. split; [assumption|lia]. }
  destruct (user_role user).
  - destruct (find _ (students st)) as [studentData|]; [|discriminate].
    destruct (student_isAccessBlocked studentData); cbn [andb]; [|discriminate].
    destruct (hasActivePass later studentData) eqn:Hlater.
    + rewrite (Hpass _ Hlater). discriminate.
    + reflexivity.
  - discriminate.
  - cbn. destruct (find _ (students st)); discriminate.
Qed.

Lemma warning_persists_witness :
  let st := setStudents [Demo.other; Demo.quill Demo.week true (Some BehaviourIssue)]
                        Demo.school in
  renderDashboard 1704900000000 st = AttendanceWarningScreen.
Proof.
  cbn zeta.
  apply (warning_persists 0 1704900000000
           (setStudents [Demo.other; Demo.quill Demo.week true (Some BehaviourIssue)]
                        Demo.school)); [lia|reflexivity].
Defined.

(** X20: what each view tells of the state.  A dashboard is only rendered for the
    current user and for the role of that user; the warning screen only for a
    blocked student without an active pass, and the dashboard of a student
    never for one.  The dashboard of a student receives the record with the
    identifier of the user, and of the applications and the submissions exactly
    those that carry that identifier; the dashboard of a teacher receives all
    the students, applications and submissions, and of the exams exactly those
    that the teacher has created; the dashboard of a parent receives a record
    whose identifier is the [childId] of the user. *)
Theorem dashboard_data now st :
  match renderDashboard now st with
  | NoView => currentUser st = None
  | AttendanceWarningScreen =>
      exists user studentData,
        currentUser st = Some user /\ user_role user = UserRole.Student
        /\ studentData ∈ students st /\ student_id studentData = user_id user
        /\ student_isAccessBlocked studentData = true
        /\ hasActivePass now studentData = false
  | TeacherDashboard user allStudents allApplications ownExams allSubmissions =>
      currentUser st = Some user /\ user_role user = UserRole.Teacher
      /\ allStudents = students st /\ allApplications = leaveApplications st
      /\ allSubmissions = examSubmissions st
      /\ ownExams `sublist_of` exams st
      /\ forall e, e ∈ ownExams <-> e ∈ exams st /\ exam_createdBy e = user_id user
  | StudentDataError =>
      exists user,
        currentUser st = Some user /\ user_role user = UserRole.Student
        /\ forall s, s ∈ students st -> student_id s <> user_id user
  | StudentDashboard user studentData ownApplications allExams ownSubmissions =>
      currentUser st = Some user /\ user_role user = UserRole.Student
      /\ studentData ∈ students st /\ student_id studentData = user_id user
      /\ (student_isAccessBlocked studentData = false
          \/ hasActivePass now studentData = true)
      /\ allExams = exams st
      /\ (forall app, app ∈ ownApplications
                      <-> app ∈ leaveApplications st /\ leave_studentId app = user_id user)
      /\ (forall s, s ∈ ownSubmissions
                    <-> s ∈ examSubmissions st /\ submission_studentId s = user_id user)
  | ChildDataError =>
      exists user,
        currentUser st = Some user /\ user_role user = UserRole.Parent
        /\ forall s, s ∈ students st -> Some (student_id s) <> user_childId user
  | ParentDashboard user childData =>
      currentUser st = Some user /\ user_role user = UserRole.Parent
      /\ childData ∈ students st /\ Some (student_id childData) = user_childId user
  end.
Proof.
  unfold renderDashboard.
  destruct (currentUser st) as [user|]; [|reflexivity].
  destruct (user_role user) eqn:Hrole.
  - destruct (find _ (students st)) as [studentData|] eqn:Hfind.
    + apply find_elem in Hfind as [Hin Hid]. apply String.eqb_eq in Hid.
      destruct (student_isAccessBlocked studentData) eqn:Hb; cbn [andb].
      * destruct (hasActivePass now studentData) eqn:Hpass; cbn [negb].
        -- do 6 (split; [auto|]).
           split; intros x; rewrite filter_elem, String.eqb_eq; reflexivity.
        -- exists user, studentData. repeat split; auto.
      * do 6 (split; [auto|]).
        split; intros x; rewrite filter_elem, String.eqb_eq; reflexivity.
    + exists user. split; [reflexivity|]. split; [exact Hrole|]. intros s Hs.
      rewrite find_none_iff in Hfind. apply String.eqb_neq, Hfind, Hs.
  - do 5 (split; [auto|]). split; [apply List_filter_sublist|].
    intros e. rewrite filter_elem, String.eqb_eq. reflexivity.
  - cbn. destruct (find _ (students st)) as [childData|] eqn:Hfind.
    + apply find_elem in Hfind as [Hin Hid]. apply bool_decide_eq_true in Hid. auto.
    + exists user. split; [reflexivity|]. split; [exact Hrole|]. intros s Hs.
      rewrite find_none_iff in Hfind. specialize (Hfind s Hs).
      apply bool_decide_eq_false in Hfind. exact Hfind.
Qed.

(** ** The effects of the start *)

(** X22: the validation leaves an array in every collection, so that a state can
    be made of the stored values; a collection that was an array is kept, one
    that was not is replaced by the default; the current user is kept when all
    five were arrays and logged out otherwise; and validating again changes
    nothing. *)
Theorem validation_repairs mockUsers mockStudents mockExams v :
  let v' := validateStored mockUsers mockStudents mockExams v in
  (exists st, stateOf v' = Some st
              /\ users st = default mockUsers (stored_users v)
              /\ students st = default mockStudents (stored_students v)
              /\ leaveApplications st = default [] (stored_leaveApplications v)
              /\ exams st = default mockExams (stored_exams v)
              /\ examSubmissions st = default [] (stored_examSubmissions v))
  /\ match stateOf v with
     | Some _ => v' = v
     | None => stored_currentUser v' = None
     end
  /\ validateStored mockUsers mockStudents mockExams v' = v'.
Proof.
  cbn zeta. split; [|split].
  - eexists. split; [reflexivity|]. cbn. repeat split.
  - destruct v as [cu [us|] [ss|] [ls|] [es|] [xs|]]; reflexivity.
  - destruct v as [cu [us|] [ss|] [ls|] [es|] [xs|]]; reflexivity.
Qed.

Lemma withScanOnLogin_same u :
  user_enableScanOnLogin u = Some true -> withScanOnLogin u = u.
Proof. destruct u; cbn. intros ->. reflexivity. Qed.

Lemma needsScan_withScanOnLogin u : needsScan (withScanOnLogin u) = false.
Proof. unfold needsScan. cbn. rewrite bool_decide_eq_true_2 by reflexivity.
  apply andb_false_r. Qed.

Lemma migrated_settled (l : list User) :
  existsb needsScan (map (fun user => if needsScan user then withScanOnLogin user else user) l)
  = false.
Proof.
  induction l as [|a l IH]; [reflexivity|]. cbn [map existsb]. rewrite IH, orb_false_r.
  destruct (needsScan a) eqn:E; [apply needsScan_withScanOnLogin|exact E].
Qed.

(** X23: the migration, run on the users of the state: every user with the email
    student@school.com ends with the face scan at login enabled, every other
    user is untouched, every user keeps the other fields, nothing but the
    users changes, and a second run changes nothing.  Whatever the stored
    users are, the state is left when none of them needs the change, and
    without stored users. *)
Theorem migration_scan st :
  let st' := migrateUsers (Some (users st)) st in
  Forall2 (fun u u' => keepsButScan u u'
                       /\ if String.eqb (user_email u) "student@school.com"
                          then user_enableScanOnLogin u' = Some true
                          else u' = u)
          (users st) (users st')
  /\ keepsButUsers st st'
  /\ migrateUsers (Some (users st')) st' = st'
  /\ (forall storedUsers,
        existsb needsScan storedUsers = false -> migrateUsers (Some storedUsers) st = st)
  /\ migrateUsers None st = st.
Proof.
  cbn zeta.
  assert (forall l : list User,
            Forall2 (fun u u' => keepsButScan u u'
                                 /\ if String.eqb (user_email u) "student@school.com"
                                    then user_enableScanOnLogin u' = Some true
                                    else u' = u)
              l (map (fun user => if needsScan user then withScanOnLogin user else user) l))
    as Hmap.
  { induction l as [|a l IH]; constructor; [|exact IH].
    unfold needsScan. destruct (String.eqb (user_email a) "student@school.com"); cbn [andb].
    - destruct (bool_decide (user_enableScanOnLogin a = Some true)) eqn:E; cbn [negb].
      + apply bool_decide_eq_true in E. split; [unfold keepsButScan; repeat split|exact E].
      + split; [unfold keepsButScan; repeat split|reflexivity].
    - split; [unfold keepsButScan; repeat split|reflexivity]. }
  assert (forall l : list User,
            existsb needsScan l = false ->
            map (fun user => if needsScan user then withScanOnLogin user else user) l = l)
    as Hnone.
  { induction l as [|a l IH]; [reflexivity|]. cbn [existsb map].
    intros H. apply orb_false_iff in H as [Ha Hl]. rewrite Ha, IH by exact Hl. reflexivity. }
  split; [|split; [|split; [|split]]].
  - unfold migrateUsers. destruct (existsb needsScan (users st)) eqn:E.
    + apply Hmap.
    + rewrite <- (Hnone _ E) at 2. apply Hmap.
  - unfold migrateUsers, keepsButUsers.
    destruct (existsb needsScan (users st)); repeat split.
  - destruct (existsb needsScan (users st)) eqn:E.
    + assert (migrateUsers (Some (users st)) st
              = setUsers (map (fun user => if needsScan user then withScanOnLogin user
                                           else user) (users st)) st) as ->
        by (unfold migrateUsers; rewrite E; reflexivity).
      unfold migrateUsers. cbn [users setUsers]. rewrite migrated_settled. reflexivity.
    + assert (migrateUsers (Some (users st)) st = st) as ->
        by (unfold migrateUsers; rewrite E; reflexivity).
      unfold migrateUsers. rewrite E. reflexivity.
  - intros storedUsers H. unfold migrateUsers. rewrite H. reflexivity.
  - reflexivity.
Qed.

Lemma migration_scan_witness :
  let before (scan : option bool) : User :=
    {| user_id := "user-2"; user_name := "P. Quill"; user_email := "student@school.com";
       user_role := UserRole.Student; user_password := Some "slate"; user_mobile := None;
       user_registeredPhotoUrl := "pupil.png"; user_childId := None;
       user_enableScanOnLogin := scan |} in
  let head : User :=
    {| user_id := "user-0"; user_name := "H. Crane"; user_email := "head@school.com";
       user_role := UserRole.Teacher; user_password := None; user_mobile := None;
       user_registeredPhotoUrl := "head.png"; user_childId := None;
       user_enableScanOnLogin := Some false |} in
  let st := setUsers [head; before None; before (Some false); before (Some true)]
                     Demo.school in
  let st' := migrateUsers (Some (users st)) st in
  users st' = [head; before (Some true); before (Some true); before (Some true)]
  /\ migrateUsers (Some (users st')) st' = st'.
Proof.
  cbn zeta.
  match goal with
  | |- users (migrateUsers (Some (users ?s)) ?s) = _ /\ _ =>
      destruct (migration_scan s) as (_ & _ & Hagain & _)
  end.
  split; [reflexivity|exact Hagain].
Defined.

(** ** What a run of the component keeps *)

Section Later.
Context {A : Type} (R : A -> A -> Prop).
Hypothesis R_refl : forall x, R x x.
Hypothesis R_trans : forall x y z, R x y -> R y z -> R x z.

Lemma laterList_refl l : laterList R l l.
Proof. exists l, []. split; [symmetry; apply app_nil_r|apply Forall2_diag, R_refl]. Qed.

Lemma laterList_new l new : laterList R l (l ++ new).
Proof. exists l, new. split; [reflexivity|apply Forall2_diag, R_refl]. Qed.

Lemma laterList_replace l j x y : l !! j = Some x -> R x y -> laterList R l (<[j := y]> l).
Proof.
  intros Hx Hxy. exists (<[j := y]> l), []. split; [symmetry; apply app_nil_r|].
  eapply Forall2_replace; eassumption.
Qed.

Lemma laterList_trans l1 l2 l3 : laterList R l1 l2 -> laterList R l2 l3 -> laterList R l1 l3.
Proof.
  intros (a & n & -> & Ha) (b & m & -> & Hb).
  apply Forall2_app_inv_l in Hb as (b1 & b2 & Hb1 & Hb2 & ->).
  exists b1, (b2 ++ m). split; [symmetry; apply app_assoc|].
  clear Hb2. revert b1 Hb1. induction Ha as [|x y l a Hxy Ha IH]; intros b1 Hb1.
  - inversion Hb1. constructor.
  - inversion Hb1 as [|y' z a' b1' Hyz Hrest]; subst. constructor; [|apply IH, Hrest].
    eapply R_trans; eassumption.
Qed.

End Later.

Lemma laterStudent_refl s : laterStudent s s.
Proof. unfold laterStudent. repeat split; auto. Qed.

Lemma laterStudent_trans s1 s2 s3 :
  laterStudent s1 s2 -> laterStudent s2 s3 -> laterStudent s1 s3.
Proof.
  unfold laterStudent.
  intros (? & ? & ? & ? & ? & ? & ? & ? & Hp & Hb) (? & ? & ? & ? & ? & ? & ? & ? & Hp' & Hb').
  repeat split; try congruence; [etransitivity; eassumption|auto].
Qed.

Lemma laterApplication_refl a : laterApplication a a.
Proof. unfold laterApplication. destruct a; reflexivity. Qed.

Lemma laterApplication_trans a1 a2 a3 :
  laterApplication a1 a2 -> laterApplication a2 a3 -> laterApplication a1 a3.
Proof.
  unfold laterApplication. intros <- <-. destruct a3; reflexivity.
Qed.

Lemma laterApplication_decided a status teacherComment :
  laterApplication a (withDecision a status teacherComment).
Proof. unfold laterApplication. destruct a; reflexivity. Qed.

Lemma laterStudent_evaluateBlock s updatedStudent :
  evaluateBlock s = Some updatedStudent -> laterStudent s updatedStudent.
Proof.
  unfold evaluateBlock, laterStudent. intros H.
  destruct (isLowAttendance _); [|discriminate].
  destruct (student_isAccessBlocked s) eqn:Hb; cbn [negb] in H.
  - destruct (isBehaviourIssue _); [|discriminate]. injection H as <-. cbn.
    repeat split; auto.
  - injection H as <-. cbn. repeat split; auto.
Qed.

Lemma laterStudent_withAttendance s added :
  laterStudent s (withAttendance s (student_attendance s ++ added)).
Proof. unfold laterStudent. cbn. repeat split; auto. apply prefix_app_r. reflexivity. Qed.

Lemma laterStudent_withLearningPath s learningPath :
  laterStudent s (withLearningPath s learningPath).
Proof. unfold laterStudent. cbn. repeat split; auto. Qed.

Local Abbreviation kept st st' :=
  (laterList laterStudent (students st) (students st')
   /\ laterList laterApplication (leaveApplications st) (leaveApplications st')).

Lemma kept_same st st' :
  students st' = students st -> leaveApplications st' = leaveApplications st -> kept st st'.
Proof.
  intros -> ->.
  split; apply laterList_refl; [apply laterStudent_refl|apply laterApplication_refl].
Qed.

Lemma kept_step parse department st st' : AppStep parse department st st' -> kept st st'.
Proof.
  intros Hstep. destruct Hstep.
  - (* the access-block effect *)
    unfold accessBlockEffect.
    destruct (currentUser st) as [user|]; [|apply kept_same; reflexivity].
    destruct (UserRole.eqb _ _); [|apply kept_same; reflexivity].
    destruct (findIndex _ (students st)) as [studentIndex|]; [|apply kept_same; reflexivity].
    destruct (students st !! studentIndex) as [studentData|] eqn:Hs;
      [|apply kept_same; reflexivity].
    destruct (evaluateBlock studentData) as [updatedStudent|] eqn:Hev;
      [|apply kept_same; reflexivity].
    split; [|apply laterList_refl, laterApplication_refl].
    cbn [students setStudents].
    eapply laterList_replace; [apply laterStudent_refl|exact Hs|].
    apply laterStudent_evaluateBlock, Hev.
  - unfold handleLogin. destruct (find _ (users st)); apply kept_same; reflexivity.
  - unfold handleSocialLogin. destruct (find _ (users st)); apply kept_same; reflexivity.
  - unfold handleProviderLogin.
    destruct type; destruct (find _ (users st)); apply kept_same; reflexivity.
  - apply kept_same; reflexivity.
  - (* signup *)
    unfold handleSignup.
    destruct (find _ (users st)); [apply kept_same; reflexivity|].
    destruct (details_role details).
    + split; [apply laterList_new, laterStudent_refl
             |apply laterList_refl, laterApplication_refl].
    + apply kept_same; reflexivity.
    + destruct (falsy _); [apply kept_same; reflexivity|].
      destruct (find _ (users st)); apply kept_same; reflexivity.
  - unfold handleUpdateUser.
    destruct (currentUser st) as [user|];
      [destruct (String.eqb (user_id user) (user_id updatedUser))|];
      apply kept_same; reflexivity.
  - split; [apply laterList_refl, laterStudent_refl|].
    apply laterList_new, laterApplication_refl.
  - (* a decision *)
    destruct (update_outcome parse applicationId teacherComment st status)
      as [Hnone|i application Hi Happ _|i application j studentToUpdate _ Hi Happ Hj Hs].
    + apply kept_same; reflexivity.
    + split; [apply laterList_refl, laterStudent_refl|].
      cbn [leaveApplications setLeaveApplications].
      eapply laterList_replace; [apply laterApplication_refl|exact Happ|].
      apply laterApplication_decided.
    + split.
      * cbn [students setStudents].
        eapply laterList_replace; [apply laterStudent_refl|exact Hs|].
        rewrite synthesizeLeave_missing. apply laterStudent_withAttendance.
      * cbn [leaveApplications setLeaveApplications setStudents].
        eapply laterList_replace; [apply laterApplication_refl|exact Happ|].
        apply laterApplication_decided.
  - unfold handleSaveExam. destruct (findIndex _ (exams st)); apply kept_same; reflexivity.
  - apply kept_same; reflexivity.
  - unfold handleSubmitExam.
    destruct (find _ (exams st)) as [exam|];
      [destruct (currentUser st); [destruct (exam_questions exam)|]|];
      apply kept_same; reflexivity.
  - apply kept_same; reflexivity.
  - (* a new learning path *)
    split; [|apply laterList_refl, laterApplication_refl].
    unfold onPlanUpdate. cbn [students setStudents].
    exists (map (fun s => if String.eqb (student_id s) (user_id user)
                          then withLearningPath s learningPath else s) (students st)), [].
    split; [symmetry; apply app_nil_r|].
    induction (students st) as [|a l IH]; constructor; [|exact IH].
    destruct (String.eqb _ _);
      [apply laterStudent_withLearningPath|apply laterStudent_refl].
  - unfold migrateUsers. destruct storedUsers as [storedUsers|];
      [destruct (existsb needsScan storedUsers)|]; apply kept_same; reflexivity.
Qed.

(** X24: whatever handlers and effects of the component run, in whatever order
    and with whatever arguments, no student and no leave application is
    removed or moved: the students of the start are, later, in their places at
    the start of the list, each with the identifier, the name, the roll
    number, the department, the behaviour status, the progress, the pass and
    the engagement status that it had, with the attendance records that it had
    at the start of its attendance, and blocked when it was blocked; the
    applications of the start are in their places as well, each changed in the
    status and the comment at most. *)
Theorem run_keeps parse department st st' :
  rtc (AppStep parse department) st st' ->
  laterList laterStudent (students st) (students st')
  /\ laterList laterApplication (leaveApplications st) (leaveApplications st').
Proof.
  induction 1 as [st|st st1 st' Hstep _ [IHs IHa]].
  - apply kept_same; reflexivity.
  - destruct (kept_step _ _ _ _ Hstep) as [Hs Ha]. split.
    + eapply laterList_trans; [apply laterStudent_trans|exact Hs|exact IHs].
    + eapply laterList_trans; [apply laterApplication_trans|exact Ha|exact IHa].
Qed.

Lemma run_keeps_witness :
  let details :=
    {| details_name := "N. Wren"; details_email := "wren@school.com";
       details_role := UserRole.Student; details_password := "quill";
       details_childEmail := None; details_registeredPhotoUrl := "wren.png" |} in
  let st1 := handleUpdateLeaveStatus JSDate.isoParse "leave-1" Approved None Demo.school in
  let st2 := handleSignup "Science" 1704900000000 7 details st1 in
  let st3 := accessBlockEffect st2 in
  laterList laterStudent (students Demo.school) (students st3)
  /\ laterList laterApplication (leaveApplications Demo.school) (leaveApplications st3).
Proof.
  cbn zeta.
  apply (run_keeps JSDate.isoParse "Science").
  eapply rtc_l; [apply step_decide|].
  eapply rtc_l; [apply step_signup|].
  eapply rtc_l; [apply step_effect|].
  apply rtc_refl.
Defined.

(** ** A new learning path *)

Lemma find_map_kept {A} (p : A -> bool) (f : A -> A) (l : list A) :
  (forall x, p (f x) = p x) -> find p (map f l) = option_map f (find p l).
Proof.
  intros Hp. unfold find. induction l as [|a l IH]; [reflexivity|].
  cbn [map List.find]. rewrite Hp. destruct (p a); [reflexivity|exact IH].
Qed.

(** X21: the [onPlanUpdate] of the dashboard of a student writes the learning
    path into the record of that student and nothing else: every student with
    the identifier of the user has the new learning path afterwards, every
    other student is as before, and each keeps the other fields; the users,
    the applications, the exams and the submissions are left.  What is
    rendered afterwards is what was rendered before, the dashboard of the
    student with the new learning path in the record, the warning screen and
    the error as they were. *)
Theorem plan_update_shown now user learningPath st :
  currentUser st = Some user ->
  user_role user = UserRole.Student ->
  let st' := onPlanUpdate user learningPath st in
  renderDashboard now st'
  = match renderDashboard now st with
    | StudentDashboard u studentData ownApplications allExams ownSubmissions =>
        StudentDashboard u (withLearningPath studentData learningPath)
                         ownApplications allExams ownSubmissions
    | view => view
    end
  /\ match renderDashboard now st' with
     | StudentDashboard u studentData _ _ _ =>
         student_learningPath studentData = learningPath
         /\ student_id studentData = user_id user
     | _ => True
     end
  /\ (forall s, student_learningPath (withLearningPath s learningPath) = learningPath
                /\ keepsButPath s (withLearningPath s learningPath))
  /\ keepsButStudents st st'
  /\ Forall2 (fun s s' => keepsButPath s s'
                          /\ if String.eqb (student_id s) (user_id user)
                             then student_learningPath s' = learningPath
                             else s' = s)
             (students st) (students st').
Proof.
  intros Hu Hrole. cbn zeta.
  assert (renderDashboard now (onPlanUpdate user learningPath st)
          = match renderDashboard now st with
            | StudentDashboard u studentData ownApplications allExams ownSubmissions =>
                StudentDashboard u (withLearningPath studentData learningPath)
                                 ownApplications allExams ownSubmissions
            | view => view
            end) as Hview.
  { unfold renderDashboard, onPlanUpdate.
    cbn [currentUser students setStudents leaveApplications exams examSubmissions].
    rewrite Hu, Hrole.
    rewrite (find_map_kept (fun s => String.eqb (student_id s) (user_id user))).
    2: { intros x. destruct (String.eqb (student_id x) (user_id user)) eqn:E;
           [cbn; exact E|exact E]. }
    destruct (find _ (students st)) as [studentData|] eqn:Hfind; [|reflexivity].
    apply find_elem in Hfind as [_ Hid]. cbn [option_map]. rewrite Hid.
    change (student_isAccessBlocked (withLearningPath studentData learningPath))
      with (student_isAccessBlocked studentData).
    change (hasActivePass now (withLearningPath studentData learningPath))
      with (hasActivePass now studentData).
    destruct (_ && _); reflexivity. }
  split; [exact Hview|]. split; [|split; [|split]].
  - rewrite Hview. unfold renderDashboard. rewrite Hu, Hrole.
    destruct (find _ (students st)) as [studentData|] eqn:Hfind; [|exact I].
    apply find_elem in Hfind as [_ Hid]. apply String.eqb_eq in Hid.
    destruct (_ && _); [exact I|]. split; [reflexivity|exact Hid].
  - intros s. split; [reflexivity|unfold keepsButPath; repeat split].
  - unfold keepsButStudents, onPlanUpdate. repeat split.
  - unfold onPlanUpdate. cbn [students setStudents].
    induction (students st) as [|a l IH]; constructor; [|exact IH].
    destruct (String.eqb (student_id a) (user_id user)) eqn:E.
    + split; [unfold keepsButPath; repeat split|reflexivity].
    + split; [unfold keepsButPath; repeat split|reflexivity].
Qed.

Lemma plan_update_shown_witness :
  let plan := {| path_overall_summary := "Revise optics"; path_daily_plan := [] |} in
  let st' := onPlanUpdate Demo.pupil (Some plan) Demo.school in
  students st'
  = [Demo.other;
     {| student_id := "user-2"; student_name := "P. Quill"; student_rollNumber := "S101";
        student_department := "Science"; student_attendance := Demo.week;
        student_learningPath := Some plan; student_isAccessBlocked := false;
        student_behaviourStatus := Good; student_blockReason := None;
        student_progress := []; student_temporaryAccessExpires := None;
        student_engagementStatus := None |}]
  /\ match renderDashboard 0 st' with
     | StudentDashboard u studentData ownApplications allExams ownSubmissions =>
         u = Demo.pupil /\ students st' !! 1%nat = Some studentData
         /\ student_learningPath studentData = Some plan
         /\ map leave_id ownApplications = ["leave-1"]
         /\ allExams = exams Demo.school
         /\ ownSubmissions = examSubmissions Demo.school
     | _ => False
     end.
Proof.
  cbn zeta.
  destruct (plan_update_shown 0 Demo.pupil
              (Some {| path_overall_summary := "Revise optics"; path_daily_plan := [] |})
              Demo.school eq_refl eq_refl) as (Hview & _).
  split; [reflexivity|].
  rewrite Hview. cbn. repeat split.
Defined.

(** ** Saving an exam and deleting it *)

(** X9: deleting an exam that was saved under an identifier that no exam had
    gives back the exams of before; of the submissions it removes those that
    name that identifier as their exam, so that the state is the one of before
    when there is none. *)
Theorem save_then_delete_exam examToSave st :
  (forall e, e ∈ exams st -> exam_id e <> exam_id examToSave) ->
  let st' := handleDeleteExam (exam_id examToSave) (handleSaveExam examToSave st) in
  exams st' = exams st
  /\ st' = handleDeleteExam (exam_id examToSave) st
  /\ ((forall s, s ∈ examSubmissions st -> submission_examId s <> exam_id examToSave) ->
      st' = st).
Proof.
  intros Hfresh. cbn zeta.
  assert (List.filter (fun e => negb (String.eqb (exam_id e) (exam_id examToSave)))
                      (exams st) = exams st) as Hkeep.
  { apply filter_all. intros e He. apply negb_true_iff, String.eqb_neq, Hfresh, He. }
  assert (handleSaveExam examToSave st = setExams (exams st ++ [examToSave]) st) as Hsave.
  { unfold handleSaveExam.
    replace (findIndex _ (exams st)) with (@None nat); [reflexivity|].
    symmetry. apply findIndex_None. intros e He. apply String.eqb_neq, Hfresh, He. }
  assert (handleDeleteExam (exam_id examToSave) (handleSaveExam examToSave st)
          = handleDeleteExam (exam_id examToSave) st) as Hdelete.
  { rewrite Hsave. unfold handleDeleteExam.
    cbn [exams setExams examSubmissions setExamSubmissions].
    rewrite List.filter_app, Hkeep. cbn [List.filter].
    rewrite String.eqb_refl. cbn [negb]. rewrite app_nil_r.
    destruct st; reflexivity. }
  rewrite Hdelete. split; [|split; [reflexivity|]].
  - unfold handleDeleteExam. cbn [exams setExams examSubmissions setExamSubmissions].
    exact Hkeep.
  - intros Hnone. unfold handleDeleteExam. rewrite Hkeep.
    rewrite filter_all.
    + destruct st; reflexivity.
    + intros s Hs. apply negb_true_iff, String.eqb_neq, Hnone, Hs.
Qed.

Lemma save_then_delete_exam_witness :
  let quiz := Demo.exam "exam-3" [Demo.question "q1" "A"] in
  handleDeleteExam "exam-3" (handleSaveExam quiz Demo.school) = Demo.school.
Proof.
  cbn zeta.
  destruct (save_then_delete_exam (Demo.exam "exam-3" [Demo.question "q1" "A"])
              Demo.school) as (_ & _ & Hback).
  - intros e He. vm_compute in He.
    repeat (apply elem_of_cons in He as [->|He]; [discriminate|]).
    inversion He.
  - apply Hback. intros s Hs. vm_compute in Hs.
    repeat (apply elem_of_cons in Hs as [->|Hs]; [discriminate|]).
    inversion Hs.
Defined.
